(** * SageRender: pipeline builder, step registry and blueprint validation

    A shallow embedding of the core of [sagerender]:
    - [sagerender/builder/step.py]: the step-type discriminator and the
      pydantic step models;
    - [sagerender/builder/pipeline.py]: [PipelineBuilder], its reference
      resolver, with what it gives to [eval], and its step table;
    - [sagerender/builder/blueprint.py]: [PipelineBlueprint.validate] and
      [set_context];
    - [sagerender/utilities/common.py]: [env_vars_constructor],
      [resolve_package_name], [resolve_enum_name], [get_resource_config];
    - [sagerender/utilities/mixin.py]: [ResourceLocatorMixin];
    - [sagerender/cli]: the context of [upsert_pipeline.main] and the
      parameters of [run_pipeline.main].

    Python dictionaries keep their insertion order, and the resolver's
    behaviour depends on it, so a dictionary is an association list with
    string keys.  Python exceptions are values of [error]; a function that may
    raise returns a [result].  Methods of [PipelineBuilder] mutate the builder
    even when they raise, so they return the builder next to the result. *)

From Stdlib Require Import String Ascii List ZArith Bool Lia.
From stdpp Require Import base strings list gmap sets.

Open Scope string_scope.
Open Scope list_scope.

(** ** Values *)

(** A YAML/Python value.  [VObj cls fields] is an object of the SageMaker SDK
    (a parameter, a property file, a step, a helper, a lazy property path):
    its class and the keyword arguments it was made from. *)
#[warnings="-register-all"]
Inductive value : Type :=
| VNone
| VBool (b : bool)
| VInt (z : Z)
| VStr (s : string)
| VList (l : list value)
| VDict (d : list (string * value))
| VObj (cls : string) (fields : list (string * value)).

Abbreviation dict := (list (string * value)).

(** Python exceptions raised by the embedded code. *)
Inductive error : Type :=
| KeyError (key : string)
| TypeError (msg : string)
| AttributeError (msg : string)
| ValueError (msg : string)
| ValidationError (msg : string)
| RuntimeError (msg : string)
| SyntaxError (msg : string)
| RecursionError
| SagemakerStepException (step : string) (cause : error)
| PipelineBlueprintValidationError (msg : string)
| PipelineNotFoundError (msg : string).

Inductive result (A : Type) : Type :=
| Ok (a : A)
| Err (e : error).
Arguments Ok {A} a.
Arguments Err {A} e.

#[global] Instance result_ret : MRet result := fun _ a => Ok a.
#[global] Instance result_bind : MBind result := fun _ _ f r =>
  match r with
  | Ok a => f a
  | Err e => Err e
  end.

Definition is_ok {A : Type} (r : result A) : bool :=
  match r with Ok _ => true | Err _ => false end.

(** ** Dictionaries *)

Module Dict.

Fixpoint get (d : dict) (k : string) : option value :=
  match d with
  | [] => None
  | (k', v) :: d' => if String.eqb k k' then Some v else get d' k
  end.

Definition mem (d : dict) (k : string) : bool :=
  match get d k with Some _ => true | None => false end.

(** [d[k] = v]: an existing key keeps its position, a new key goes last. *)
Fixpoint set (d : dict) (k : string) (v : value) : dict :=
  match d with
  | [] => [(k, v)]
  | (k', v') :: d' =>
      if String.eqb k k' then (k', v) :: d' else (k', v') :: set d' k v
  end.

(** [del d[k]]; a key stands once in a Python dictionary. *)
Definition remove (d : dict) (k : string) : dict :=
  List.filter (fun kv => negb (String.eqb k (fst kv))) d.

(** [d.pop(k)] *)
Definition pop (d : dict) (k : string) : result (value * dict) :=
  match get d k with
  | Some v => Ok (v, remove d k)
  | None => Err (KeyError k)
  end.

(** [d.update(u)] *)
Definition update (d u : dict) : dict :=
  fold_left (fun acc kv => set acc (fst kv) (snd kv)) u d.

Definition keys (d : dict) : list string := map fst d.
Definition values (d : dict) : list value := map snd d.

(** No key occurs twice, as in every Python dictionary. *)
Definition wf (d : dict) : Prop := NoDup (keys d).

End Dict.

(** ** Strings, as Python's [str] methods *)

Module Str.

Definition startswith (s p : string) : bool := String.prefix p s.

Fixpoint drop (n : nat) (s : string) : string :=
  match n, s with
  | O, _ => s
  | S n', String _ s' => drop n' s'
  | S _, EmptyString => EmptyString
  end.

(** [sub in s] *)
Fixpoint contains (sub s : string) : bool :=
  String.prefix sub s ||
  match s with
  | EmptyString => false
  | String _ s' => contains sub s'
  end.

(** [s.split(sep)] for a non-empty [sep]: [cur] is the piece being read,
    [skip] counts the characters of a separator still to be passed. *)
Fixpoint split_aux (sep : string) (skip : nat) (cur : string) (s : string)
  : list string :=
  match s with
  | EmptyString => [cur]
  | String c s' =>
      match skip with
      | S n => split_aux sep n cur s'
      | O =>
          if String.prefix sep s
          then cur :: split_aux sep (String.length sep - 1) EmptyString s'
          else split_aux sep 0 (cur +:+ String c EmptyString) s'
      end
  end.

Definition split (sep s : string) : list string :=
  split_aux sep 0 EmptyString s.

(** [s.replace(old, new)] for a non-empty [old]: every occurrence, read
    from the left, occurrences not overlapping. *)
Fixpoint replace_aux (old new : string) (skip : nat) (s : string) : string :=
  match s with
  | EmptyString => EmptyString
  | String c s' =>
      match skip with
      | S n => replace_aux old new n s'
      | O =>
          if String.prefix old s
          then new +:+ replace_aux old new (String.length old - 1) s'
          else String c (replace_aux old new 0 s')
      end
  end.

Definition replace (old new s : string) : string :=
  replace_aux old new 0 s.

End Str.

(** The one-character string holding a double quote. *)
Definition double_quote : string := String (ascii_of_nat 34) EmptyString.

(** ** [sagerender/defaults.py] *)

Definition EXECUTION_VARIABLES_CLASS_PATH : string :=
  "sagemaker.workflow.execution_variables:ExecutionVariables".
Definition EXECUTION_VARIABLE_PREFIX : string := "exec:".
Definition FACTORY_ENUM : string := "factory_enum".
Definition FACTORY_FUNCTION : string := "factory_function".
Definition PARAMETER_PREFIX : string := "param:".
Definition PROPERTY_FILE_PREFIX : string := "propertyFile:".
Definition PROPERTIES_IDENTIFIER : string := ".properties.".
Definition RESERVED_STEP_KEYWORDS : list string :=
  ["role"; "sagemaker_session"; "security_group_ids"; "subnets"].

(** ** [sagerender/builder/step.py]: the discriminator *)

Definition step_types : gset string :=
  list_to_set
    [ "automl_kwargs"; "check_job_config_kwargs"; "conditions";
      "emr_step_config_kwargs"; "error_message"; "estimator_kwargs";
      "lambda_func_kwargs"; "model_kwargs"; "notebook_job_kwargs";
      "processor_kwargs"; "sqs_queue_url"; "transformer_kwargs";
      "tuner_kwargs" ].

Definition discriminator_message : string :=
  "Only one of the step types must be provided, except for the Hyperparameter Step: estimator_kwargs and tuner_kwargs".

(** [step_types & v.keys()] *)
Definition matched_keys (v : dict) : gset string :=
  step_types ∩ list_to_set (Dict.keys v).

Definition get_discriminator_value (v : dict) : result string :=
  let matched_key := matched_keys v in
  if decide (size matched_key = 1) then
    match elements matched_key with
    | k :: _ => Ok k
    | [] => Err (RuntimeError "StopIteration")
    end
  else if decide (size matched_key = 2
                  ∧ ({["estimator_kwargs"; "tuner_kwargs"]} : gset string) ⊆ matched_key)
  then Ok "tuner_kwargs"
  else Err (ValueError discriminator_message).

(** The members of the union of [StepModel.step], one per [Tag]. *)
Inductive step_variant : Type :=
| AutoMLStepModel
| CallbackStepModel
| ProcessingStepModel
| TrainingStepModel
| TuningStepModel
| TransformStepModel
| ModelStepModel
| CheckStepStepModel
| ConditionStepModel
| EMRStepModel
| FailStepModel
| LambdaStepModel
| NotebookJobStepModel.

Definition variant_tags : list (string * step_variant) :=
  [ ("automl_kwargs", AutoMLStepModel);
    ("sqs_queue_url", CallbackStepModel);
    ("processor_kwargs", ProcessingStepModel);
    ("estimator_kwargs", TrainingStepModel);
    ("tuner_kwargs", TuningStepModel);
    ("transformer_kwargs", TransformStepModel);
    ("model_kwargs", ModelStepModel);
    ("check_job_config_kwargs", CheckStepStepModel);
    ("conditions", ConditionStepModel);
    ("emr_step_config_kwargs", EMRStepModel);
    ("error_message", FailStepModel);
    ("lambda_func_kwargs", LambdaStepModel);
    ("notebook_job_kwargs", NotebookJobStepModel) ].

Fixpoint variant_of_tag_in (tags : list (string * step_variant)) (tag : string)
  : option step_variant :=
  match tags with
  | [] => None
  | (t, m) :: tags' => if String.eqb tag t then Some m else variant_of_tag_in tags' tag
  end.

Definition variant_of_tag : string -> option step_variant :=
  variant_of_tag_in variant_tags.

(** The variant pydantic validates [v] against: the tag the discriminator
    returns, looked up among the [Tag]s of the union. *)
Definition select_variant (v : dict) : result step_variant :=
  tag ← get_discriminator_value v;
  match variant_of_tag tag with
  | Some m => Ok m
  | None => Err (ValidationError "union_tag_invalid")
  end.

(** The discriminator key of a variant: the [Tag] it is annotated with. *)
Definition discriminator_key (m : step_variant) : string :=
  match m with
  | AutoMLStepModel => "automl_kwargs"
  | CallbackStepModel => "sqs_queue_url"
  | ProcessingStepModel => "processor_kwargs"
  | TrainingStepModel => "estimator_kwargs"
  | TuningStepModel => "tuner_kwargs"
  | TransformStepModel => "transformer_kwargs"
  | ModelStepModel => "model_kwargs"
  | CheckStepStepModel => "check_job_config_kwargs"
  | ConditionStepModel => "conditions"
  | EMRStepModel => "emr_step_config_kwargs"
  | FailStepModel => "error_message"
  | LambdaStepModel => "lambda_func_kwargs"
  | NotebookJobStepModel => "notebook_job_kwargs"
  end.

(** ** The SageMaker SDK, an external collaborator *)

(** What the code asked of the SDK, oldest first. *)
Inductive event : Type :=
| EvNew (cls : string) (kwargs : dict)
| EvResolve (package name : string)
| EvCall (f : value) (kwargs : dict)
| EvGetattr (o : value) (attr : string).

(** ** [sagerender/builder/pipeline.py]: the builder's state *)

Record PipelineBuilder : Type := {
  name : value;
  security_group_ids : list value;
  subnets : list value;
  parameters : dict;
  property_files : dict;
  pipeline : value;
  role_arn : value;
  sagemaker_session : value;
  max_parallel_execution_steps : value;
  steps : dict;
  tags : list value;
  use_custom_job_prefix : value;
  pipeline_experiment_config : value;
  (** not a field of the class: the calls made into the SDK so far *)
  sdk_events : list event
}.

(** A method of the builder: it may raise, and it leaves a builder behind
    either way. *)
Definition M (A : Type) : Type := PipelineBuilder -> result A * PipelineBuilder.

#[global] Instance M_ret : MRet M := fun _ a self => (Ok a, self).
#[global] Instance M_bind : MBind M := fun _ _ f m self =>
  match m self with
  | (Ok a, self') => f a self'
  | (Err e, self') => (Err e, self')
  end.

Definition raise {A : Type} (e : error) : M A := fun self => (Err e, self).
Definition lift {A : Type} (r : result A) : M A := fun self => (r, self).
Definition read {A : Type} (f : PipelineBuilder -> A) : M A :=
  fun self => (Ok (f self), self).
Definition modify (f : PipelineBuilder -> PipelineBuilder) : M unit :=
  fun self => (Ok tt, f self).

(** Nothing is assumed of the SDK: any of its operations may raise.
    - [sdk_new cls kwargs]: instantiate a class the source imports by name
      ([Pipeline], [PropertyFile], [ConditionStep], ...); the result holds the
      attributes of the new object;
    - [sdk_resolve package name]: [getattr(import_module(package), name)];
    - [sdk_call f kwargs]: call a resolved callable or a bound method;
    - [sdk_getattr o attr]: [getattr(o, attr)] on an SDK object.

    Nor is anything assumed of the interpreter on the expressions
    [_replace_argument] hands to [eval], but for the plain step references
    that [py_eval] below reads by itself:
    - [eval_expression source]: [eval(source)] inside the method, with [self]
      in scope; it may return anything, raise anything, and leave the builder
      changed. *)
Class Sdk : Type := {
  sdk_new : string -> dict -> result dict;
  sdk_resolve : string -> string -> result value;
  sdk_call : value -> dict -> result value;
  sdk_getattr : value -> string -> result value;
  eval_expression : string -> M value
}.

Definition log_event (ev : event) (self : PipelineBuilder) : PipelineBuilder :=
  {| name := name self;
     security_group_ids := security_group_ids self;
     subnets := subnets self;
     parameters := parameters self;
     property_files := property_files self;
     pipeline := pipeline self;
     role_arn := role_arn self;
     sagemaker_session := sagemaker_session self;
     max_parallel_execution_steps := max_parallel_execution_steps self;
     steps := steps self;
     tags := tags self;
     use_custom_job_prefix := use_custom_job_prefix self;
     pipeline_experiment_config := pipeline_experiment_config self;
     sdk_events := sdk_events self ++ [ev] |}.

Definition set_steps (d : dict) (self : PipelineBuilder) : PipelineBuilder :=
  {| name := name self;
     security_group_ids := security_group_ids self;
     subnets := subnets self;
     parameters := parameters self;
     property_files := property_files self;
     pipeline := pipeline self;
     role_arn := role_arn self;
     sagemaker_session := sagemaker_session self;
     max_parallel_execution_steps := max_parallel_execution_steps self;
     steps := d;
     tags := tags self;
     use_custom_job_prefix := use_custom_job_prefix self;
     pipeline_experiment_config := pipeline_experiment_config self;
     sdk_events := sdk_events self |}.

Definition set_pipeline (p : value) (self : PipelineBuilder) : PipelineBuilder :=
  {| name := name self;
     security_group_ids := security_group_ids self;
     subnets := subnets self;
     parameters := parameters self;
     property_files := property_files self;
     pipeline := p;
     role_arn := role_arn self;
     sagemaker_session := sagemaker_session self;
     max_parallel_execution_steps := max_parallel_execution_steps self;
     steps := steps self;
     tags := tags self;
     use_custom_job_prefix := use_custom_job_prefix self;
     pipeline_experiment_config := pipeline_experiment_config self;
     sdk_events := sdk_events self |}.

(** [d[k]] *)
Definition subscript (d : dict) (k : string) : result value :=
  match Dict.get d k with
  | Some v => Ok v
  | None => Err (KeyError k)
  end.

(** [bool(v)]: an SDK object defines neither [__bool__] nor [__len__]. *)
Definition truthy (v : value) : bool :=
  match v with
  | VNone => false
  | VBool b => b
  | VInt z => negb (Z.eqb z 0)
  | VStr s => negb (String.eqb s "")
  | VList l => match l with [] => false | _ => true end
  | VDict d => match d with [] => false | _ => true end
  | VObj _ _ => true
  end.

(** Iterating over a value, as a comprehension does. *)
Fixpoint chars (s : string) : list value :=
  match s with
  | EmptyString => []
  | String c s' => VStr (String c EmptyString) :: chars s'
  end.

Definition py_iter (v : value) : result (list value) :=
  match v with
  | VList l => Ok l
  | VStr s => Ok (chars s)
  | VDict d => Ok (map VStr (Dict.keys d))
  | _ => Err (TypeError "object is not iterable")
  end.

(** A call with the keywords [explicit] followed by an unpacked dictionary
    [extra]: a keyword given twice is a [TypeError]. *)
Definition keywords (explicit extra : dict) : result dict :=
  if existsb (fun k => Dict.mem explicit k) (Dict.keys extra)
  then Err (TypeError "got multiple values for keyword argument")
  else Ok (explicit ++ extra).

(** [s.rsplit(sep=":", maxsplit=1)]: [None] when [s] has no colon. *)
Fixpoint rsplit_colon (s : string) : option (string * string) :=
  match s with
  | EmptyString => None
  | String c s' =>
      match rsplit_colon s' with
      | Some (a, b) => Some (String c a, b)
      | None => if Ascii.eqb c ":" then Some (EmptyString, s') else None
      end
  end.

(** ** Step references, as [eval] reads them *)

(** [s.replace(old, new)] for any [old]: with the empty string for [old],
    [new] goes before every character and after the last. *)
Fixpoint interleave (new s : string) : string :=
  match s with
  | EmptyString => new
  | String c s' => new +:+ String c (interleave new s')
  end.

Definition replace_occurrences (old new s : string) : string :=
  if String.eqb old EmptyString then interleave new s else Str.replace old new s.

(** [f'self.steps["{step_name}"]'] *)
Definition step_subscription (step_name : string) : string :=
  "self.steps[" +:+ double_quote +:+ step_name +:+ double_quote +:+ "]".

(** What [_replace_argument] gives to [eval] for an argument with
    [.properties.] in it: the step name is what stands before the first
    [.properties.], and every occurrence of it in the argument is replaced. *)
Definition eval_source (argument : string) : string :=
  let step_name := nth 0 (Str.split PROPERTIES_IDENTIFIER argument) "" in
  replace_occurrences step_name (step_subscription step_name) argument.

Definition is_letter (c : ascii) : bool :=
  let n := nat_of_ascii c in
  (Nat.leb 65 n && Nat.leb n 90) || (Nat.leb 97 n && Nat.leb n 122) || Nat.eqb n 95.

Definition is_digit (c : ascii) : bool :=
  let n := nat_of_ascii c in Nat.leb 48 n && Nat.leb n 57.

Fixpoint all_chars (p : ascii -> bool) (s : string) : bool :=
  match s with
  | EmptyString => true
  | String c s' => p c && all_chars p s'
  end.

Definition python_keywords : list string :=
  [ "False"; "None"; "True"; "and"; "as"; "assert"; "async"; "await"; "break";
    "class"; "continue"; "def"; "del"; "elif"; "else"; "except"; "finally";
    "for"; "from"; "global"; "if"; "import"; "in"; "is"; "lambda"; "nonlocal";
    "not"; "or"; "pass"; "raise"; "return"; "try"; "while"; "with"; "yield" ].

(** A name that can stand after a dot: letters, digits and underscores of
    ASCII, no digit first, no keyword. *)
Definition identifier (s : string) : bool :=
  match s with
  | EmptyString => false
  | String c s' => is_letter c && all_chars (fun a => is_letter a || is_digit a) s'
  end
  && negb (existsb (String.eqb s) python_keywords).

(** A character that stands for itself between double quotes: printable
    ASCII, neither the double quote nor the backslash. *)
Definition plain_char (c : ascii) : bool :=
  let n := nat_of_ascii c in
  Nat.leb 32 n && Nat.leb n 126 && negb (Nat.eqb n 34) && negb (Nat.eqb n 92).

(** From just after an opening double quote: the text up to the closing
    one, and what follows it; nothing when a character that does not stand
    for itself comes first. *)
Fixpoint until_quote (s : string) : option (string * string) :=
  match s with
  | EmptyString => None
  | String c s' =>
      if Ascii.eqb c (ascii_of_nat 34) then Some (EmptyString, s')
      else if plain_char c then
        match until_quote s' with
        | Some (text, rest) => Some (String c text, rest)
        | None => None
        end
      else None
  end.

(** A path of attribute names, each after its dot, up to the end. *)
Definition attribute_path (s : string) : option (list string) :=
  match Str.split "." s with
  | EmptyString :: names => if forallb identifier names then Some names else None
  | _ => None
  end.

(** The source [self.steps["<step name>"]] followed by a path of attribute
    names: the step name and the path. *)
Definition parse_reference (source : string) : option (string * list string) :=
  if String.prefix ("self.steps[" +:+ double_quote) source then
    match until_quote (Str.drop (String.length ("self.steps[" +:+ double_quote)) source) with
    | Some (step_name, String "]" path) =>
        match attribute_path path with
        | Some names => Some (step_name, names)
        | None => None
        end
    | _ => None
    end
  else None.

Section WithSdk.

Context `{Sdk}.

(** *** Calls into the SDK, recorded *)

Definition new (cls : string) (kwargs : dict) : M value :=
  fun self =>
    (attrs ← sdk_new cls kwargs; mret (VObj cls attrs),
     log_event (EvNew cls kwargs) self).

Definition call (f : value) (kwargs : dict) : M value :=
  fun self => (sdk_call f kwargs, log_event (EvCall f kwargs) self).

Definition getattr (o : value) (attr : string) : M value :=
  fun self => (sdk_getattr o attr, log_event (EvGetattr o attr) self).

(** [o.method] called with the keywords [kwargs] *)
Definition method (o : value) (meth : string) (kwargs : dict) : M value :=
  f ← getattr o meth; call f kwargs.

(** *** [sagerender/utilities/common.py] *)

Definition resolve_package_name (package_name : string) : M value :=
  match Str.split ":" package_name with
  | [package; nm] =>
      fun self => (sdk_resolve package nm, log_event (EvResolve package nm) self)
  | _ => raise (ValueError "package, name = package_name.split(':')")
  end.

Definition resolve_enum_name (enum_package_name : string) : M value :=
  match rsplit_colon enum_package_name with
  | Some (package_name, enum) =>
      cls ← resolve_package_name package_name; getattr cls enum
  | None => raise (ValueError "package_name, enum = enum_package_name.rsplit")
  end.

(** *** The reference resolver *)

(** [getattr] along a path of attribute names, left to right. *)
Fixpoint getattrs (o : value) (path : list string) : M value :=
  match path with
  | [] => mret o
  | attr :: path' => o' ← getattr o attr; getattrs o' path'
  end.

(** [eval(source)] inside the method.  A source that reads as the
    subscription of [self.steps] at a string, followed by attribute names, is
    evaluated as Python evaluates it: the subscription first, a [KeyError]
    when the table has no such step, then the attributes one after the
    other, each up to the SDK.  Any other source is left to the
    interpreter. *)
Definition py_eval (source : string) : M value :=
  match parse_reference source with
  | Some (step_name, path) =>
      self_steps ← read steps;
      step ← lift (subscript self_steps step_name);
      getattrs step path
  | None => eval_expression source
  end.

(** The last case of the [match] evaluates, with [eval], the argument in
    which every occurrence of the step name is replaced by
    [self.steps["<step name>"]]. *)
Definition _replace_argument (argument : value) : M value :=
  match argument with
  | VStr arg =>
      if Str.startswith arg PARAMETER_PREFIX then
        self_parameters ← read parameters;
        lift (subscript self_parameters (nth 1 (Str.split ":" arg) ""))
      else if Str.startswith arg EXECUTION_VARIABLE_PREFIX then
        resolve_enum_name
          (EXECUTION_VARIABLES_CLASS_PATH +:+ ":" +:+ nth 1 (Str.split ":" arg) "")
      else if Str.startswith arg PROPERTY_FILE_PREFIX then
        self_property_files ← read property_files;
        lift (subscript self_property_files (nth 1 (Str.split ":" arg) ""))
      else if Str.contains PROPERTIES_IDENTIFIER arg then
        py_eval (eval_source arg)
      else mret argument
  | _ => mret argument
  end.

(** The callable that [resolve_package_name(factory_function)] gives,
    called with the keywords [self._replace_step_arguments(kwargs)].  The
    caller unpacks [arguments] into the two parameters [factory_function]
    and [kwargs]; [rec] is [self._replace_step_arguments]. *)
Definition _replace_factory_function
    (rec : dict -> M value) (arguments : dict) : M value :=
  if negb (forallb (fun k => String.eqb k "factory_function" || String.eqb k "kwargs")
             (Dict.keys arguments))
  then raise (TypeError "got an unexpected keyword argument")
  else
    match Dict.get arguments "factory_function", Dict.get arguments "kwargs" with
    | Some factory_function, Some kwargs =>
        f ← match factory_function with
            | VStr s => resolve_package_name s
            | _ => raise (AttributeError "split")
            end;
        resolved ← match kwargs with
                   | VDict d => rec d
                   | _ => raise (AttributeError "keys")
                   end;
        match resolved with
        | VDict d => call f d
        | _ => raise (TypeError "argument after ** must be a mapping")
        end
    | _, _ => raise (TypeError "missing a required positional argument")
    end.

(** The inner loop of [_replace_step_arguments], over the items of a list
    value: a dictionary goes back through [rec], anything else through
    [_replace_argument]. *)
Fixpoint replace_items (rec : dict -> M value) (l : list value) : M (list value) :=
  match l with
  | [] => mret []
  | argument :: l' =>
      a ← match argument with
          | VDict d => rec d
          | _ => _replace_argument argument
          end;
      r ← replace_items rec l';
      mret (a :: r)
  end.

(** The loop of [_replace_step_arguments] over the keys.  The caller's
    dictionary is rebuilt entry by entry: [done] holds the entries the loop
    has passed, with their new values, [todo] the rest. *)
Fixpoint replace_entries (rec : dict -> M value) (done todo : dict) : M value :=
  match todo with
  | [] => mret (VDict done)
  | (key, v) :: todo' =>
      if String.eqb key FACTORY_FUNCTION then
        _replace_factory_function rec (done ++ todo)
      else if String.eqb key FACTORY_ENUM then
        match v with
        | VStr s => resolve_enum_name s
        | _ => raise (AttributeError "rsplit")
        end
      else
        v' ← match v with
             | VDict d => rec d
             | VList l => l' ← replace_items rec l; mret (VList l')
             | VStr _ => _replace_argument v
             | _ => mret v
             end;
        replace_entries rec (done ++ [(key, v')]) todo'
  end.

(** [depth] is what is left of the interpreter's recursion limit. *)
Fixpoint _replace_step_arguments (depth : nat) (arguments : dict) : M value :=
  match depth with
  | O => raise RecursionError
  | S depth' => replace_entries (_replace_step_arguments depth') [] arguments
  end.

End WithSdk.

(** ** [sagerender/builder/step.py]: the pydantic models

    pydantic is modelled by what the models declare: a required field must be
    present, a present field must have the declared shape, an absent optional
    field takes its default, and undeclared keys are kept as extra
    attributes ([extra = allow]). *)

Inductive ftype : Type :=
| TStr          (* str *)
| TDict         (* Dict, Dict[str, Any] *)
| TList         (* List, List[Any] *)
| TAny          (* Any *)
| TDictOrList.  (* Union[Dict[str, Any], List[Any]] *)

Record field : Type := {
  fname : string;
  fty : ftype;
  foptional : bool;          (* Optional[...]: [None] is accepted *)
  fdefault : option value    (* [None]: the field is required *)
}.

Definition required (n : string) (t : ftype) : field :=
  {| fname := n; fty := t; foptional := false; fdefault := None |}.
Definition optional (n : string) (t : ftype) (d : value) : field :=
  {| fname := n; fty := t; foptional := true; fdefault := Some d |}.

Definition has_type (t : ftype) (v : value) : bool :=
  match t, v with
  | TStr, VStr _ => true
  | TDict, VDict _ => true
  | TList, VList _ => true
  | TAny, _ => true
  | TDictOrList, VDict _ => true
  | TDictOrList, VList _ => true
  | _, _ => false
  end.

Definition is_none (v : value) : bool :=
  match v with VNone => true | _ => false end.

Definition conforms (f : field) (v : value) : bool :=
  (foptional f && is_none v) || has_type (fty f) v.

Definition BaseStepModel_fields : list field :=
  [ required "name" TStr;
    optional "depends_on" TList VNone;
    optional "cache_config" TAny VNone;
    optional "retry_policies" TList VNone ].

(** The fields a model declares itself; [ModelStepModel] declares
    [retry_policies] again, with a wider type. *)
Definition own_fields (m : step_variant) : list field :=
  match m with
  | AutoMLStepModel =>
      [ optional "automl" TStr (VStr "sagemaker.automl.automl:AutoML");
        required "automl_kwargs" TDict;
        required "fit_kwargs" TDict ]
  | CallbackStepModel =>
      [ required "sqs_queue_url" TStr;
        required "inputs" TDict;
        required "outputs" TList ]
  | CheckStepStepModel =>
      [ required "check_job_config_kwargs" TDict;
        optional "clarify_check_config" TAny VNone;
        optional "quality_check_config" TAny VNone ]
  | ConditionStepModel =>
      [ required "conditions" TList;
        required "if_steps" TList;
        required "else_steps" TList ]
  | EMRStepModel =>
      [ required "emr_step_config_kwargs" TDict;
        optional "cluster_id" TStr VNone;
        optional "cluster_config" TDict VNone;
        optional "execution_role_arn" TStr VNone;
        required "display_name" TStr;
        required "description" TStr ]
  | FailStepModel =>
      [ required "error_message" TAny ]
  | LambdaStepModel =>
      [ optional "lambda_func" TStr (VStr "sagemaker.lambda_helper:Lambda");
        required "lambda_func_kwargs" TDict;
        optional "inputs" TDict VNone;
        optional "outputs" TList VNone ]
  | ModelStepModel =>
      [ optional "model" TStr (VStr "sagemaker.model:Model");
        required "model_kwargs" TDict;
        optional "create_model_kwargs" TDict VNone;
        optional "register_model_kwargs" TDict VNone;
        optional "retry_policies" TDictOrList VNone ]
  | NotebookJobStepModel =>
      [ required "notebook_job_kwargs" TDict ]
  | ProcessingStepModel =>
      [ optional "processor" TStr (VStr "sagemaker.processing:Processor");
        required "processor_kwargs" TDict;
        required "step_kwargs" TDict;
        optional "property_files" TList VNone ]
  | TrainingStepModel =>
      [ optional "estimator" TStr (VStr "sagemaker.estimator:Estimator");
        required "estimator_kwargs" TDict;
        required "fit_kwargs" TDict ]
  | TransformStepModel =>
      [ optional "transformer" TStr (VStr "sagemaker.transformer:Transformer");
        required "transformer_kwargs" TDict;
        required "step_kwargs" TDict ]
  | TuningStepModel =>
      [ optional "estimator" TStr (VStr "sagemaker.estimator:Estimator");
        required "estimator_kwargs" TDict;
        required "fit_kwargs" TDict;
        optional "tuner" TStr (VStr "sagemaker.tuner:HyperparameterTuner");
        required "tuner_kwargs" TDict ]
  end.

Definition declares (fs : list field) (n : string) : bool :=
  existsb (fun f => String.eqb (fname f) n) fs.

(** [model_fields]: the inherited fields a model does not declare again,
    then its own. *)
Definition model_fields (m : step_variant) : list field :=
  List.filter (fun f => negb (declares (own_fields m) (fname f))) BaseStepModel_fields
  ++ own_fields m.

(** A validated model: its declared fields, defaults filled in, and the
    undeclared keys of the input ([model_extra]). *)
Record step_model : Type := {
  variant : step_variant;
  fields : dict;
  model_extra : dict
}.

Fixpoint validate_fields (fs : list field) (v : dict) : result dict :=
  match fs with
  | [] => Ok []
  | f :: fs' =>
      x ← match Dict.get v (fname f) with
          | Some a =>
              if conforms f a then Ok a
              else Err (ValidationError ("Input should be valid: " +:+ fname f))
          | None =>
              match fdefault f with
              | Some d => Ok d
              | None => Err (ValidationError ("Field required: " +:+ fname f))
              end
          end;
      rest ← validate_fields fs' v;
      mret ((fname f, x) :: rest)
  end.

(** [getattr(self, k)] on a model *)
Definition attr (m : step_model) (k : string) : result value :=
  match Dict.get (fields m) k with
  | Some v => Ok v
  | None =>
      match Dict.get (model_extra m) k with
      | Some v => Ok v
      | None => Err (AttributeError k)
      end
  end.

(** [self.a is not None] for a declared field [a] *)
Definition is_not_none (m : step_model) (k : string) : bool :=
  match Dict.get (fields m) k with
  | Some v => negb (is_none v)
  | None => false
  end.

(** The three [mutually_exclusive] validators ([mode = after]); pydantic
    turns the [ValueError] they raise into its validation error. *)
Definition CheckStepStepModel_mutually_exclusive (m : step_model) : result step_model :=
  if negb (xorb (is_not_none m "clarify_check_config")
                (is_not_none m "quality_check_config"))
  then Err (ValidationError
              "Either specify `clarify_check_config` or `quality_check_config`.")
  else Ok m.

Definition EMRStepModel_mutually_exclusive (m : step_model) : result step_model :=
  if negb (xorb (is_not_none m "cluster_id") (is_not_none m "cluster_config"))
  then Err (ValidationError "Either specify `cluster_id` or `cluster_config`.")
  else Ok m.

Definition ModelStepModel_mutually_exclusive (m : step_model) : result step_model :=
  if negb (xorb (is_not_none m "create_model_kwargs")
                (is_not_none m "register_model_kwargs"))
  then Err (ValidationError
              "Either specify `create_model_kwargs` or `register_model_kwargs`.")
  else Ok m.

Definition after_validators (m : step_model) : result step_model :=
  match variant m with
  | CheckStepStepModel => CheckStepStepModel_mutually_exclusive m
  | EMRStepModel => EMRStepModel_mutually_exclusive m
  | ModelStepModel => ModelStepModel_mutually_exclusive m
  | _ => Ok m
  end.

(** Validation of [v] against the model [mv]. *)
Definition validate_variant (mv : step_variant) (v : dict) : result step_model :=
  fs ← validate_fields (model_fields mv) v;
  after_validators
    {| variant := mv;
       fields := fs;
       model_extra :=
         List.filter (fun kv => negb (declares (model_fields mv) (fst kv))) v |}.

(** [StepModel.model_validate(obj)]: the one field [step] is a union tagged
    by [get_discriminator_value]. *)
Definition StepModel_model_validate (obj : dict) : result step_model :=
  match Dict.get obj "step" with
  | Some (VDict v) =>
      mv ← select_variant v;
      validate_variant mv v
  | Some _ => Err (AttributeError "keys")
  | None => Err (ValidationError "Field required: step")
  end.

(** The [kwargs] property of [BaseStepModel]. *)
Definition model_kwargs (m : step_model) : dict :=
  List.filter
    (fun kv =>
       negb (declares (model_fields (variant m)) (fst kv))
       && negb (existsb (String.eqb (fst kv)) RESERVED_STEP_KEYWORDS))
    (model_extra m).

Section StepBuilds.

Context `{Sdk}.

(** The keywords [(kw, self.a)] for each pair [(kw, a)]. *)
Fixpoint attrs (m : step_model) (pairs : list (string * string)) : result dict :=
  match pairs with
  | [] => Ok []
  | (kw, a) :: pairs' =>
      v ← attr m a;
      rest ← attrs m pairs';
      mret ((kw, v) :: rest)
  end.

(** [resolve_package_name(self.a)] *)
Definition resolve_attr (m : step_model) (a : string) : M value :=
  v ← lift (attr m a);
  match v with
  | VStr s => resolve_package_name s
  | _ => raise (AttributeError "split")
  end.

(** An attribute unpacked into keywords. *)
Definition unpack_attr (m : step_model) (a : string) : result dict :=
  v ← attr m a;
  match v with
  | VDict d => Ok d
  | _ => Err (TypeError "argument after ** must be a mapping")
  end.

Definition vpc_config (m : step_model) : result value :=
  sg ← attr m "security_group_ids";
  sn ← attr m "subnets";
  mret (VDict [("SecurityGroupIds", sg); ("Subnets", sn)]).

Definition network_config (m : step_model) : M value :=
  kw ← lift (attrs m [("security_group_ids", "security_group_ids");
                      ("subnets", "subnets")]);
  new "NetworkConfig" kw.

(** A step class called with the keywords [explicit], then [self.kwargs]. *)
Definition new_step (cls : string) (m : step_model) (explicit : dict) : M value :=
  kw ← lift (keywords explicit (model_kwargs m));
  new cls kw.

Definition AutoMLStepModel_build (m : step_model) : M value :=
  cls ← resolve_attr m "automl";
  base ← lift (attrs m [("role", "role"); ("sagemaker_session", "sagemaker_session")]);
  vpc ← lift (vpc_config m);
  extra ← lift (unpack_attr m "automl_kwargs");
  kw ← lift (keywords (base ++ [("vpc_config", vpc)]) extra);
  automl_processor ← call cls kw;
  nm ← lift (attrs m [("name", "name")]);
  fit_kwargs ← lift (unpack_attr m "fit_kwargs");
  step_args ← method automl_processor "fit" fit_kwargs;
  rest ← lift (attrs m [("cache_config", "cache_config"); ("depends_on", "depends_on");
                        ("retry_policies", "retry_policies")]);
  new_step "AutoMLStep" m (nm ++ [("step_args", step_args)] ++ rest).

Definition CallbackStepModel_build (m : step_model) : M value :=
  kw ← lift (attrs m [("name", "name"); ("sqs_queue_url", "sqs_queue_url");
                      ("inputs", "inputs"); ("outputs", "outputs");
                      ("cache_config", "cache_config"); ("depends_on", "depends_on")]);
  new "CallbackStep" kw.

Definition check_job_config (m : step_model) : M value :=
  base ← lift (attrs m [("role", "role"); ("sagemaker_session", "sagemaker_session")]);
  nc ← network_config m;
  extra ← lift (unpack_attr m "check_job_config_kwargs");
  kw ← lift (keywords (base ++ [("network_config", nc)]) extra);
  new "CheckJobConfig" kw.

Definition CheckStepStepModel_build (m : step_model) : M value :=
  chosen ←
    (if is_not_none m "clarify_check_config" then
       c ← lift (attr m "clarify_check_config");
       mret ("sagemaker.workflow.clarify_check_step:ClarifyCheckStep",
             Dict.set (model_kwargs m) "clarify_check_config" c)
     else if is_not_none m "quality_check_config" then
       c ← lift (attr m "quality_check_config");
       mret ("sagemaker.workflow.quality_check_step:QualityCheckStep",
             Dict.set (model_kwargs m) "quality_check_config" c)
     else raise (RuntimeError "Unsupported step config defined."));
  cls ← resolve_package_name (fst chosen);
  nm ← lift (attrs m [("name", "name")]);
  cfg ← check_job_config m;
  rest ← lift (attrs m [("cache_config", "cache_config"); ("depends_on", "depends_on")]);
  kw ← lift (keywords (nm ++ [("check_job_config", cfg)] ++ rest) (snd chosen));
  call cls kw.

Definition ConditionStepModel_build (m : step_model) : M value :=
  kw ← lift (attrs m [("name", "name"); ("conditions", "conditions");
                      ("if_steps", "if_steps"); ("else_steps", "else_steps");
                      ("depends_on", "depends_on")]);
  new_step "ConditionStep" m kw.

Definition EMRStepModel_build (m : step_model) : M value :=
  cfg_kwargs ← lift (unpack_attr m "emr_step_config_kwargs");
  emr_step_config ← new "EMRStepConfig" cfg_kwargs;
  execution_role_arn ←
    (if is_not_none m "cluster_id" then
       e ← lift (attr m "execution_role_arn");
       if truthy e then mret e else lift (attr m "role")
     else lift (attr m "execution_role_arn"));
  ids ← lift (attrs m [("name", "name"); ("cluster_id", "cluster_id")]);
  rest ← lift (attrs m [("cluster_config", "cluster_config")]);
  tail ← lift (attrs m [("cache_config", "cache_config"); ("depends_on", "depends_on");
                        ("display_name", "display_name");
                        ("description", "description")]);
  new "EMRStep"
    (ids ++ [("step_config", emr_step_config)] ++ rest
         ++ [("execution_role_arn", execution_role_arn)] ++ tail).

Definition FailStepModel_build (m : step_model) : M value :=
  kw ← lift (attrs m [("name", "name"); ("error_message", "error_message");
                      ("depends_on", "depends_on")]);
  new_step "FailStep" m kw.

Definition LambdaStepModel_build (m : step_model) : M value :=
  given ← lift (unpack_attr m "lambda_func_kwargs");
  lambda_func_kwargs ←
    (if Dict.mem given "execution_role_arn" then mret given
     else role ← lift (attr m "role"); mret (Dict.set given "execution_role_arn" role));
  cls ← resolve_attr m "lambda_func";
  session ← lift (attrs m [("session", "sagemaker_session")]);
  vpc ← lift (vpc_config m);
  kw ← lift (keywords (session ++ [("vpc_config", vpc)]) lambda_func_kwargs);
  lambda_func ← call cls kw;
  nm ← lift (attrs m [("name", "name")]);
  rest ← lift (attrs m [("inputs", "inputs"); ("outputs", "outputs");
                        ("cache_config", "cache_config"); ("depends_on", "depends_on")]);
  new_step "LambdaStep" m (nm ++ [("lambda_func", lambda_func)] ++ rest).

Definition ModelStepModel_build (m : step_model) : M value :=
  cls ← resolve_attr m "model";
  base ← lift (attrs m [("role", "role"); ("sagemaker_session", "sagemaker_session")]);
  vpc ← lift (vpc_config m);
  extra ← lift (unpack_attr m "model_kwargs");
  kw ← lift (keywords (base ++ [("vpc_config", vpc)]) extra);
  model ← call cls kw;
  step_args ←
    (if is_not_none m "create_model_kwargs" then
       a ← lift (unpack_attr m "create_model_kwargs"); method model "create" a
     else if is_not_none m "register_model_kwargs" then
       a ← lift (unpack_attr m "register_model_kwargs"); method model "register" a
     else raise (RuntimeError "`step_args` cannot be instantiated."));
  nm ← lift (attrs m [("name", "name")]);
  rest ← lift (attrs m [("depends_on", "depends_on"); ("retry_policies", "retry_policies")]);
  new_step "ModelStep" m (nm ++ [("step_args", step_args)] ++ rest).

Definition NotebookJobStepModel_build (m : step_model) : M value :=
  base ← lift (attrs m [("name", "name"); ("role", "role");
                        ("security_group_ids", "security_group_ids");
                        ("subnets", "subnets"); ("depends_on", "depends_on");
                        ("retry_policies", "retry_policies")]);
  extra ← lift (unpack_attr m "notebook_job_kwargs");
  kw ← lift (keywords base extra);
  new "NotebookJobStep" kw.

Definition ProcessingStepModel_build (m : step_model) : M value :=
  cls ← resolve_attr m "processor";
  base ← lift (attrs m [("role", "role"); ("sagemaker_session", "sagemaker_session")]);
  nc ← network_config m;
  extra ← lift (unpack_attr m "processor_kwargs");
  kw ← lift (keywords (base ++ [("network_config", nc)]) extra);
  processor ← call cls kw;
  nm ← lift (attrs m [("name", "name")]);
  step_kwargs ← lift (unpack_attr m "step_kwargs");
  step_args ← method processor "run" step_kwargs;
  rest ← lift (attrs m [("property_files", "property_files");
                        ("cache_config", "cache_config");
                        ("retry_policies", "retry_policies");
                        ("depends_on", "depends_on")]);
  new_step "ProcessingStep" m (nm ++ [("step_args", step_args)] ++ rest).

Definition estimator_of (m : step_model) : M value :=
  cls ← resolve_attr m "estimator";
  base ← lift (attrs m [("role", "role"); ("sagemaker_session", "sagemaker_session");
                        ("security_group_ids", "security_group_ids");
                        ("subnets", "subnets")]);
  extra ← lift (unpack_attr m "estimator_kwargs");
  kw ← lift (keywords base extra);
  call cls kw.

Definition TrainingStepModel_build (m : step_model) : M value :=
  estimator ← estimator_of m;
  nm ← lift (attrs m [("name", "name")]);
  fit_kwargs ← lift (unpack_attr m "fit_kwargs");
  step_args ← method estimator "fit" fit_kwargs;
  rest ← lift (attrs m [("cache_config", "cache_config");
                        ("retry_policies", "retry_policies");
                        ("depends_on", "depends_on")]);
  new_step "TrainingStep" m (nm ++ [("step_args", step_args)] ++ rest).

Definition TransformStepModel_build (m : step_model) : M value :=
  cls ← resolve_attr m "transformer";
  session ← lift (attrs m [("sagemaker_session", "sagemaker_session")]);
  extra ← lift (unpack_attr m "transformer_kwargs");
  kw ← lift (keywords session extra);
  transformer ← call cls kw;
  nm ← lift (attrs m [("name", "name")]);
  step_kwargs ← lift (unpack_attr m "step_kwargs");
  step_args ← method transformer "transform" step_kwargs;
  rest ← lift (attrs m [("cache_config", "cache_config");
                        ("retry_policies", "retry_policies");
                        ("depends_on", "depends_on")]);
  new_step "TransformStep" m (nm ++ [("step_args", step_args)] ++ rest).

Definition TuningStepModel_build (m : step_model) : M value :=
  estimator ← estimator_of m;
  cls ← resolve_attr m "tuner";
  extra ← lift (unpack_attr m "tuner_kwargs");
  kw ← lift (keywords [("estimator", estimator)] extra);
  tuner ← call cls kw;
  nm ← lift (attrs m [("name", "name")]);
  fit_kwargs ← lift (unpack_attr m "fit_kwargs");
  step_args ← method tuner "fit" fit_kwargs;
  rest ← lift (attrs m [("cache_config", "cache_config");
                        ("retry_policies", "retry_policies");
                        ("depends_on", "depends_on")]);
  new_step "TuningStep" m (nm ++ [("step_args", step_args)] ++ rest).

(** [self.step.build()] *)
Definition step_build (m : step_model) : M value :=
  match variant m with
  | AutoMLStepModel => AutoMLStepModel_build m
  | CallbackStepModel => CallbackStepModel_build m
  | ProcessingStepModel => ProcessingStepModel_build m
  | TrainingStepModel => TrainingStepModel_build m
  | TuningStepModel => TuningStepModel_build m
  | TransformStepModel => TransformStepModel_build m
  | ModelStepModel => ModelStepModel_build m
  | CheckStepStepModel => CheckStepStepModel_build m
  | ConditionStepModel => ConditionStepModel_build m
  | EMRStepModel => EMRStepModel_build m
  | FailStepModel => FailStepModel_build m
  | LambdaStepModel => LambdaStepModel_build m
  | NotebookJobStepModel => NotebookJobStepModel_build m
  end.

Definition step_model_name (m : step_model) : string :=
  match Dict.get (fields m) "name" with
  | Some (VStr s) => s
  | _ => ""
  end.

(** [StepModel.build]: whatever the build raises is wrapped. *)
Definition StepModel_build (m : step_model) : M value :=
  fun self =>
    match step_build m self with
    | (Ok step, self') => (Ok step, self')
    | (Err err, self') =>
        (Err (SagemakerStepException (step_model_name m) err), self')
    end.

End StepBuilds.

Definition set_parameters (d : dict) (self : PipelineBuilder) : PipelineBuilder :=
  {| name := name self;
     security_group_ids := security_group_ids self;
     subnets := subnets self;
     parameters := d;
     property_files := property_files self;
     pipeline := pipeline self;
     role_arn := role_arn self;
     sagemaker_session := sagemaker_session self;
     max_parallel_execution_steps := max_parallel_execution_steps self;
     steps := steps self;
     tags := tags self;
     use_custom_job_prefix := use_custom_job_prefix self;
     pipeline_experiment_config := pipeline_experiment_config self;
     sdk_events := sdk_events self |}.

Definition set_property_files (d : dict) (self : PipelineBuilder) : PipelineBuilder :=
  {| name := name self;
     security_group_ids := security_group_ids self;
     subnets := subnets self;
     parameters := parameters self;
     property_files := d;
     pipeline := pipeline self;
     role_arn := role_arn self;
     sagemaker_session := sagemaker_session self;
     max_parallel_execution_steps := max_parallel_execution_steps self;
     steps := steps self;
     tags := tags self;
     use_custom_job_prefix := use_custom_job_prefix self;
     pipeline_experiment_config := pipeline_experiment_config self;
     sdk_events := sdk_events self |}.

(** [str(v)], as an f-string prints it; an object prints as its class. *)
Definition py_str (v : value) : string :=
  match v with
  | VNone => "None"
  | VBool true => "True"
  | VBool false => "False"
  | VStr s => s
  | VObj cls _ => cls
  | _ => "..."
  end.

(** The top-level names of a pipeline configuration that are not steps. *)
Definition reserved_pipeline_keys : list string :=
  [ "name"; "parameters"; "max_parallel_execution_steps"; "property_files";
    "use_custom_job_prefix"; "pipeline_experiment_config" ].

Section PipelineBuilderMethods.

Context `{Sdk}.

(** The interpreter's recursion limit, as far as the resolver may use it. *)
Variable recursion_limit : nat.

Definition add_parameter (parameter : string) (v : dict) : M unit :=
  ty ← lift (subscript v "type");
  cls ← match ty with
        | VStr s => resolve_package_name s
        | _ => raise (AttributeError "split")
        end;
  p ← call cls [("name", VStr parameter);
                ("default_value", default VNone (Dict.get v "default_value"))];
  self_parameters ← read parameters;
  modify (set_parameters (Dict.set self_parameters parameter p)).

Fixpoint add_parameters (ps : list (string * dict)) : M unit :=
  match ps with
  | [] => mret tt
  | (parameter, v) :: ps' => add_parameter parameter v;; add_parameters ps'
  end.

Definition add_property_file (property_file : string) (kwargs : dict) : M unit :=
  kw ← lift (keywords [("name", VStr property_file)] kwargs);
  p ← new "PropertyFile" kw;
  self_property_files ← read property_files;
  modify (set_property_files (Dict.set self_property_files property_file p)).

Fixpoint add_property_files (ps : list (string * dict)) : M unit :=
  match ps with
  | [] => mret tt
  | (property_file, kwargs) :: ps' =>
      add_property_file property_file kwargs;; add_property_files ps'
  end.

(** [self.steps.pop(step_name)]; the table is keyed by strings, so a key
    of another hashable type is never found. *)
Definition pop_step (step_name : value) : M value :=
  match step_name with
  | VStr s =>
      self_steps ← read steps;
      popped ← lift (Dict.pop self_steps s);
      modify (set_steps (snd popped));;
      mret (fst popped)
  | VList _ | VDict _ => raise (TypeError "unhashable type")
  | _ => raise (KeyError (py_str step_name))
  end.

Fixpoint pop_steps (names : list value) : M (list value) :=
  match names with
  | [] => mret []
  | step_name :: names' =>
      step ← pop_step step_name;
      rest ← pop_steps names';
      mret (step :: rest)
  end.

Definition _replace_with_step_collection (steps_collection : value)
  : M (list value) :=
  names ← lift (py_iter steps_collection);
  pop_steps names.

(** [kwargs[branch] = self._replace_with_step_collection(kwargs[branch])],
    when [branch] is a key of [kwargs]. *)
Definition replace_branch (branch : string) (kwargs : dict) : M dict :=
  match Dict.get kwargs branch with
  | Some collection =>
      members ← _replace_with_step_collection collection;
      mret (Dict.set kwargs branch (VList members))
  | None => mret kwargs
  end.

(** [add_step] up to the call of [StepModel]: the keywords of the step. *)
Definition step_kwargs (name : string) (kwargs : dict) : M dict :=
  resolved ← _replace_step_arguments recursion_limit kwargs;
  match resolved with
  | VDict kwargs =>
      self ← read id;
      let kwargs :=
        Dict.update kwargs
          [ ("name", default (VStr name) (Dict.get kwargs "name"));
            ("role", role_arn self);
            ("sagemaker_session", sagemaker_session self);
            ("security_group_ids", VList (security_group_ids self));
            ("subnets", VList (subnets self)) ] in
      kwargs ← replace_branch "if_steps" kwargs;
      replace_branch "else_steps" kwargs
  | _ => raise (AttributeError "update")
  end.

(** [step.name] *)
Definition step_name_of (step : value) : result string :=
  match step with
  | VObj _ attributes =>
      match Dict.get attributes "name" with
      | Some (VStr s) => Ok s
      | Some _ => Err (TypeError "the step table is keyed by strings")
      | None => Err (AttributeError "name")
      end
  | _ => Err (AttributeError "name")
  end.

(** [self.steps[step.name] = step] *)
Definition store_step (step : value) : M unit :=
  nm ← lift (step_name_of step);
  self_steps ← read steps;
  modify (set_steps (Dict.set self_steps nm step)).

Definition add_step (name : string) (kwargs : dict) : M unit :=
  kwargs ← step_kwargs name kwargs;
  m ← lift (StepModel_model_validate [("step", VDict kwargs)]);
  step ← StepModel_build m;
  store_step step.

(** [self.add_step(name, kwargs)] for whatever stands under a name of the
    configuration: the resolver starts by asking its argument for [keys()],
    which only a mapping has. *)
Definition add_step_entry (name : string) (kwargs : value) : M unit :=
  match kwargs with
  | VDict d => add_step name d
  | _ => raise (AttributeError "keys")
  end.

(** [steps] is the whole pipeline configuration: under the reserved names
    stand a string, a number, a boolean or a mapping. *)
Fixpoint add_steps (steps : list (string * value)) : M unit :=
  match steps with
  | [] => mret tt
  | (name, kwargs) :: steps' =>
      if existsb (String.eqb name) reserved_pipeline_keys
      then add_steps steps'
      else add_step_entry name kwargs;; add_steps steps'
  end.

(** What the specification says of [add_steps], to compare with it: a step
    is added for each entry of [steps], in order, until one raises. *)
Fixpoint add_each (steps : list (string * value)) : M unit :=
  match steps with
  | [] => mret tt
  | (name, kwargs) :: steps' => add_step_entry name kwargs;; add_each steps'
  end.

Definition parallelism_config : M value :=
  self ← read id;
  if is_none (max_parallel_execution_steps self)
  then mret (max_parallel_execution_steps self)
  else new "ParallelismConfiguration"
         [("max_parallel_execution_steps", max_parallel_execution_steps self)].

Definition pipeline_definition_config : M value :=
  self ← read id;
  new "PipelineDefinitionConfig"
    [("use_custom_job_prefix", use_custom_job_prefix self)].

Definition build : M unit :=
  self ← read id;
  definition_config ← pipeline_definition_config;
  p ← new "Pipeline"
        [ ("name", name self);
          ("parameters", VList (Dict.values (parameters self)));
          ("steps", VList (Dict.values (steps self)));
          ("sagemaker_session", sagemaker_session self);
          ("pipeline_definition_config", definition_config);
          ("pipeline_experiment_config", pipeline_experiment_config self) ];
  modify (set_pipeline p).

Definition pipeline_not_found (self : PipelineBuilder) : error :=
  PipelineNotFoundError ("Pipeline definition not found for " +:+ py_str (name self)).

Definition definition : M value :=
  self ← read id;
  if negb (truthy (pipeline self)) then raise (pipeline_not_found self)
  else method (pipeline self) "definition" [].

Definition upsert : M unit :=
  self ← read id;
  if negb (truthy (pipeline self)) then raise (pipeline_not_found self)
  else
    f ← getattr (pipeline self) "upsert";
    pc ← parallelism_config;
    call f [ ("role_arn", role_arn self);
             ("tags", VList (tags self));
             ("parallelism_config", pc) ];;
    mret tt.

Definition run (params : value) : M unit :=
  self ← read id;
  if negb (truthy (pipeline self)) then raise (pipeline_not_found self)
  else method (pipeline self) "start" [("parameters", params)];; mret tt.

End PipelineBuilderMethods.

(** ** [sagerender/builder/blueprint.py]: [PipelineBlueprint.validate] *)

Definition type_name (v : value) : string :=
  match v with
  | VNone => "NoneType"
  | VBool _ => "bool"
  | VInt _ => "int"
  | VStr _ => "str"
  | VList _ => "list"
  | VDict _ => "dict"
  | VObj cls _ => cls
  end.

Definition hiera_keys : list string := ["backends"; "context"; "hierarchy"].

(** [self.config[key]], as the two [try] blocks see it: [None] stands for the
    [KeyError] they catch.  The configuration is keyed by strings, so a key of
    another hashable type is not found; a list or a dictionary is not
    hashable, and that [TypeError] is not caught. *)
Definition config_item (config : dict) (key : value) : result (option value) :=
  match key with
  | VStr k => Ok (Dict.get config k)
  | VList _ | VDict _ => Err (TypeError "unhashable type")
  | _ => Ok None
  end.

Definition validate_key (config : dict) (filename key : string) : result unit :=
  match Dict.get config key with
  | Some (VList _) => Ok tt
  | Some v =>
      Err (PipelineBlueprintValidationError
             (key +:+ " must be of type list, found: " +:+ type_name v))
  | None =>
      Err (PipelineBlueprintValidationError
             (key +:+ " not defined in the hiera configuration file: " +:+ filename))
  end.

Definition validate_backend (config : dict) (filename : string) (backend : value)
  : result unit :=
  item ← config_item config backend;
  match item with
  | Some (VDict d) =>
      if Dict.mem d "datadir" then Ok tt
      else Err (PipelineBlueprintValidationError
                  ("datadir not found in " +:+ py_str backend +:+ " configuration"))
  | Some v =>
      Err (PipelineBlueprintValidationError
             (py_str backend +:+ " must be of type dict, found: " +:+ type_name v))
  | None =>
      Err (PipelineBlueprintValidationError
             (py_str backend +:+ " backend not defined in the hiera configuration file:"
                +:+ filename))
  end.

(** A [for] loop whose body may raise. *)
Fixpoint for_each {A : Type} (f : A -> result unit) (l : list A) : result unit :=
  match l with
  | [] => Ok tt
  | a :: l' => f a;; for_each f l'
  end.

Definition validate (config : dict) (filename : string) : result unit :=
  for_each (validate_key config filename) hiera_keys;;
  backends ← subscript config "backends";
  items ← py_iter backends;
  for_each (validate_backend config filename) items.

(** ** [sagerender/utilities/common.py]: [env_vars_constructor] *)

Definition newline : ascii := ascii_of_nat 10.

(** From just after a [${]: the text up to the first [}], and what follows
    that brace; nothing when a line break or the end comes first (the dot
    of the pattern does not match a line break). *)
Fixpoint until_brace (s : string) : option (string * string) :=
  match s with
  | EmptyString => None
  | String c s' =>
      if Ascii.eqb c "}" then Some (EmptyString, s')
      else if Ascii.eqb c newline then None
      else match until_brace s' with
           | Some (group, rest) => Some (String c group, rest)
           | None => None
           end
  end.

(** [PATTERN_ENV_VARS.findall(value)] for the pattern [.*?\${(.*?)}.*?]: the
    matches are read from the left and do not overlap; each one ends at the
    first closing brace after the leftmost [${] that has one on its line, and
    gives the text between the two.  [skip] counts the characters of the
    last match still to be passed. *)
Fixpoint findall_aux (skip : nat) (s : string) : list string :=
  match s with
  | EmptyString => []
  | String c s' =>
      match skip with
      | S n => findall_aux n s'
      | O =>
          if String.prefix "${" s then
            match until_brace (Str.drop 1 s') with
            | Some (group, _) => group :: findall_aux (String.length group + 2) s'
            | None => findall_aux 0 s'
            end
          else findall_aux 0 s'
      end
  end.

Definition PATTERN_ENV_VARS_findall (s : string) : list string := findall_aux 0 s.

(** [os.environ.get(group, group)] *)
Definition environ_get (environ : gmap string string) (group : string) : string :=
  default group (environ !! group).

(** The loop of [env_vars_constructor] over the groups found. *)
Fixpoint replace_groups (environ : gmap string string) (groups : list string)
    (value : string) : string :=
  match groups with
  | [] => value
  | group :: groups' =>
      replace_groups environ groups'
        (Str.replace ("${" +:+ group +:+ "}") (environ_get environ group) value)
  end.

(** [value] is what [loader.construct_scalar(node)] returns: the text of the
    scalar node. *)
Definition env_vars_constructor (environ : gmap string string) (value : string)
  : string :=
  replace_groups environ (PATTERN_ENV_VARS_findall value) value.

(** ** Literal trees *)

(** A string the resolver takes for a reference. *)
Definition is_reference (s : string) : bool :=
  Str.startswith s PARAMETER_PREFIX
  || Str.startswith s EXECUTION_VARIABLE_PREFIX
  || Str.startswith s PROPERTY_FILE_PREFIX
  || Str.contains PROPERTIES_IDENTIFIER s.

Definition is_factory_key (k : string) : bool :=
  String.eqb k FACTORY_FUNCTION || String.eqb k FACTORY_ENUM.

(** A tree of literal values: no mapping in it has a factory key, no string
    in it is a reference. *)
Fixpoint literal (v : value) : bool :=
  match v with
  | VStr s => negb (is_reference s)
  | VList l => forallb literal l
  | VDict d =>
      forallb (fun kv => negb (is_factory_key (fst kv)) && literal (snd kv)) d
  | _ => true
  end.

Definition literal_dict (d : dict) : bool := literal (VDict d).

(** The height of a tree: how deep the resolver's calls nest on it. *)
Fixpoint height (v : value) : nat :=
  match v with
  | VList l => fold_right (fun e n => Nat.max (height e) n) 0 l
  | VDict d => S (fold_right (fun kv n => Nat.max (height (snd kv)) n) 0 d)
  | _ => 0
  end.

(** ** Configurations of the declared shapes *)

(** What the configuration gives under each declared field has the declared
    shape, and it gives every field declared without default. *)
Definition well_shaped (fs : list field) (v : dict) : bool :=
  forallb (fun f => match Dict.get v (fname f) with
                    | Some a => conforms f a
                    | None => match fdefault f with
                              | Some _ => true
                              | None => false
                              end
                    end) fs.

(** ** Plain configurations *)

(** A string that the resolver does not leave to the interpreter: when it
    comes to [eval], the source is a plain step reference. *)
Definition plain_token (s : string) : bool :=
  Str.startswith s PARAMETER_PREFIX
  || Str.startswith s EXECUTION_VARIABLE_PREFIX
  || Str.startswith s PROPERTY_FILE_PREFIX
  || negb (Str.contains PROPERTIES_IDENTIFIER s)
  || match parse_reference (eval_source s) with
     | Some _ => true
     | None => false
     end.

(** The factory-function key, when a mapping has it, is its first key: the
    keywords of the function are then resolved once, not a second time as
    they come out of the first. *)
Definition factory_first (d : dict) : bool :=
  match d with
  | [] => true
  | _ :: d' => negb (existsb (String.eqb FACTORY_FUNCTION) (Dict.keys d'))
  end.

(** A configuration all of whose strings are plain, the factory-function
    key first where it stands. *)
Fixpoint plain (v : value) : bool :=
  match v with
  | VStr s => plain_token s
  | VList l => forallb plain l
  | VDict d => forallb (fun kv => plain (snd kv)) d && factory_first d
  | _ => true
  end.

(** ** A symbolic SDK and a fresh builder, to run the embedding *)

(** Every operation of the SDK succeeds and returns a term recording what
    was asked; the interpreter takes no expression but the plain step
    references. *)
Definition symbolic_sdk : Sdk :=
  {| sdk_new := fun _ kwargs => Ok kwargs;
     sdk_resolve := fun package nm =>
       Ok (VObj "callable" [("package", VStr package); ("name", VStr nm)]);
     sdk_call := fun f kwargs =>
       Ok (VObj "result" [("of", f); ("kwargs", VDict kwargs)]);
     sdk_getattr := fun o attr =>
       Ok (VObj "attribute" [("of", o); ("name", VStr attr)]);
     eval_expression := fun _ => raise (SyntaxError "invalid syntax") |}.

(** [PipelineBuilder.__init__] *)
Definition PipelineBuilder_init : PipelineBuilder :=
  {| name := VNone;
     security_group_ids := [];
     subnets := [];
     parameters := [];
     property_files := [];
     pipeline := VNone;
     role_arn := VNone;
     sagemaker_session := VNone;
     max_parallel_execution_steps := VNone;
     steps := [];
     tags := [];
     use_custom_job_prefix := VBool false;
     pipeline_experiment_config :=
       VObj "PipelineExperimentConfig"
         [ ("experiment_name", VObj "ExecutionVariables.PIPELINE_NAME" []);
           ("trial_name", VObj "ExecutionVariables.PIPELINE_EXECUTION_ID" []) ];
     sdk_events := [] |}.

(** A key is given when the configuration has a value other than [None]
    under it: what [is not None] sees of an optional field once validated. *)
Definition given (v : dict) (k : string) : bool :=
  match Dict.get v k with
  | Some x => negb (is_none x)
  | None => false
  end.

(** ** What the specification asks of a root document *)

(** The document has no list under [key]: the key is missing, or what stands
    under it is not a list. *)
Definition not_a_list (config : dict) (key : string) : Prop :=
  forall l, Dict.get config key <> Some (VList l).

(** The backend named by [backend] has a configuration mapping with the
    storage directory in it. *)
Definition configured (config : dict) (backend : value) : Prop :=
  exists b d,
    backend = VStr b
    /\ Dict.get config b = Some (VDict d)
    /\ Dict.mem d "datadir" = true.

Definition structural_error (config : dict) : Prop :=
  (exists key, In key hiera_keys /\ not_a_list config key)
  \/ (exists l backend,
        Dict.get config "backends" = Some (VList l)
        /\ In backend l /\ ~ configured config backend).

(** A value that can be a key of a dictionary. *)
Definition hashable (v : value) : Prop :=
  match v with
  | VList _ | VDict _ => False
  | _ => True
  end.

(** [c in s], for a character. *)
Fixpoint has_char (c : ascii) (s : string) : bool :=
  match s with
  | EmptyString => false
  | String a s' => Ascii.eqb a c || has_char c s'
  end.

(** ** Scalars with placeholders *)

(** A scalar read as the pieces it is made of: plain text, and placeholders
    [${NAME}]. *)
Inductive piece : Type :=
| Text (text : string)
| Placeholder (NAME : string).

Definition render (p : piece) : string :=
  match p with
  | Text text => text
  | Placeholder NAME => "${" +:+ NAME +:+ "}"
  end.

Fixpoint scalar (pieces : list piece) : string :=
  match pieces with
  | [] => EmptyString
  | p :: pieces' => render p +:+ scalar pieces'
  end.

(** The scalar with every placeholder resolved: the value of the name when
    the environment has it, the bare name when it has not. *)
Fixpoint resolved (environ : gmap string string) (pieces : list piece) : string :=
  match pieces with
  | [] => EmptyString
  | Text text :: pieces' => text +:+ resolved environ pieces'
  | Placeholder NAME :: pieces' =>
      match environ !! NAME with
      | Some value => value
      | None => NAME
      end +:+ resolved environ pieces'
  end.

(** No dollar sign of [s] stands last or before an opening brace: no [${]
    opens in [s], nor at its end whatever comes after. *)
Fixpoint no_open (s : string) : bool :=
  match s with
  | EmptyString => true
  | String c s' =>
      (negb (Ascii.eqb c "$")
       || match s' with
          | String d _ => negb (Ascii.eqb d "{")
          | EmptyString => false
          end)
      && no_open s'
  end.

(** The pieces of a scalar that reads one way only: no [${] opens in a text,
    in a name or in what stands for the name, and a name has no closing
    brace and no line break. *)
Definition well_formed_piece (environ : gmap string string) (p : piece) : bool :=
  match p with
  | Text text => no_open text
  | Placeholder NAME =>
      no_open NAME && negb (has_char "}" NAME) && negb (has_char newline NAME)
      && no_open (environ_get environ NAME)
  end.

(** The placeholders whose name is in [groups] filled in. *)
Definition fill (environ : gmap string string) (groups : list string) (p : piece)
  : piece :=
  match p with
  | Text text => Text text
  | Placeholder NAME =>
      if existsb (String.eqb NAME) groups
      then Text (environ_get environ NAME)
      else Placeholder NAME
  end.

Fixpoint placeholder_names (pieces : list piece) : list string :=
  match pieces with
  | [] => []
  | Text _ :: pieces' => placeholder_names pieces'
  | Placeholder NAME :: pieces' => NAME :: placeholder_names pieces'
  end.

(** ** Notions the statements use *)

(** The builder after the SDK calls [evs], oldest first, are recorded. *)
Definition log_events (evs : list event) (self : PipelineBuilder) : PipelineBuilder :=
  fold_left (fun s ev => log_event ev s) evs self.

(** A method that changes nothing of the builder but the record of SDK
    calls. *)
Definition logs_only {A : Type} (m : M A) : Prop :=
  forall self, exists evs, snd (m self) = log_events evs self.

(** The table once the steps named in [names] are popped. *)
Definition remove_all (names : list string) (d : dict) : dict :=
  fold_left Dict.remove names d.

(** The names a configuration gives under a branch key: strings, in a list;
    none when the key is absent. *)
Definition branch (kwargs : dict) (key : string) (names : list string) : Prop :=
  match Dict.get kwargs key with
  | Some collection => collection = VList (map VStr names)
  | None => names = []
  end.

(** A plain reference to the step [step_name]: a string with none of the
    three prefixes and with [.properties.] in it, for which the source given
    to [eval] is [self.steps["<step_name>"]] followed by a path of
    attribute names. *)
Definition step_reference (token step_name : string) : Prop :=
  Str.startswith token PARAMETER_PREFIX = false
  /\ Str.startswith token EXECUTION_VARIABLE_PREFIX = false
  /\ Str.startswith token PROPERTY_FILE_PREFIX = false
  /\ Str.contains PROPERTIES_IDENTIFIER token = true
  /\ exists path, parse_reference (eval_source token) = Some (step_name, path).

(** The six top-level names of a pipeline configuration that are not
    steps. *)
Definition is_reserved (name : string) : Prop :=
  name = "name" \/ name = "parameters" \/ name = "max_parallel_execution_steps"
  \/ name = "property_files" \/ name = "use_custom_job_prefix"
  \/ name = "pipeline_experiment_config".

(** ** [sagerender/builder/blueprint.py]: the context *)

(** The two [set_context] methods, dispatched on the types of the
    arguments: [self.context.update(context)] and [self.context[key] = value]. *)
Definition set_context_dict (self_context context : dict) : dict :=
  Dict.update self_context context.

Definition set_context_kv (self_context : dict) (key value : string) : dict :=
  Dict.set self_context key (VStr value).

(** ** [sagerender/cli/upsert_pipeline.py]: the context of [main] *)

(** [s.removeprefix(p)] *)
Definition removeprefix (p s : string) : string :=
  if String.prefix p s then Str.drop (String.length p) s else s.

(** The key [main] makes of an argument it does not know. *)
Definition context_key (other : string) : string :=
  Str.replace "-" "_" (removeprefix "--" other).

(** The items of the dictionary comprehension over [others], two arguments
    at a time; nothing when [others[i + 1]] is out of range, which is an
    [IndexError]. *)
Fixpoint context_items (others : list string) : option dict :=
  match others with
  | [] => Some []
  | [_] => None
  | key :: value :: others' =>
      match context_items others' with
      | Some items => Some ((context_key key, VStr value) :: items)
      | None => None
      end
  end.

(** The comprehension itself: a key met again keeps its place and takes the
    later value. *)
Definition main_context (others : list string) : option dict :=
  match context_items others with
  | Some items => Some (Dict.update [] items)
  | None => None
  end.

(** ** [sagerender/cli/run_pipeline.py]: the parameters of [pipeline.start] *)

(** [s.split(sep, 1)] for a separator of one character. *)
Fixpoint split_once (sep : ascii) (s : string) : list string :=
  match s with
  | EmptyString => [EmptyString]
  | String c s' =>
      if Ascii.eqb c sep then [EmptyString; s']
      else match split_once sep s' with
           | piece :: pieces => String c piece :: pieces
           | [] => []
           end
  end.

(** [dict(items)] for items that are lists of strings: each must hold a key
    and a value. *)
Fixpoint dict_of_items (items : list (list string)) (acc : dict) : result dict :=
  match items with
  | [] => Ok acc
  | [key; value] :: items' => dict_of_items items' (Dict.set acc key (VStr value))
  | _ :: _ =>
      Err (ValueError "dictionary update sequence element has length 1; 2 is required")
  end.

(** The dictionary [main] passes as [parameters] when [args.parameters] is
    given: the pipeline name under [name], then the parameters unpacked. *)
Definition start_parameters (pipeline_name : string) (parameters : list string)
  : result dict :=
  unpacked ← dict_of_items (map (split_once "=") parameters) [];
  mret (Dict.update [("name", VStr pipeline_name)] unpacked).

(** ** [sagerender/utilities/mixin.py]: [ResourceLocatorMixin]

    The registry is the private attribute [__resources]: [None] while the
    attribute is not set.  An entry point is its name and what its [load]
    returns or raises. *)

Definition registered_resources (resources : option dict) : bool :=
  match resources with
  | Some _ => true
  | None => false
  end.

(** The loop of [register_resources] over the entry points. *)
Fixpoint load_entry_points (entry_points : list (string * result value))
    (resources : dict) : result unit * dict :=
  match entry_points with
  | [] => (Ok tt, resources)
  | (entry_name, loaded) :: entry_points' =>
      match loaded with
      | Ok resource =>
          load_entry_points entry_points' (Dict.set resources entry_name resource)
      | Err e => (Err e, resources)
      end
  end.

Definition register_resources (entry_points : list (string * result value))
    (resources : option dict) : result unit * option dict :=
  let '(r, loaded) := load_entry_points entry_points [] in
  (r, Some loaded).

Definition lazy_register_resources (entry_points : list (string * result value))
    (resources : option dict) : result unit * option dict :=
  if negb (registered_resources resources)
  then register_resources entry_points resources
  else (Ok tt, resources).

Definition get_resource (entry_points : list (string * result value))
    (resource_name : string) (resources : option dict)
  : result value * option dict :=
  match lazy_register_resources entry_points resources with
  | (Ok _, resources') =>
      (subscript (default [] resources') resource_name, resources')
  | (Err e, resources') => (Err e, resources')
  end.

Definition get_resource_names (entry_points : list (string * result value))
    (resources : option dict) : result (list string) * option dict :=
  match lazy_register_resources entry_points resources with
  | (Ok _, resources') => (Ok (Dict.keys (default [] resources')), resources')
  | (Err e, resources') => (Err e, resources')
  end.

(** ** [sagerender/utilities/common.py]: [get_resource_config] *)

(** [v[k]] on a value *)
Definition item (v : value) (k : string) : result value :=
  match v with
  | VDict d => subscript d k
  | _ => Err (TypeError "object is not subscriptable")
  end.

(** [v.split(",")] on a value *)
Definition split_commas (v : value) : result value :=
  match v with
  | VStr s => Ok (VList (map VStr (Str.split "," s)))
  | _ => Err (AttributeError "split")
  end.

Section ResourceConfig.

(** [get_secret_from_cerberus(secret_path, host)]: the secrets the store
    holds under a path, or what the client raises. *)
Variable get_secret_from_cerberus : value -> value -> result value.

Definition get_resource_config (cerberus_cfg : value) : result value :=
  if is_none cerberus_cfg then Ok VNone
  else
    sdb ← item cerberus_cfg "sdb";
    team_path ← item sdb "team";
    host ← item cerberus_cfg "host";
    cerberus_team_secrets ← get_secret_from_cerberus team_path host;
    sdb ← item cerberus_cfg "sdb";
    network_path ← item sdb "network";
    host ← item cerberus_cfg "host";
    cerberus_network_secrets ← get_secret_from_cerberus network_path host;
    region ← item cerberus_team_secrets "aws_region";
    execution_role ← item cerberus_team_secrets "team_exec_role";
    security_group_id ← item cerberus_network_secrets "security_group_id";
    security_group_ids ← split_commas security_group_id;
    private_subnet_ids ← item cerberus_network_secrets "private_subnet_ids";
    subnets ← split_commas private_subnet_ids;
    mret (VDict [ ("region", region);
                  ("execution_role", execution_role);
                  ("security_group_ids", security_group_ids);
                  ("subnets", subnets) ]).

End ResourceConfig.

(** [".".join(names)] *)
Fixpoint join_dots (names : list string) : string :=
  match names with
  | [] => EmptyString
  | [name] => name
  | name :: names' => name +:+ "." +:+ join_dots names'
  end.

(** [",".join(pieces)] *)
Fixpoint join_commas (pieces : list string) : string :=
  match pieces with
  | [] => EmptyString
  | [piece] => piece
  | piece :: pieces' => piece +:+ "," +:+ join_commas pieces'
  end.

(** An item of a list that the resolver hands to [_replace_argument] and gets
    back as it is: neither a string nor a dictionary. *)
Definition opaque_item (v : value) : bool :=
  match v with
  | VStr _ | VDict _ => false
  | _ => true
  end.

(** A key that [_replace_factory_function] has no parameter for. *)
Definition unexpected_keyword (k : string) : bool :=
  negb (String.eqb k "factory_function" || String.eqb k "kwargs").

(** A store with the secrets of one team and of its network. *)
Definition sample_store (secret_path host : value) : result value :=
  match secret_path with
  | VStr "app/team" =>
      Ok (VDict [("aws_region", VStr "us-west-2"); ("team_exec_role", VStr "arn:role")])
  | VStr "app/network" =>
      Ok (VDict [("security_group_id", VStr "sg-1,sg-2"); ("private_subnet_ids", VStr "")])
  | _ => Err (RuntimeError "no such path")
  end.

Definition sample_cerberus : dict :=
  [ ("host", VStr "https://cerberus");
    ("sdb", VDict [("team", VStr "app/team"); ("network", VStr "app/network")]) ].

(** * Verification *)

(** ** The step-type discriminator *)

Example discriminator_training :
  select_variant [("estimator_kwargs", VDict []); ("fit_kwargs", VDict [])]
  = Ok TrainingStepModel.
Proof. vm_compute. reflexivity. Qed.

Example discriminator_tuning :
  select_variant [("estimator_kwargs", VDict []); ("tuner_kwargs", VDict [])]
  = Ok TuningStepModel.
Proof. vm_compute. reflexivity. Qed.

Example discriminator_ambiguous :
  select_variant [("estimator_kwargs", VDict []); ("processor_kwargs", VDict [])]
  = Err (ValueError discriminator_message).
Proof. vm_compute. reflexivity. Qed.

Lemma matched_keys_step_type (v : dict) (k : string) :
  k ∈ matched_keys v -> k ∈ step_types.
Proof. unfold matched_keys. rewrite elem_of_intersection. tauto. Qed.

Lemma step_type_variant (k : string) :
  k ∈ step_types ->
  exists m, variant_of_tag k = Some m /\ discriminator_key m = k.
Proof.
  unfold step_types. rewrite elem_of_list_to_set. intros Hin.
  repeat (apply elem_of_cons in Hin as [-> | Hin]; [eexists; split; reflexivity |]).
  apply elem_of_nil in Hin. destruct Hin.
Qed.

Lemma tuning_pair_size :
  size ({["estimator_kwargs"; "tuner_kwargs"]} : gset string) = 2.
Proof.
  rewrite size_union; [rewrite !size_singleton; reflexivity |].
  apply disjoint_singleton_l. rewrite elem_of_singleton. discriminate.
Qed.

(** C1.  The discriminator, for every raw step configuration [v]: when the
    keys of [v] meet the discriminator keys in exactly one key [k], it returns
    [k], and the variant selected is the one tagged [k]; when they meet in
    exactly the pair estimator_kwargs, tuner_kwargs, it selects the tuning
    variant; in every other case it raises the error about step types. *)
Theorem get_discriminator_value_selects (v : dict) :
  (forall k, matched_keys v = {[ k ]} ->
     get_discriminator_value v = Ok k
     /\ exists m, select_variant v = Ok m /\ discriminator_key m = k)
  /\ (matched_keys v = {["estimator_kwargs"; "tuner_kwargs"]} ->
      get_discriminator_value v = Ok "tuner_kwargs"
      /\ select_variant v = Ok TuningStepModel)
  /\ ((forall k, matched_keys v <> {[ k ]}) ->
      matched_keys v <> {["estimator_kwargs"; "tuner_kwargs"]} ->
      get_discriminator_value v = Err (ValueError discriminator_message)
      /\ select_variant v = Err (ValueError discriminator_message)).
Proof.
  split; [| split].
  - intros k Hk.
    assert (Hd : get_discriminator_value v = Ok k).
    { unfold get_discriminator_value. cbv zeta. rewrite Hk, size_singleton.
      rewrite decide_True by reflexivity. rewrite elements_singleton. reflexivity. }
    split; [exact Hd |].
    destruct (step_type_variant k) as (m & Hm & Hkey).
    { apply (matched_keys_step_type v). rewrite Hk. set_solver. }
    exists m. split; [| exact Hkey].
    unfold select_variant. rewrite Hd. unfold mbind, result_bind.
    rewrite Hm. reflexivity.
  - intros Hpair.
    assert (Hd : get_discriminator_value v = Ok "tuner_kwargs").
    { unfold get_discriminator_value. cbv zeta. rewrite Hpair, tuning_pair_size.
      rewrite decide_False by discriminate.
      rewrite decide_True by (split; [reflexivity | set_solver]). reflexivity. }
    split; [exact Hd |]. unfold select_variant. rewrite Hd. reflexivity.
  - intros Hone Hpair.
    assert (Hd : get_discriminator_value v = Err (ValueError discriminator_message)).
    { unfold get_discriminator_value. cbv zeta.
      destruct (decide (size (matched_keys v) = 1)) as [H1 | H1].
      { apply size_1_elem_of in H1 as [k Hk]. apply leibniz_equiv in Hk.
        destruct (Hone k Hk). }
      destruct (decide _) as [[H2 Hsub] | H2]; [| reflexivity].
      exfalso. apply Hpair.
      symmetry. apply set_subseteq_size_eq; [exact Hsub |].
      rewrite tuning_pair_size, H2. reflexivity. }
    split; [exact Hd |]. unfold select_variant. rewrite Hd. reflexivity.
Qed.

(** ** The reference resolver *)

(** Unfolds the plumbing of [M] and of [result]. *)
Ltac run_M :=
  unfold mbind, mret, M_bind, M_ret, result_bind, result_ret,
    read, lift, raise, modify, id in *;
  cbn beta iota in *.

Example replace_argument_param :
  fst (_replace_argument (H := symbolic_sdk) (VStr "param:foo")
         (set_parameters [("foo", VStr "bar")] PipelineBuilder_init))
  = Ok (VStr "bar").
Proof. reflexivity. Qed.

Example replace_argument_property_file :
  fst (_replace_argument (H := symbolic_sdk) (VStr "propertyFile:property_foo")
         (set_property_files [("property_foo", VStr "property_bar")]
            PipelineBuilder_init))
  = Ok (VStr "property_bar").
Proof. reflexivity. Qed.

Example replace_argument_no_update :
  fst (_replace_argument (H := symbolic_sdk) (VStr "foo")
         (set_parameters [("foo", VStr "bar")] PipelineBuilder_init))
  = Ok (VStr "foo").
Proof. reflexivity. Qed.

Example replace_argument_exec :
  fst (_replace_argument (H := symbolic_sdk) (VStr "exec:START_DATETIME")
         PipelineBuilder_init)
  = Ok (VObj "attribute"
          [ ("of", VObj "callable"
                     [ ("package", VStr "sagemaker.workflow.execution_variables");
                       ("name", VStr "ExecutionVariables") ]);
            ("name", VStr "START_DATETIME") ]).
Proof. reflexivity. Qed.

Example replace_argument_properties :
  let step := VObj "ProcessingStep" [] in
  eval_source "step-0.properties.step_name"
  = "self.steps[" +:+ double_quote +:+ "step-0" +:+ double_quote
      +:+ "].properties.step_name"
  /\ parse_reference (eval_source "step-0.properties.step_name")
     = Some ("step-0", ["properties"; "step_name"])
  /\ fst (_replace_argument (H := symbolic_sdk) (VStr "step-0.properties.step_name")
            (set_steps [("step-0", step)] PipelineBuilder_init))
     = Ok (VObj "attribute"
             [ ("of", VObj "attribute" [("of", step); ("name", VStr "properties")]);
               ("name", VStr "step_name") ]).
Proof. vm_compute. repeat split. Qed.

(** A step name that occurs again in the argument is replaced there too,
    and the empty step name is replaced around every character: neither
    source is a plain step reference. *)
Example eval_source_recurring_name :
  eval_source "e.properties.Outputs"
  = "self.steps[" +:+ double_quote +:+ "e" +:+ double_quote +:+ "].prop"
      +:+ "self.steps[" +:+ double_quote +:+ "e" +:+ double_quote +:+ "]rti"
      +:+ "self.steps[" +:+ double_quote +:+ "e" +:+ double_quote +:+ "]s.Outputs"
  /\ parse_reference (eval_source "e.properties.Outputs") = None
  /\ parse_reference (eval_source "Train.properties.TrainingJobName") = None
  /\ parse_reference (eval_source ".properties.Outputs") = None.
Proof. vm_compute. repeat split. Qed.

Lemma append_cons (a : ascii) (s t : string) :
  String a s +:+ t = String a (s +:+ t).
Proof. reflexivity. Qed.

Lemma append_empty_l (t : string) : EmptyString +:+ t = t.
Proof. reflexivity. Qed.

Lemma append_cons_assoc (cur : string) (c : ascii) (x : string) :
  (cur +:+ String c EmptyString) +:+ x = cur +:+ String c x.
Proof.
  induction cur as [| a cur IH]; [reflexivity |].
  rewrite !append_cons, IH. reflexivity.
Qed.

Lemma append_empty_r (s : string) : s +:+ EmptyString = s.
Proof.
  induction s as [| a s IH]; [reflexivity |].
  rewrite append_cons, IH. reflexivity.
Qed.

Lemma prefix_empty (s : string) : String.prefix EmptyString s = true.
Proof. destruct s; reflexivity. Qed.

(** A string without the separator is one piece. *)
Lemma split_aux_no_separator (sep x cur : string) :
  Str.contains sep x = false ->
  Str.split_aux sep 0 cur x = [cur +:+ x].
Proof.
  revert cur. induction x as [| c x IH]; intros cur Hno.
  - cbn. rewrite append_empty_r. reflexivity.
  - cbn [Str.contains] in Hno. apply orb_false_iff in Hno as [Hp Hx].
    cbn [Str.split_aux]. rewrite Hp. rewrite (IH _ Hx).
    rewrite append_cons_assoc. reflexivity.
Qed.

Section Resolver.

Context `{Sdk}.

Lemma parameter_prefix_startswith (x : string) :
  Str.startswith ("param:" +:+ x) PARAMETER_PREFIX = true.
Proof.
  unfold Str.startswith, PARAMETER_PREFIX.
  rewrite !append_cons, append_empty_l. cbn. apply prefix_empty.
Qed.

Lemma parameter_name_segment (x : string) :
  Str.contains ":" x = false ->
  nth 1 (Str.split ":" ("param:" +:+ x)) "" = x.
Proof.
  intros Hno. unfold Str.split.
  rewrite !append_cons, append_empty_l. cbn.
  rewrite prefix_empty, split_aux_no_separator by exact Hno. reflexivity.
Qed.

(** C5, as amended.  For every builder and every name [x] without a colon,
    resolving the string made of the parameter prefix and [x] returns the
    entry of the parameter table under [x] when there is one and raises the
    key error for [x] when there is none, and leaves the builder as it was;
    an argument that is not a string is returned unchanged. *)
Theorem replace_argument_param_lookup
    (self : PipelineBuilder) (x : string) (argument : value) :
  Str.contains ":" x = false ->
  _replace_argument (VStr ("param:" +:+ x)) self
  = (match Dict.get (parameters self) x with
     | Some handle => Ok handle
     | None => Err (KeyError x)
     end, self)
  /\ ((forall s, argument <> VStr s) ->
      _replace_argument argument self = (Ok argument, self)).
Proof.
  intros Hno. split.
  - unfold _replace_argument.
    rewrite parameter_prefix_startswith, parameter_name_segment by exact Hno.
    unfold subscript. run_M. destruct (Dict.get (parameters self) x); reflexivity.
  - intros Hns. destruct argument; try reflexivity. destruct (Hns s eq_refl).
Qed.

End Resolver.

(** The name looked up is what stands between the first colon and the
    second: a parameter filed under a name with a colon in it is not found. *)
Lemma replace_argument_param_colon :
  let self := set_parameters [("a:b", VStr "handle")] PipelineBuilder_init in
  Dict.get (parameters self) "a:b" = Some (VStr "handle")
  /\ _replace_argument (H := symbolic_sdk) (VStr ("param:" +:+ "a:b")) self
     = (Err (KeyError "a"), self).
Proof. split; reflexivity. Qed.

Lemma replace_argument_param_lookup_witness :
  Str.contains ":" "foo" = false
  /\ _replace_argument (H := symbolic_sdk) (VStr ("param:" +:+ "foo"))
       (set_parameters [("foo", VStr "bar")] PipelineBuilder_init)
     = (Ok (VStr "bar"), set_parameters [("foo", VStr "bar")] PipelineBuilder_init).
Proof.
  split; [reflexivity |].
  exact (proj1 (replace_argument_param_lookup (H := symbolic_sdk)
                  (set_parameters [("foo", VStr "bar")] PipelineBuilder_init)
                  "foo" VNone eq_refl)).
Defined.

(** *** Literal trees pass through the resolver *)

Example replace_step_arguments_join :
  fst (_replace_step_arguments (H := symbolic_sdk) 10
         [ ("input",
            VDict [ ("factory_function", VStr "sagemaker.workflow.functions:Join");
                    ("kwargs", VDict [ ("on", VStr "/");
                                       ("values", VList [VStr "s3:/"; VStr "param:bucket"]) ]) ]) ]
         (set_parameters [("bucket", VStr "some-bucket")] PipelineBuilder_init))
  = Ok (VDict
          [ ("input",
             VObj "result"
               [ ("of", VObj "callable" [ ("package", VStr "sagemaker.workflow.functions");
                                          ("name", VStr "Join") ]);
                 ("kwargs", VDict [ ("on", VStr "/");
                                    ("values", VList [VStr "s3:/"; VStr "some-bucket"]) ]) ]) ]).
Proof. reflexivity. Qed.

Section ResolverLiteral.

Context `{Sdk}.

Lemma replace_argument_literal (self : PipelineBuilder) (v : value) :
  literal v = true -> _replace_argument v self = (Ok v, self).
Proof.
  destruct v; try reflexivity. cbn [literal]. intros Hlit.
  apply negb_true_iff in Hlit. unfold is_reference in Hlit.
  repeat (apply orb_false_iff in Hlit as [Hlit ?]).
  unfold _replace_argument.
  repeat match goal with Hc : _ = false |- _ => rewrite Hc; clear Hc end.
  reflexivity.
Qed.

Section Loops.

Variable self : PipelineBuilder.
Variable rec : dict -> M value.
Variable n : nat.
Hypothesis rec_literal :
  forall d, literal (VDict d) = true -> height (VDict d) <= n ->
            rec d self = (Ok (VDict d), self).

Lemma replace_items_literal (l : list value) :
  literal (VList l) = true -> height (VList l) <= n ->
  replace_items rec l self = (Ok l, self).
Proof.
  induction l as [| a l IH]; [reflexivity |].
  cbn [literal forallb height fold_right]. intros Hlit Hh.
  apply andb_true_iff in Hlit as [Ha Hl].
  assert (Hitem : match a with
                  | VDict d => rec d
                  | _ => _replace_argument a
                  end self = (Ok a, self)).
  { destruct a; try (apply replace_argument_literal; exact Ha).
    apply rec_literal; [exact Ha | lia]. }
  cbn [replace_items]. run_M. rewrite Hitem.
  fold (replace_items rec l). rewrite IH; [reflexivity | exact Hl |].
  cbn [height]. lia.
Qed.

Lemma replace_entries_literal (todo done : dict) :
  literal (VDict todo) = true -> height (VDict todo) <= S n ->
  replace_entries rec done todo self = (Ok (VDict (done ++ todo)), self).
Proof.
  revert done. induction todo as [| [key v] todo IH]; intros done Hlit Hh.
  - cbn. rewrite app_nil_r. reflexivity.
  - cbn [literal forallb fst snd] in Hlit.
    apply andb_true_iff in Hlit as [Hkv Htodo].
    apply andb_true_iff in Hkv as [Hkey Hv].
    apply negb_true_iff, orb_false_iff in Hkey as [Hff Hfe].
    cbn [height fold_right snd] in Hh.
    assert (Hval : match v with
                   | VDict d => rec d
                   | VList l => l' ← replace_items rec l; mret (VList l')
                   | VStr _ => _replace_argument v
                   | _ => mret v
                   end self = (Ok v, self)).
    { destruct v; try reflexivity.
      - apply replace_argument_literal. exact Hv.
      - run_M. rewrite replace_items_literal; [reflexivity | exact Hv | lia].
      - apply rec_literal; [exact Hv | lia]. }
    cbn [replace_entries]. rewrite Hff, Hfe. run_M. rewrite Hval.
    fold (replace_entries rec (done ++ [(key, v)]) todo).
    rewrite IH; [| exact Htodo | cbn [height]; lia].
    rewrite <- app_assoc. reflexivity.
Qed.

End Loops.

(** C6.  Resolving a configuration tree of literal values is the identity,
    for every builder: when no mapping of [T] has a factory key and no string
    of [T] is a reference, and the recursion limit [depth] is not below the
    height of [T], the resolver returns [T] and leaves the builder as it
    was. *)
Theorem replace_step_arguments_literal
    (depth : nat) (T : dict) (self : PipelineBuilder) :
  literal_dict T = true ->
  height (VDict T) <= depth ->
  _replace_step_arguments depth T self = (Ok (VDict T), self).
Proof.
  revert T. induction depth as [| depth IH]; intros T Hlit Hh.
  - cbn [height] in Hh. lia.
  - cbn [_replace_step_arguments].
    apply (replace_entries_literal self _ depth IH T []); assumption.
Qed.

End ResolverLiteral.

Lemma replace_step_arguments_literal_witness :
  let T := [ ("foo", VStr "bar");
             ("fuu", VList [VStr "baz"; VDict [("bar", VInt 3)]]) ] in
  _replace_step_arguments (H := symbolic_sdk) 1000 T PipelineBuilder_init
  = (Ok (VDict T), PipelineBuilder_init).
Proof.
  apply (replace_step_arguments_literal (H := symbolic_sdk)).
  - reflexivity.
  - cbn. lia.
Defined.

(** ** The assembler before and after [build] *)

Section NotFound.

Context `{Sdk}.

(** C8.  On a builder whose pipeline is unset, [definition], [upsert] and
    [run] raise the pipeline-not-found error and leave the builder as it was,
    the record of SDK calls included: nothing is asked of the service.  After
    a [build] that returned, the pipeline is set, and each of the three
    passes its guard and goes on to the call on the pipeline object. *)
Theorem pipeline_not_found_until_build (self built : PipelineBuilder) (params : value) :
  (pipeline self = VNone ->
     definition self = (Err (pipeline_not_found self), self)
     /\ upsert self = (Err (pipeline_not_found self), self)
     /\ run params self = (Err (pipeline_not_found self), self))
  /\ (build self = (Ok tt, built) ->
      truthy (pipeline built) = true
      /\ definition built = method (pipeline built) "definition" [] built
      /\ upsert built
         = (f ← getattr (pipeline built) "upsert";
            pc ← parallelism_config;
            call f [ ("role_arn", role_arn built);
                     ("tags", VList (tags built));
                     ("parallelism_config", pc) ];;
            mret tt) built
      /\ run params built
         = (method (pipeline built) "start" [("parameters", params)];; mret tt) built).
Proof.
  split.
  - intros Hunset. unfold definition, upsert, run. run_M. rewrite Hunset.
    repeat split; reflexivity.
  - intros Hbuild.
    assert (Htruthy : truthy (pipeline built) = true).
    { unfold build, pipeline_definition_config, new in Hbuild. run_M.
      destruct (sdk_new "PipelineDefinitionConfig" _); [| discriminate].
      destruct (sdk_new "Pipeline" _); [| discriminate].
      injection Hbuild as <-. reflexivity. }
    split; [exact Htruthy |].
    unfold definition, upsert, run. run_M. rewrite Htruthy.
    repeat split; reflexivity.
Qed.

End NotFound.

Lemma pipeline_not_found_until_build_witness :
  pipeline PipelineBuilder_init = VNone
  /\ fst (upsert (H := symbolic_sdk) PipelineBuilder_init)
     = Err (PipelineNotFoundError "Pipeline definition not found for None")
  /\ truthy (pipeline (snd (build (H := symbolic_sdk) PipelineBuilder_init))) = true.
Proof.
  pose proof (pipeline_not_found_until_build (H := symbolic_sdk)
                PipelineBuilder_init
                (snd (build (H := symbolic_sdk) PipelineBuilder_init)) VNone)
    as [Hbefore Hafter].
  split; [reflexivity |]. split.
  - destruct (Hbefore eq_refl) as (_ & Hupsert & _). rewrite Hupsert. reflexivity.
  - destruct (Hafter eq_refl) as (Htruthy & _). exact Htruthy.
Defined.

(** ** Dictionaries *)

Lemma dict_get_set_eq (d : dict) (k : string) (v : value) :
  Dict.get (Dict.set d k v) k = Some v.
Proof.
  induction d as [| [k' v'] d IH]; cbn.
  - rewrite String.eqb_refl. reflexivity.
  - destruct (String.eqb k k') eqn:E; cbn; rewrite E; [reflexivity | exact IH].
Qed.

Lemma dict_get_set_ne (d : dict) (k k' : string) (v : value) :
  k <> k' -> Dict.get (Dict.set d k v) k' = Dict.get d k'.
Proof.
  intros Hne. induction d as [| [k0 v0] d IH]; cbn.
  - destruct (String.eqb k' k) eqn:E; [| reflexivity].
    apply String.eqb_eq in E. congruence.
  - destruct (String.eqb k k0) eqn:E; cbn.
    + apply String.eqb_eq in E. subst k0.
      destruct (String.eqb k' k) eqn:E'; [| reflexivity].
      apply String.eqb_eq in E'. congruence.
    + rewrite IH. reflexivity.
Qed.

Lemma dict_keys_set_present (d : dict) (k : string) (v old : value) :
  Dict.get d k = Some old -> Dict.keys (Dict.set d k v) = Dict.keys d.
Proof.
  induction d as [| [k' v'] d IH]; cbn; [discriminate |].
  destruct (String.eqb k k') eqn:E; cbn; [reflexivity |].
  intros Hget. f_equal. apply IH. exact Hget.
Qed.


Lemma dict_get_remove_ne (d : dict) (k k' : string) :
  k <> k' -> Dict.get (Dict.remove d k) k' = Dict.get d k'.
Proof.
  intros Hne. unfold Dict.remove.
  induction d as [| [k0 v0] d IH]; cbn; [reflexivity |].
  destruct (String.eqb k k0) eqn:E; cbn.
  - apply String.eqb_eq in E. subst k0.
    destruct (String.eqb k' k) eqn:E'; [| exact IH].
    apply String.eqb_eq in E'. congruence.
  - rewrite IH. reflexivity.
Qed.

(** ** What a method leaves of the builder

    The resolver and the step builds read the builder and call the SDK: all
    they change is the record of SDK calls. *)

Lemma log_events_app (evs evs' : list event) (self : PipelineBuilder) :
  log_events evs' (log_events evs self) = log_events (evs ++ evs') self.
Proof. unfold log_events. rewrite fold_left_app. reflexivity. Qed.

Lemma steps_log_events (evs : list event) (self : PipelineBuilder) :
  steps (log_events evs self) = steps self.
Proof.
  revert self. induction evs as [| ev evs IH]; intros self; [reflexivity |].
  cbn. rewrite IH. reflexivity.
Qed.

Lemma parameters_log_events (evs : list event) (self : PipelineBuilder) :
  parameters (log_events evs self) = parameters self.
Proof.
  revert self. induction evs as [| ev evs IH]; intros self; [reflexivity |].
  cbn. rewrite IH. reflexivity.
Qed.

Lemma logs_only_ret {A : Type} (a : A) : logs_only (mret a).
Proof. intros self. exists []. reflexivity. Qed.

Lemma logs_only_raise {A : Type} (e : error) : logs_only (raise (A := A) e).
Proof. intros self. exists []. reflexivity. Qed.

Lemma logs_only_lift {A : Type} (r : result A) : logs_only (lift r).
Proof. intros self. exists []. reflexivity. Qed.

Lemma logs_only_read {A : Type} (f : PipelineBuilder -> A) : logs_only (read f).
Proof. intros self. exists []. reflexivity. Qed.

Lemma logs_only_bind {A B : Type} (m : M A) (k : A -> M B) :
  logs_only m -> (forall a, logs_only (k a)) -> logs_only (m ≫= k).
Proof.
  intros Hm Hk self. destruct (Hm self) as [evs Hevs].
  unfold mbind, M_bind. destruct (m self) as [[a | e] self1]; cbn in Hevs.
  - destruct (Hk a self1) as [evs' Hevs']. exists (evs ++ evs').
    rewrite Hevs', Hevs. apply log_events_app.
  - exists evs. exact Hevs.
Qed.

Create HintDb logs.
#[local] Hint Resolve logs_only_ret logs_only_raise logs_only_lift logs_only_read
  : logs.

(** Splits a method along its binds and branches, down to the calls. *)
Ltac logs_step :=
  match goal with
  | |- logs_only (_ ≫= _) => apply logs_only_bind; [| intros ?]
  | |- logs_only (if ?b then _ else _) => destruct b
  | |- logs_only (match ?x with _ => _ end) => destruct x
  | |- logs_only _ => solve [auto with logs]
  end.

Section Frames.

Context `{Sdk}.

Lemma logs_only_new (cls : string) (kwargs : dict) : logs_only (new cls kwargs).
Proof. intros self. exists [EvNew cls kwargs]. reflexivity. Qed.

Lemma logs_only_call (f : value) (kwargs : dict) : logs_only (call f kwargs).
Proof. intros self. exists [EvCall f kwargs]. reflexivity. Qed.

Lemma logs_only_getattr (o : value) (a : string) : logs_only (getattr o a).
Proof. intros self. exists [EvGetattr o a]. reflexivity. Qed.

Lemma logs_only_resolve_package_name (package_name : string) :
  logs_only (resolve_package_name package_name).
Proof.
  unfold resolve_package_name.
  destruct (Str.split ":" package_name) as [| package [| nm [| ? ?]]];
    auto with logs.
  intros self. exists [EvResolve package nm]. reflexivity.
Qed.

#[local] Hint Resolve logs_only_new logs_only_call logs_only_getattr
  logs_only_resolve_package_name : logs.

Lemma logs_only_method (o : value) (meth : string) (kwargs : dict) :
  logs_only (method o meth kwargs).
Proof. unfold method. repeat logs_step. Qed.

Lemma logs_only_resolve_enum_name (s : string) : logs_only (resolve_enum_name s).
Proof. unfold resolve_enum_name. repeat logs_step. Qed.

#[local] Hint Resolve logs_only_method logs_only_resolve_enum_name : logs.

Lemma logs_only_getattrs (o : value) (path : list string) :
  logs_only (getattrs o path).
Proof.
  revert o. induction path as [| attr path IH]; intros o; cbn [getattrs];
    repeat logs_step.
Qed.

#[local] Hint Resolve logs_only_getattrs : logs.

(** A plain argument is resolved without the interpreter. *)
Lemma logs_only_replace_argument (argument : value) :
  plain argument = true -> logs_only (_replace_argument argument).
Proof.
  destruct argument as [| b | z | s | l | d | cls fs];
    try solve [intros _; cbn [_replace_argument]; auto with logs].
  cbn [plain]. unfold plain_token, _replace_argument. intros Hplain.
  destruct (Str.startswith s PARAMETER_PREFIX); [repeat logs_step |].
  destruct (Str.startswith s EXECUTION_VARIABLE_PREFIX); [repeat logs_step |].
  destruct (Str.startswith s PROPERTY_FILE_PREFIX); [repeat logs_step |].
  destruct (Str.contains PROPERTIES_IDENTIFIER s); [| auto with logs].
  cbn [orb negb] in Hplain. unfold py_eval.
  destruct (parse_reference (eval_source s)) as [[step_name path] |];
    [repeat logs_step | discriminate Hplain].
Qed.

Lemma plain_entry (d : dict) (k : string) (v : value) :
  forallb (fun kv => plain (snd kv)) d = true ->
  Dict.get d k = Some v -> plain v = true.
Proof.
  induction d as [| [k' v'] d IH]; cbn [forallb Dict.get snd]; [discriminate |].
  intros Hall. apply andb_true_iff in Hall as [Hv Hd].
  destruct (String.eqb k k'); [intros [= <-]; exact Hv | apply IH, Hd].
Qed.

Lemma logs_only_replace_factory_function (rec : dict -> M value) (arguments : dict) :
  (forall d, Dict.get arguments "kwargs" = Some (VDict d) -> logs_only (rec d)) ->
  logs_only (_replace_factory_function rec arguments).
Proof.
  intros Hrec. unfold _replace_factory_function.
  destruct (negb _); [auto with logs |].
  destruct (Dict.get arguments "factory_function") as [factory_function |];
    [| auto with logs].
  destruct (Dict.get arguments "kwargs") as [kwargs |]; [| auto with logs].
  assert (Hkwargs : logs_only (match kwargs with
                               | VDict d => rec d
                               | _ => raise (AttributeError "keys")
                               end)).
  { destruct kwargs; auto with logs. }
  repeat logs_step.
Qed.

Lemma logs_only_replace_items (rec : dict -> M value) (l : list value) :
  (forall d, plain (VDict d) = true -> logs_only (rec d)) ->
  forallb plain l = true ->
  logs_only (replace_items rec l).
Proof.
  intros Hrec. induction l as [| a l IH]; cbn [replace_items forallb]; intros Hall.
  - auto with logs.
  - apply andb_true_iff in Hall as [Ha Hl]. specialize (IH Hl).
    assert (Hitem : logs_only (match a with
                               | VDict d => rec d
                               | _ => _replace_argument a
                               end)).
    { destruct a; try (apply logs_only_replace_argument; exact Ha).
      apply Hrec, Ha. }
    repeat logs_step.
Qed.

Lemma logs_only_replace_entries (rec : dict -> M value) (todo done : dict) :
  (forall d, plain (VDict d) = true -> logs_only (rec d)) ->
  forallb (fun kv => plain (snd kv)) todo = true ->
  factory_first todo = true ->
  done = [] \/ existsb (String.eqb FACTORY_FUNCTION) (Dict.keys todo) = false ->
  logs_only (replace_entries rec done todo).
Proof.
  intros Hrec. revert done.
  induction todo as [| [key v] todo IH]; intros done Hall Hfirst Hdone;
    cbn [replace_entries].
  - auto with logs.
  - cbn [forallb snd] in Hall. apply andb_true_iff in Hall as [Hv Hall].
    cbn [factory_first] in Hfirst. apply negb_true_iff in Hfirst.
    destruct (String.eqb key FACTORY_FUNCTION) eqn:Hkey.
    + apply String.eqb_eq in Hkey. subst key.
      destruct Hdone as [-> | Hnone];
        [| cbn [Dict.keys map fst existsb] in Hnone;
           rewrite String.eqb_refl in Hnone; discriminate Hnone].
      apply logs_only_replace_factory_function. cbn [app]. intros d Hget.
      apply Hrec. apply (plain_entry ((FACTORY_FUNCTION, v) :: todo) "kwargs").
      * cbn [forallb snd]. rewrite Hv, Hall. reflexivity.
      * exact Hget.
    + assert (Hvalue : logs_only (match v with
                                  | VDict d => rec d
                                  | VList l => l' ← replace_items rec l; mret (VList l')
                                  | VStr _ => _replace_argument v
                                  | _ => mret v
                                  end)).
      { destruct v as [| b | z | s | l | d | cls fs];
          [ auto with logs | auto with logs | auto with logs
          | apply logs_only_replace_argument; exact Hv
          | pose proof (logs_only_replace_items rec l Hrec Hv); repeat logs_step
          | apply Hrec, Hv
          | auto with logs ]. }
      assert (Hrest : forall done', logs_only (replace_entries rec done' todo)).
      { intros done'. apply IH; [exact Hall | | right; exact Hfirst].
        destruct todo as [| kv todo']; [reflexivity |].
        cbn [factory_first]. apply negb_true_iff.
        cbn [Dict.keys map existsb] in Hfirst.
        apply orb_false_iff in Hfirst as [_ Hfirst]. exact Hfirst. }
      destruct (String.eqb key FACTORY_ENUM).
      * destruct v; auto with logs.
      * apply logs_only_bind; [exact Hvalue | intros v'; apply Hrest].
Qed.

(** The resolver on a plain configuration changes nothing of the builder
    but the record of SDK calls. *)
Lemma logs_only_replace_step_arguments (depth : nat) (arguments : dict) :
  plain (VDict arguments) = true ->
  logs_only (_replace_step_arguments depth arguments).
Proof.
  revert arguments. induction depth as [| depth IH]; intros arguments Hplain; cbn.
  - auto with logs.
  - cbn [plain] in Hplain. apply andb_true_iff in Hplain as [Hall Hfirst].
    apply logs_only_replace_entries; [exact IH | exact Hall | exact Hfirst |].
    left. reflexivity.
Qed.

Lemma logs_only_step_build (m : step_model) : logs_only (step_build m).
Proof.
  unfold step_build.
  destruct (variant m);
    unfold AutoMLStepModel_build, CallbackStepModel_build, ProcessingStepModel_build,
      TrainingStepModel_build, TuningStepModel_build, TransformStepModel_build,
      ModelStepModel_build, CheckStepStepModel_build, ConditionStepModel_build,
      EMRStepModel_build, FailStepModel_build, LambdaStepModel_build,
      NotebookJobStepModel_build, estimator_of, check_job_config, network_config,
      new_step, resolve_attr;
    repeat logs_step.
Qed.

Lemma logs_only_StepModel_build (m : step_model) : logs_only (StepModel_build m).
Proof.
  intros self. destruct (logs_only_step_build m self) as [evs Hevs].
  exists evs. unfold StepModel_build.
  destruct (step_build m self) as [[step | err] self1]; exact Hevs.
Qed.

End Frames.

(** ** The step table *)

Example add_step_fail_step :
  let cfg := [("error_message", VStr "failed")] in
  let '(r, self) := add_step (H := symbolic_sdk) 10 "stop" cfg PipelineBuilder_init in
  r = Ok tt
  /\ steps self
     = [ ("stop", VObj "FailStep" [ ("name", VStr "stop");
                                    ("error_message", VStr "failed");
                                    ("depends_on", VNone) ]) ].
Proof. vm_compute. split; reflexivity. Qed.

Section StepTable.

Context `{Sdk}.
Variable recursion_limit : nat.

(** [add_step], once the keywords of the step are there. *)
Lemma add_step_after_kwargs
    (name : string) (kwargs kw : dict) (self self1 : PipelineBuilder) :
  step_kwargs recursion_limit name kwargs self = (Ok kw, self1) ->
  add_step recursion_limit name kwargs self
  = (m ← lift (StepModel_model_validate [("step", VDict kw)]);
     step ← StepModel_build m;
     store_step step) self1.
Proof.
  intros Hkw. unfold add_step. unfold mbind at 1. unfold M_bind.
  rewrite Hkw. reflexivity.
Qed.

(** C9.  When a call of [add_step] builds a step whose name [nm] is already
    in the step table, the call returns without error and the table maps
    [nm] to the step just built: the step stored before is dropped.  The
    other names are as the call's branch handling left them, and when [nm]
    is still a key at that point the table keeps its keys, the new step
    standing where the old one stood. *)
Theorem add_step_overwrites
    (name : string) (kwargs kw : dict) (self self1 self2 : PipelineBuilder)
    (m : step_model) (step old : value) (nm : string) :
  Dict.get (steps self) nm = Some old ->
  step_kwargs recursion_limit name kwargs self = (Ok kw, self1) ->
  StepModel_model_validate [("step", VDict kw)] = Ok m ->
  StepModel_build m self1 = (Ok step, self2) ->
  step_name_of step = Ok nm ->
  exists self',
    add_step recursion_limit name kwargs self = (Ok tt, self')
    /\ Dict.get (steps self') nm = Some step
    /\ (forall k, k <> nm -> Dict.get (steps self') k = Dict.get (steps self1) k)
    /\ (forall old1, Dict.get (steps self1) nm = Some old1 ->
                     Dict.keys (steps self') = Dict.keys (steps self1)).
Proof.
  intros _ Hkw Hvalid Hbuild Hname.
  assert (Hsteps : steps self2 = steps self1).
  { destruct (logs_only_StepModel_build m self1) as [evs Hevs].
    rewrite Hbuild in Hevs. cbn in Hevs. rewrite Hevs. apply steps_log_events. }
  exists (set_steps (Dict.set (steps self2) nm step) self2).
  split; [| split; [| split]].
  - rewrite (add_step_after_kwargs _ _ _ _ _ Hkw).
    unfold store_step. run_M. rewrite Hvalid, Hbuild, Hname. reflexivity.
  - cbn. apply dict_get_set_eq.
  - intros k Hk. cbn. rewrite Hsteps. apply dict_get_set_ne. congruence.
  - intros old1 Hold. cbn. rewrite Hsteps.
    apply (dict_keys_set_present _ _ _ old1). exact Hold.
Qed.

Lemma reserved_pipeline_keys_spec (name : string) :
  existsb (String.eqb name) reserved_pipeline_keys = true <-> is_reserved name.
Proof.
  unfold is_reserved, reserved_pipeline_keys. cbn [existsb].
  rewrite !orb_true_iff, !String.eqb_eq. intuition discriminate.
Qed.

(** C10.  [add_steps] never takes an entry under one of the six reserved
    names for a step, whatever stands under it, a string, a number, a
    boolean or a mapping: such an entry changes nothing, and [add_steps]
    does what adding a step for each of the other entries, in order,
    does. *)
Theorem add_steps_skips_reserved
    (steps : list (string * value)) (self : PipelineBuilder) :
  add_steps recursion_limit steps self
  = add_each recursion_limit
      (List.filter (fun entry => negb (existsb (String.eqb (fst entry))
                                         reserved_pipeline_keys)) steps) self
  /\ Forall (fun entry => ~ is_reserved (fst entry))
       (List.filter (fun entry => negb (existsb (String.eqb (fst entry))
                                          reserved_pipeline_keys)) steps)
  /\ (forall entry, In entry steps -> ~ is_reserved (fst entry) ->
        In entry (List.filter (fun entry => negb (existsb (String.eqb (fst entry))
                                                    reserved_pipeline_keys)) steps))
  /\ (forall name held, is_reserved name ->
        add_steps recursion_limit ((name, held) :: steps) self
        = add_steps recursion_limit steps self).
Proof.
  split; [| split; [| split]].
  - revert self. induction steps as [| [name kwargs] steps IH]; intros self.
    + reflexivity.
    + cbn [add_steps List.filter fst].
      destruct (existsb (String.eqb name) reserved_pipeline_keys); cbn [negb].
      * apply IH.
      * cbn [add_each]. unfold mbind, M_bind.
        destruct (add_step_entry recursion_limit name kwargs self) as [[[] | e] self1];
          [apply IH | reflexivity].
  - apply List.Forall_forall. intros entry Hin.
    apply List.filter_In in Hin as [_ Hkeep].
    rewrite <- reserved_pipeline_keys_spec.
    apply negb_true_iff in Hkeep. rewrite Hkeep. discriminate.
  - intros entry Hin Hfree. apply List.filter_In. split; [exact Hin |].
    apply negb_true_iff. rewrite <- reserved_pipeline_keys_spec in Hfree.
    destruct (existsb _ _); [destruct (Hfree eq_refl) | reflexivity].
  - intros name held Hreserved. apply reserved_pipeline_keys_spec in Hreserved.
    cbn [add_steps]. rewrite Hreserved. reflexivity.
Qed.

End StepTable.

(** The whole configuration of a pipeline goes to [add_steps]: what stands
    under the reserved names is no step, whatever its type; under any other
    name, what is not a mapping cannot be a step. *)
Example add_steps_pipeline_configuration :
  let configuration :=
    [ ("name", VStr "pipeline");
      ("parameters", VDict [("bucket", VDict [("type", VStr "p:ParameterString")])]);
      ("max_parallel_execution_steps", VInt 2);
      ("use_custom_job_prefix", VBool true);
      ("stop", VDict [("error_message", VStr "failed")]) ] in
  let '(r, self) := add_steps (H := symbolic_sdk) 10 configuration PipelineBuilder_init in
  r = Ok tt
  /\ Dict.keys (steps self) = ["stop"]
  /\ add_steps (H := symbolic_sdk) 10 [("retries", VInt 3)] PipelineBuilder_init
     = (Err (AttributeError "keys"), PipelineBuilder_init).
Proof. vm_compute. repeat split. Qed.

Lemma add_step_overwrites_witness :
  let old := VObj "FailStep" [("name", VStr "stop"); ("error_message", VStr "first")] in
  let self := set_steps [("stop", old)] PipelineBuilder_init in
  exists self',
    add_step (H := symbolic_sdk) 10 "stop" [("error_message", VStr "second")] self
    = (Ok tt, self')
    /\ Dict.get (steps self') "stop"
       = Some (VObj "FailStep" [ ("name", VStr "stop");
                                 ("error_message", VStr "second");
                                 ("depends_on", VNone) ]).
Proof.
  intros old self.
  destruct (add_step_overwrites (H := symbolic_sdk) 10 "stop"
              [("error_message", VStr "second")]
              [ ("error_message", VStr "second"); ("name", VStr "stop");
                ("role", VNone); ("sagemaker_session", VNone);
                ("security_group_ids", VList []); ("subnets", VList []) ]
              self self
              (log_event
                 (EvNew "FailStep" [ ("name", VStr "stop");
                                     ("error_message", VStr "second");
                                     ("depends_on", VNone) ]) self)
              {| variant := FailStepModel;
                 fields := [ ("name", VStr "stop"); ("depends_on", VNone);
                             ("cache_config", VNone); ("retry_policies", VNone);
                             ("error_message", VStr "second") ];
                 model_extra := [ ("role", VNone); ("sagemaker_session", VNone);
                                  ("security_group_ids", VList []);
                                  ("subnets", VList []) ] |}
              (VObj "FailStep" [ ("name", VStr "stop");
                                 ("error_message", VStr "second");
                                 ("depends_on", VNone) ])
              old "stop")
    as (self' & Hadd & Hget & _).
  - reflexivity.
  - vm_compute. reflexivity.
  - vm_compute. reflexivity.
  - vm_compute. reflexivity.
  - reflexivity.
  - exists self'. split; assumption.
Defined.

(** ** Branch steps leave the step table *)






Lemma set_steps_same (self : PipelineBuilder) : set_steps (steps self) self = self.
Proof. destruct self. reflexivity. Qed.

Section Branches.

Context `{Sdk}.
Variable recursion_limit : nat.



End Branches.

Section BranchSteps.

Context `{Sdk}.
Variable recursion_limit : nat.


(** What [add_step] adds to the keywords has no branch key. *)
Lemma branch_key_after_update (resolved : dict) (key : string) (a b c d e : value) :
  key = "if_steps" \/ key = "else_steps" ->
  Dict.get
    (Dict.update resolved
       [ ("name", a); ("role", b); ("sagemaker_session", c);
         ("security_group_ids", d); ("subnets", e) ]) key
  = Dict.get resolved key.
Proof.
  intros Hkey. unfold Dict.update. cbn [fold_left fst snd].
  rewrite !dict_get_set_ne by (destruct Hkey as [-> | ->]; discriminate).
  reflexivity.
Qed.



End BranchSteps.

(** Two steps built, then a condition step that takes both: a third step
    that refers to one of them cannot be added. *)
Example condition_step_then_reference :
  let a := VObj "FailStep" [("name", VStr "a")] in
  let b := VObj "FailStep" [("name", VStr "b")] in
  let self := set_steps [("a", a); ("b", b)] PipelineBuilder_init in
  let condition := [ ("conditions", VList []);
                     ("if_steps", VList [VStr "a"; VStr "b"]);
                     ("else_steps", VList []) ] in
  let '(r, self') := add_step (H := symbolic_sdk) 10 "check" condition self in
  r = Ok tt
  /\ Dict.keys (steps self') = ["check"]
  /\ (exists attributes,
        Dict.get (steps self') "check" = Some (VObj "ConditionStep" attributes)
        /\ Dict.get attributes "if_steps" = Some (VList [a; b]))
  /\ fst (add_step (H := symbolic_sdk) 10 "third"
            [("error_message", VStr "a.properties.Outputs")] self')
     = Err (KeyError "a").
Proof.
  vm_compute. split; [reflexivity |]. split; [reflexivity |]. split; [| reflexivity].
  eexists. split; reflexivity.
Qed.



(** ** The model step: one of two blocks *)

Lemma validate_fields_error (fs : list field) (v : dict) (e : error) :
  validate_fields fs v = Err e -> exists msg, e = ValidationError msg.
Proof.
  induction fs as [| f fs IH]; cbn [validate_fields]; [discriminate |].
  run_M.
  destruct (Dict.get v (fname f)) as [a |].
  - destruct (conforms f a); [| intros [= <-]; eexists; reflexivity].
    destruct (validate_fields fs v); [discriminate | exact IH].
  - destruct (fdefault f); [| intros [= <-]; eexists; reflexivity].
    destruct (validate_fields fs v); [discriminate | exact IH].
Qed.

(** An optional field whose default is [None] is not [None] after validation
    exactly when the configuration gives it. *)
Lemma validated_optional_field (fs : list field) (v out : dict) (k : string) :
  validate_fields fs v = Ok out ->
  (forall f, In f fs -> fname f = k -> fdefault f = Some VNone) ->
  declares fs k = true ->
  match Dict.get out k with
  | Some x => negb (is_none x)
  | None => false
  end = given v k.
Proof.
  revert out. induction fs as [| f fs IH]; intros out Hvalid Hdefault Hdeclares.
  - discriminate Hdeclares.
  - cbn [validate_fields] in Hvalid. run_M.
    destruct (match Dict.get v (fname f) with
              | Some a => if conforms f a then Ok a else _
              | None => _
              end) as [x |] eqn:Hx; [| discriminate].
    destruct (validate_fields fs v) as [rest |] eqn:Hrest; [| discriminate].
    injection Hvalid as <-. cbn [Dict.get].
    destruct (String.eqb_spec k (fname f)) as [-> | Hne].
    + unfold given. destruct (Dict.get v (fname f)) as [a |].
      * destruct (conforms f a); [| discriminate]. injection Hx as <-. reflexivity.
      * rewrite (Hdefault f) in Hx by (try left; reflexivity).
        injection Hx as <-. reflexivity.
    + apply IH; [reflexivity | |].
      * intros f' Hin. apply Hdefault. right. exact Hin.
      * cbn [declares existsb] in Hdeclares.
        apply orb_true_iff in Hdeclares as [Heq | Hrest']; [| exact Hrest'].
        apply String.eqb_eq in Heq. congruence.
Qed.

Section ModelStep.

Context `{Sdk}.
Variable recursion_limit : nat.

Lemma model_step_validated_blocks (v fs : dict) :
  validate_fields (model_fields ModelStepModel) v = Ok fs ->
  forall m, fields m = fs ->
  is_not_none m "create_model_kwargs" = given v "create_model_kwargs"
  /\ is_not_none m "register_model_kwargs" = given v "register_model_kwargs".
Proof.
  intros Hvalid m <-. unfold is_not_none.
  split; apply (validated_optional_field _ _ _ _ Hvalid); try reflexivity;
    intros f Hin Hname; cbn in Hin;
    repeat (destruct Hin as [<- | Hin]; [first [discriminate Hname | reflexivity] |]);
    destruct Hin.
Qed.

Lemma well_shaped_validate_fields (fs : list field) (v : dict) :
  well_shaped fs v = true -> exists out, validate_fields fs v = Ok out.
Proof.
  induction fs as [| f fs IH]; cbn [well_shaped forallb validate_fields].
  - intros _. eexists. reflexivity.
  - intros Hall. apply andb_true_iff in Hall as [Hf Hfs].
    destruct (IH Hfs) as [rest ->]. run_M.
    destruct (Dict.get v (fname f)) as [a |].
    + rewrite Hf. eexists. reflexivity.
    + destruct (fdefault f); [eexists; reflexivity | discriminate Hf].
Qed.

(** A literal configuration comes out of the resolver as it went in. *)
Lemma resolver_literal (depth : nat) (T : dict) (self : PipelineBuilder) :
  literal_dict T = true ->
  height (VDict T) <= depth ->
  _replace_step_arguments depth T self = (Ok (VDict T), self).
Proof.
  revert T. induction depth as [| depth IH]; intros T Hlit Hh.
  - cbn [height] in Hh. lia.
  - cbn [_replace_step_arguments].
    apply (replace_entries_literal self _ depth IH T []); assumption.
Qed.

(** The keyword phase of [add_step] on a literal configuration that names
    no branch leaves the builder as it is. *)
Lemma step_kwargs_literal (name : string) (kwargs : dict) (self : PipelineBuilder) :
  literal_dict kwargs = true ->
  height (VDict kwargs) <= recursion_limit ->
  Dict.mem kwargs "if_steps" = false ->
  Dict.mem kwargs "else_steps" = false ->
  exists kw, step_kwargs recursion_limit name kwargs self = (Ok kw, self).
Proof.
  intros Hlit Hh Hif Helse. unfold step_kwargs. unfold mbind at 1. unfold M_bind.
  rewrite (resolver_literal _ _ _ Hlit Hh). run_M.
  set (updated := Dict.update kwargs _).
  assert (Hget_if : Dict.get updated "if_steps" = None).
  { unfold updated. rewrite branch_key_after_update by (left; reflexivity).
    unfold Dict.mem in Hif. destruct (Dict.get kwargs "if_steps"); [discriminate | reflexivity]. }
  assert (Hget_else : Dict.get updated "else_steps" = None).
  { unfold updated. rewrite branch_key_after_update by (right; reflexivity).
    unfold Dict.mem in Helse. destruct (Dict.get kwargs "else_steps"); [discriminate | reflexivity]. }
  unfold replace_branch. rewrite Hget_if. run_M. rewrite Hget_else.
  eexists. reflexivity.
Qed.

(** C3, as amended.  For the keywords [v] that the discriminator takes for
    a model step: when [create_model_kwargs] and [register_model_kwargs] are
    both given or both missing, validation raises the validation error, and
    [add_step] raises it before the step is built, with the builder as
    resolving the keywords left it, which is as it was before the call when
    the configuration is literal and names no branch; when exactly one is
    given and the fields of [v] have the declared shapes, validation returns
    the model. *)
Theorem model_step_mutually_exclusive (v : dict) :
  select_variant v = Ok ModelStepModel ->
  (given v "create_model_kwargs" = given v "register_model_kwargs" ->
     (exists msg,
        StepModel_model_validate [("step", VDict v)] = Err (ValidationError msg))
     /\ forall name kwargs self self1,
          step_kwargs recursion_limit name kwargs self = (Ok v, self1) ->
          (exists msg,
             add_step recursion_limit name kwargs self
             = (Err (ValidationError msg), self1))
          /\ (literal_dict kwargs = true ->
              height (VDict kwargs) <= recursion_limit ->
              Dict.mem kwargs "if_steps" = false ->
              Dict.mem kwargs "else_steps" = false ->
              self1 = self))
  /\ (given v "create_model_kwargs" <> given v "register_model_kwargs" ->
      well_shaped (model_fields ModelStepModel) v = true ->
      exists m,
        StepModel_model_validate [("step", VDict v)] = Ok m
        /\ variant m = ModelStepModel
        /\ ModelStepModel_mutually_exclusive m = Ok m
        /\ is_not_none m "create_model_kwargs" = given v "create_model_kwargs"
        /\ is_not_none m "register_model_kwargs" = given v "register_model_kwargs").
Proof.
  intros Hvariant.
  assert (Hunfold :
            StepModel_model_validate [("step", VDict v)]
            = validate_variant ModelStepModel v).
  { unfold StepModel_model_validate. cbn [Dict.get]. rewrite String.eqb_refl.
    rewrite Hvariant. reflexivity. }
  split.
  - intros Hsame.
    assert (Hfails : exists msg,
              StepModel_model_validate [("step", VDict v)] = Err (ValidationError msg)).
    { rewrite Hunfold. unfold validate_variant. run_M.
      destruct (validate_fields (model_fields ModelStepModel) v) as [fs | e] eqn:Hfs.
      - unfold after_validators, ModelStepModel_mutually_exclusive. cbn [variant].
        destruct (model_step_validated_blocks v fs Hfs
                    {| variant := ModelStepModel; fields := fs;
                       model_extra :=
                         List.filter
                           (fun kv => negb (declares (model_fields ModelStepModel) (fst kv)))
                           v |} eq_refl) as [-> ->].
        rewrite Hsame, xorb_nilpotent. eexists. reflexivity.
      - destruct (validate_fields_error _ _ _ Hfs) as [msg ->].
        exists msg. reflexivity. }
    split; [exact Hfails |].
    intros name kwargs self self1 Hkw. split.
    + destruct Hfails as [msg Hfails].
      exists msg. rewrite (add_step_after_kwargs recursion_limit _ _ _ _ _ Hkw).
      run_M. rewrite Hfails. reflexivity.
    + intros Hlit Hh Hif Helse.
      destruct (step_kwargs_literal name kwargs self Hlit Hh Hif Helse) as [kw Hkw'].
      rewrite Hkw' in Hkw. injection Hkw as _ <-. reflexivity.
  - intros Hone Hshaped.
    destruct (well_shaped_validate_fields _ _ Hshaped) as [fs Hfs].
    set (m := {| variant := ModelStepModel; fields := fs;
                 model_extra :=
                   List.filter
                     (fun kv => negb (declares (model_fields ModelStepModel) (fst kv)))
                     v |}).
    destruct (model_step_validated_blocks v fs Hfs m eq_refl) as [Hcreate Hregister].
    assert (Haccepts : ModelStepModel_mutually_exclusive m = Ok m).
    { unfold ModelStepModel_mutually_exclusive. rewrite Hcreate, Hregister.
      destruct (given v "create_model_kwargs"), (given v "register_model_kwargs");
        first [reflexivity | destruct (Hone eq_refl)]. }
    exists m. split; [| repeat split; assumption].
    rewrite Hunfold. unfold validate_variant. run_M. rewrite Hfs.
    fold m. exact Haccepts.
Qed.

End ModelStep.

Example model_step_create_only :
  is_ok (StepModel_model_validate
           [("step", VDict [ ("name", VStr "model"); ("model_kwargs", VDict []);
                             ("create_model_kwargs", VDict []) ])]) = true.
Proof. vm_compute. reflexivity. Qed.

Lemma model_step_mutually_exclusive_witness :
  let both := [ ("name", VStr "model"); ("model_kwargs", VDict []);
                ("create_model_kwargs", VDict []);
                ("register_model_kwargs", VDict []) ] in
  let one := [ ("name", VStr "model"); ("model_kwargs", VDict []);
               ("register_model_kwargs", VDict [("model_package_group_name", VStr "g")]) ] in
  (exists msg,
     StepModel_model_validate [("step", VDict both)] = Err (ValidationError msg))
  /\ (exists m,
        StepModel_model_validate [("step", VDict one)] = Ok m
        /\ variant m = ModelStepModel
        /\ ModelStepModel_mutually_exclusive m = Ok m
        /\ is_not_none m "create_model_kwargs" = false
        /\ is_not_none m "register_model_kwargs" = true).
Proof.
  intros both one. split.
  - destruct (model_step_mutually_exclusive (H := symbolic_sdk) 10 both) as [Hboth _].
    + vm_compute. reflexivity.
    + destruct Hboth as [Hfails _]; [reflexivity | exact Hfails].
  - destruct (model_step_mutually_exclusive (H := symbolic_sdk) 10 one) as [_ Hone].
    + vm_compute. reflexivity.
    + apply Hone; [discriminate | reflexivity].
Defined.

(** Exactly one of the two blocks is given, and validation fails all the
    same: the block is a list where a mapping is declared.  And the error of
    a configuration with both blocks comes after the calls into the SDK that
    resolving its keywords asks for. *)
Lemma model_step_block_of_wrong_shape :
  let v := [ ("name", VStr "model"); ("model_kwargs", VDict []);
             ("create_model_kwargs", VList []) ] in
  let kwargs :=
    [ ("model_kwargs",
       VDict [ ("image_uri",
                VDict [ ("factory_function", VStr "sagemaker.workflow.functions:Join");
                        ("kwargs", VDict [("on", VStr "/"); ("values", VList [VStr "a"])]) ]) ]);
      ("create_model_kwargs", VDict []);
      ("register_model_kwargs", VDict []) ] in
  let result := add_step (H := symbolic_sdk) 10 "model" kwargs PipelineBuilder_init in
  select_variant v = Ok ModelStepModel
  /\ given v "create_model_kwargs" = true
  /\ given v "register_model_kwargs" = false
  /\ StepModel_model_validate [("step", VDict v)]
     = Err (ValidationError "Input should be valid: create_model_kwargs")
  /\ fst result
     = Err (ValidationError
              "Either specify `create_model_kwargs` or `register_model_kwargs`.")
  /\ sdk_events (snd result)
     = [ EvResolve "sagemaker.workflow.functions" "Join";
         EvCall (VObj "callable" [ ("package", VStr "sagemaker.workflow.functions");
                                   ("name", VStr "Join") ])
           [("on", VStr "/"); ("values", VList [VStr "a"])] ].
Proof. vm_compute. repeat split. Qed.

(** ** Validation of the blueprint's root document *)

Lemma validate_key_cases (config : dict) (filename key : string) :
  (validate_key config filename key = Ok tt
   /\ exists l, Dict.get config key = Some (VList l))
  \/ (exists msg,
        validate_key config filename key = Err (PipelineBlueprintValidationError msg)
        /\ not_a_list config key).
Proof.
  unfold validate_key, not_a_list.
  destruct (Dict.get config key) as [[] |];
    first [ left; split; [reflexivity | eexists; reflexivity]
          | right; eexists; split; [reflexivity | intros l' [=]] ].
Qed.

Lemma validate_backend_cases (config : dict) (filename : string) (backend : value) :
  hashable backend ->
  (validate_backend config filename backend = Ok tt /\ configured config backend)
  \/ (exists msg,
        validate_backend config filename backend
        = Err (PipelineBlueprintValidationError msg)
        /\ ~ configured config backend).
Proof.
  intros Hhashable. unfold validate_backend, configured.
  destruct backend as [| b | z | b | l | d | cls fs];
    try destruct Hhashable; cbn [config_item]; run_M;
    try (right; eexists; split; [reflexivity | intros (b' & d' & [=] & _)]).
  destruct (Dict.get config b) as [[| ? | ? | ? | ? | d | ? ?] |] eqn:Hitem;
    try (right; eexists; split;
         [reflexivity | intros (b' & d' & [= <-] & Hget & _); congruence]).
  destruct (Dict.mem d "datadir") eqn:Hdatadir.
  - left. split; [reflexivity |]. exists b, d. repeat split; assumption.
  - right. eexists. split; [reflexivity |].
    intros (b' & d' & [= <-] & Hget & Hmem). congruence.
Qed.

Lemma validate_backends_cases (config : dict) (filename : string) (l : list value) :
  Forall hashable l ->
  (for_each (validate_backend config filename) l = Ok tt
   /\ Forall (configured config) l)
  \/ (exists msg,
        for_each (validate_backend config filename) l
        = Err (PipelineBlueprintValidationError msg)
        /\ exists backend, In backend l /\ ~ configured config backend).
Proof.
  induction 1 as [| backend l Hhashable _ IH].
  - left. split; [reflexivity | constructor].
  - cbn [for_each]. run_M.
    destruct (validate_backend_cases config filename backend Hhashable)
      as [[-> Hok] | (msg & -> & Hbad)].
    + destruct IH as [[-> Hall] | (msg & -> & backend' & Hin & Hbad)].
      * left. split; [reflexivity | constructor; assumption].
      * right. exists msg. split; [reflexivity |].
        exists backend'. split; [right; exact Hin | exact Hbad].
    + right. exists msg. split; [reflexivity |].
      exists backend. split; [left; reflexivity | exact Hbad].
Qed.

Lemma validate_cases (config : dict) (filename : string) :
  (forall l, Dict.get config "backends" = Some (VList l) -> Forall hashable l) ->
  (validate config filename = Ok tt /\ ~ structural_error config)
  \/ (exists msg,
        validate config filename = Err (PipelineBlueprintValidationError msg)
        /\ structural_error config).
Proof.
  intros Hhashable. unfold validate, hiera_keys. cbn [for_each]. run_M.
  destruct (validate_key_cases config filename "backends")
    as [[-> [l Hbackends]] | (msg & -> & Hbad)].
  2: { right. exists msg. split; [reflexivity |]. left. exists "backends".
       split; [left; reflexivity | exact Hbad]. }
  destruct (validate_key_cases config filename "context")
    as [[-> [lc Hcontext]] | (msg & -> & Hbad)].
  2: { right. exists msg. split; [reflexivity |]. left. exists "context".
       split; [right; left; reflexivity | exact Hbad]. }
  destruct (validate_key_cases config filename "hierarchy")
    as [[-> [lh Hhierarchy]] | (msg & -> & Hbad)].
  2: { right. exists msg. split; [reflexivity |]. left. exists "hierarchy".
       split; [right; right; left; reflexivity | exact Hbad]. }
  unfold subscript. rewrite Hbackends. cbn [py_iter].
  destruct (validate_backends_cases config filename l (Hhashable l Hbackends))
    as [[-> Hall] | (msg & -> & backend & Hin & Hbad)].
  - left. split; [reflexivity |].
    intros [(key & Hkey & Hnot) | (l' & backend & Hl' & Hin & Hbad)].
    + cbn in Hkey. destruct Hkey as [<- | [<- | [<- | []]]].
      * exact (Hnot l Hbackends).
      * exact (Hnot lc Hcontext).
      * exact (Hnot lh Hhierarchy).
    + rewrite Hbackends in Hl'. injection Hl' as <-.
      rewrite List.Forall_forall in Hall. exact (Hbad (Hall backend Hin)).
  - right. exists msg. split; [reflexivity |]. right.
    exists l, backend. repeat split; assumption.
Qed.

(** C7, as amended.  For every root document whose backends list, when it
    is a list, holds hashable entries only: [validate] raises the blueprint
    validation error exactly when one of backends, context, hierarchy is
    missing or is not a list, or an entry of the backends list has no
    configuration mapping with the storage directory in it; and it returns
    without error when there is no such defect. *)
Theorem validate_structural (config : dict) (filename : string) :
  (forall l, Dict.get config "backends" = Some (VList l) -> Forall hashable l) ->
  ((exists msg,
      validate config filename = Err (PipelineBlueprintValidationError msg))
   <-> structural_error config)
  /\ (~ structural_error config -> validate config filename = Ok tt).
Proof.
  intros Hhashable.
  destruct (validate_cases config filename Hhashable)
    as [[Hok Hsound] | (msg & Herr & Hdefect)].
  - split; [split |].
    + intros [msg Herr]. rewrite Hok in Herr. discriminate Herr.
    + intros Hdefect. destruct (Hsound Hdefect).
    + intros _. exact Hok.
  - split; [split |].
    + intros _. exact Hdefect.
    + intros _. exists msg. exact Herr.
    + intros Hsound. destruct (Hsound Hdefect).
Qed.

Example validate_missing_context :
  validate [ ("backends", VList [VStr "yaml"]); ("hierarchy", VList []);
             ("yaml", VDict [("datadir", VStr "config")]) ] "hiera.yaml"
  = Err (PipelineBlueprintValidationError
           "context not defined in the hiera configuration file: hiera.yaml").
Proof. reflexivity. Qed.

Example validate_missing_datadir :
  validate [ ("backends", VList [VStr "yaml"]); ("context", VList []);
             ("hierarchy", VList []); ("yaml", VDict []) ] "hiera.yaml"
  = Err (PipelineBlueprintValidationError "datadir not found in yaml configuration").
Proof. reflexivity. Qed.

Lemma validate_structural_witness :
  validate [ ("backends", VList [VStr "yaml"]); ("context", VList [VStr "env"]);
             ("hierarchy", VList [VStr "%{env}/common"]);
             ("yaml", VDict [("datadir", VStr "config")]) ] "hiera.yaml"
  = Ok tt.
Proof.
  apply validate_structural.
  - intros l [= <-]. repeat constructor.
  - intros [(key & Hkey & Hnot) | (l & backend & [= <-] & Hin & Hbad)].
    + cbn in Hkey. destruct Hkey as [<- | [<- | [<- | []]]];
        exact (Hnot _ eq_refl).
    + destruct Hin as [<- | []]. apply Hbad.
      exists "yaml", [("datadir", VStr "config")]. repeat split.
Defined.

(** A backends entry that is itself a list cannot be a key: the [TypeError]
    of the lookup is not one of the two exceptions [validate] catches. *)
Lemma validate_unhashable_backend :
  let config := [ ("backends", VList [VList [VStr "yaml"]]);
                  ("context", VList []); ("hierarchy", VList []) ] in
  validate config "hiera.yaml" = Err (TypeError "unhashable type")
  /\ structural_error config.
Proof.
  split; [reflexivity |]. right.
  exists [VList [VStr "yaml"]], (VList [VStr "yaml"]).
  split; [reflexivity |]. split; [left; reflexivity |].
  intros (b & d & [=] & _).
Qed.

(** ** Environment variables in scalars *)

Example env_vars_constructor_tests :
  let environ : gmap string string :=
    {[ "ENV_VAR_1" := "ENV_VALUE_1"; "ENV_VAR_2" := "ENV_VALUE_2" ]} in
  env_vars_constructor environ "data: no-replace" = "data: no-replace"
  /\ env_vars_constructor environ "data: ${ENV_VAR_1}" = "data: ENV_VALUE_1"
  /\ env_vars_constructor environ "data: ${ENV_VAR_1}/${ENV_VAR_2}"
     = "data: ENV_VALUE_1/ENV_VALUE_2"
  /\ env_vars_constructor environ "data: ${ENV_VAR_3}" = "data: ENV_VAR_3".
Proof. vm_compute. repeat split. Qed.

Lemma append_assoc (a b c : string) : (a +:+ b) +:+ c = a +:+ (b +:+ c).
Proof.
  induction a as [| x a IH]; [reflexivity |].
  rewrite !append_cons, IH. reflexivity.
Qed.

Lemma length_append (a b : string) :
  String.length (a +:+ b) = String.length a + String.length b.
Proof.
  induction a as [| x a IH]; [reflexivity |].
  rewrite append_cons. cbn [String.length]. rewrite IH. reflexivity.
Qed.

Lemma prefix_append (a b : string) : String.prefix a (a +:+ b) = true.
Proof.
  induction a as [| x a IH]; [apply prefix_empty |].
  rewrite append_cons. cbn [String.prefix].
  destruct (ascii_dec x x) as [_ | Hne]; [exact IH | destruct (Hne eq_refl)].
Qed.

Lemma findall_aux_cons (c : ascii) (s' : string) :
  findall_aux 0 (String c s')
  = if String.prefix "${" (String c s') then
      match until_brace (Str.drop 1 s') with
      | Some (group, _) => group :: findall_aux (String.length group + 2) s'
      | None => findall_aux 0 s'
      end
    else findall_aux 0 s'.
Proof. reflexivity. Qed.

Lemma replace_aux_cons (old new : string) (c : ascii) (s' : string) :
  Str.replace_aux old new 0 (String c s')
  = if String.prefix old (String c s')
    then new +:+ Str.replace_aux old new (String.length old - 1) s'
    else String c (Str.replace_aux old new 0 s').
Proof. reflexivity. Qed.

(** The opening [${] does not start at [c] in [pre], and what follows [pre]
    does not start with a brace: it does not start at [c] in the longer
    string either. *)
Lemma prefix_open_append (c : ascii) (pre rest : string) :
  String.prefix "${" (String c pre) = false ->
  String.prefix "{" rest = false ->
  String.prefix "${" (String c (pre +:+ rest)) = false.
Proof.
  cbn [String.prefix]. intros Hpre Hrest.
  destruct (ascii_dec "$" c) as [_ | _]; [| reflexivity].
  destruct pre as [| d pre]; [exact Hrest |].
  rewrite append_cons. cbn [String.prefix] in *.
  destruct (ascii_dec "{" d) as [_ | _]; [| reflexivity].
  rewrite prefix_empty in Hpre. discriminate Hpre.
Qed.

(** A placeholder starts with the opening [${]. *)
Lemma prefix_placeholder_open (body s : string) :
  String.prefix "${" s = false ->
  String.prefix (String "$" (String "{" body)) s = false.
Proof.
  destruct s as [| c [| d s]]; cbn [String.prefix]; try reflexivity.
  - destruct (ascii_dec "$" c); reflexivity.
  - destruct (ascii_dec "$" c); [| reflexivity].
    destruct (ascii_dec "{" d); [| reflexivity].
    rewrite prefix_empty. discriminate.
Qed.

(** *** The groups found *)

Lemma findall_no_open_prefix (pre rest : string) :
  Str.contains "${" pre = false ->
  String.prefix "{" rest = false ->
  findall_aux 0 (pre +:+ rest) = findall_aux 0 rest.
Proof.
  intros Hpre Hrest. induction pre as [| a pre IH]; [reflexivity |].
  cbn [Str.contains] in Hpre. apply orb_false_iff in Hpre as [Ha Hpre].
  rewrite append_cons, findall_aux_cons.
  rewrite (prefix_open_append a pre rest Ha Hrest). apply IH, Hpre.
Qed.

Lemma findall_no_open (post : string) :
  Str.contains "${" post = false -> findall_aux 0 post = [].
Proof.
  intros Hno. rewrite <- (append_empty_r post).
  rewrite findall_no_open_prefix; [reflexivity | exact Hno | reflexivity].
Qed.

Lemma findall_skip (a s : string) :
  findall_aux (String.length a) (a +:+ s) = findall_aux 0 s.
Proof.
  induction a as [| x a IH]; [reflexivity |].
  rewrite append_cons. cbn [String.length findall_aux]. exact IH.
Qed.

Lemma until_brace_group (group post : string) :
  has_char "}" group = false ->
  has_char newline group = false ->
  until_brace (group +:+ String "}" post) = Some (group, post).
Proof.
  induction group as [| a group IH]; [reflexivity |]. cbn [has_char].
  intros Hbrace Hline.
  apply orb_false_iff in Hbrace as [Ha Hbrace].
  apply orb_false_iff in Hline as [Ha' Hline].
  rewrite append_cons. cbn [until_brace]. rewrite Ha, Ha', IH by assumption.
  reflexivity.
Qed.

Lemma prefix_dollar_brace (body : string) :
  String.prefix "${" (String "$" (String "{" body)) = true.
Proof. apply (prefix_append "${" body). Qed.

Lemma placeholder_shape (pre group post : string) :
  pre +:+ "${" +:+ group +:+ "}" +:+ post
  = pre +:+ String "$" (String "{" (group +:+ String "}" post)).
Proof. reflexivity. Qed.

Lemma findall_placeholder (pre group post : string) :
  Str.contains "${" pre = false ->
  Str.contains "${" post = false ->
  has_char "}" group = false ->
  has_char newline group = false ->
  PATTERN_ENV_VARS_findall (pre +:+ "${" +:+ group +:+ "}" +:+ post) = [group].
Proof.
  intros Hpre Hpost Hbrace Hline. unfold PATTERN_ENV_VARS_findall.
  rewrite placeholder_shape, findall_no_open_prefix; [| exact Hpre | reflexivity].
  rewrite findall_aux_cons, prefix_dollar_brace.
  change (Str.drop 1 (String "{" (group +:+ String "}" post)))
    with (group +:+ String "}" post).
  rewrite until_brace_group by assumption. f_equal.
  replace (String.length group + 2)
    with (String.length (String "{" group +:+ String "}" EmptyString))
    by (rewrite length_append; cbn [String.length]; lia).
  replace (String "{" (group +:+ String "}" post))
    with ((String "{" group +:+ String "}" EmptyString) +:+ post)
    by (rewrite append_assoc; reflexivity).
  rewrite findall_skip. apply findall_no_open, Hpost.
Qed.

(** *** The replacement *)

Lemma replace_no_open_prefix (body new pre rest : string) :
  Str.contains "${" pre = false ->
  String.prefix "{" rest = false ->
  Str.replace_aux (String "$" (String "{" body)) new 0 (pre +:+ rest)
  = pre +:+ Str.replace_aux (String "$" (String "{" body)) new 0 rest.
Proof.
  intros Hpre Hrest. induction pre as [| a pre IH]; [reflexivity |].
  cbn [Str.contains] in Hpre. apply orb_false_iff in Hpre as [Ha Hpre].
  rewrite !append_cons, replace_aux_cons.
  rewrite (prefix_placeholder_open body _ (prefix_open_append a pre rest Ha Hrest)).
  rewrite IH by exact Hpre. reflexivity.
Qed.

Lemma replace_no_open (body new post : string) :
  Str.contains "${" post = false ->
  Str.replace_aux (String "$" (String "{" body)) new 0 post = post.
Proof.
  intros Hno. rewrite <- (append_empty_r post) at 1.
  rewrite replace_no_open_prefix; [| exact Hno | reflexivity].
  cbn [Str.replace_aux]. apply append_empty_r.
Qed.

Lemma replace_skip (old new a s : string) :
  Str.replace_aux old new (String.length a) (a +:+ s) = Str.replace_aux old new 0 s.
Proof.
  induction a as [| x a IH]; [reflexivity |].
  rewrite append_cons. cbn [String.length Str.replace_aux]. exact IH.
Qed.

Lemma replace_placeholder (body new pre post : string) :
  Str.contains "${" pre = false ->
  Str.contains "${" post = false ->
  Str.replace (String "$" (String "{" body)) new
    (pre +:+ String "$" (String "{" body) +:+ post)
  = pre +:+ new +:+ post.
Proof.
  intros Hpre Hpost. unfold Str.replace.
  rewrite replace_no_open_prefix; [| exact Hpre | reflexivity]. f_equal.
  assert (Hprefix : String.prefix (String "$" (String "{" body))
                      (String "$" (String "{" body +:+ post)) = true)
    by apply (prefix_append (String "$" (String "{" body)) post).
  rewrite append_cons, replace_aux_cons, Hprefix. f_equal.
  replace (String.length (String "$" (String "{" body)) - 1)
    with (String.length (String "{" body))
    by (cbn [String.length]; lia).
  rewrite replace_skip. apply replace_no_open, Hpost.
Qed.

(** A scalar with one placeholder, between two texts in which no [${]
    opens: the first may end with a dollar sign, and the value may be any
    string. *)
Lemma env_vars_constructor_one_placeholder
    (environ : gmap string string) (pre NAME post : string) :
  Str.contains "${" pre = false ->
  Str.contains "${" post = false ->
  has_char "}" NAME = false ->
  has_char newline NAME = false ->
  env_vars_constructor environ (pre +:+ "${" +:+ NAME +:+ "}" +:+ post)
  = pre +:+ match environ !! NAME with
            | Some value => value
            | None => NAME
            end +:+ post.
Proof.
  intros Hpre Hpost Hbrace Hline. unfold env_vars_constructor.
  rewrite findall_placeholder by assumption. cbn [replace_groups].
  assert (Hshape : pre +:+ "${" +:+ NAME +:+ "}" +:+ post
                   = pre +:+ String "$" (String "{" (NAME +:+ "}")) +:+ post).
  { rewrite placeholder_shape. f_equal. rewrite !append_cons. f_equal. f_equal.
    rewrite append_assoc. reflexivity. }
  rewrite Hshape.
  replace ("${" +:+ NAME +:+ "}") with (String "$" (String "{" (NAME +:+ "}")))
    by reflexivity.
  rewrite replace_placeholder by assumption.
  unfold environ_get. destruct (environ !! NAME); reflexivity.
Qed.

Lemma env_vars_constructor_one_placeholder_example :
  env_vars_constructor {[ "ENV_VAR_1" := "ENV_VALUE_1" ]} "data: $${ENV_VAR_1}/raw"
  = "data: $ENV_VALUE_1/raw".
Proof.
  exact (env_vars_constructor_one_placeholder {[ "ENV_VAR_1" := "ENV_VALUE_1" ]}
           "data: $" "ENV_VAR_1" "/raw" eq_refl eq_refl eq_refl eq_refl).
Defined.

(** *** Scalars with any number of placeholders *)

Lemma no_open_prefix (body : string) (c : ascii) (s rest : string) :
  no_open (String c s) = true ->
  String.prefix (String "$" (String "{" body)) (String c (s +:+ rest)) = false.
Proof.
  cbn [no_open String.prefix]. intros Hc. apply andb_true_iff in Hc as [Hc _].
  destruct (ascii_dec "$" c) as [<- | _]; [| reflexivity].
  cbn in Hc. destruct s as [| d s]; [discriminate Hc |].
  rewrite append_cons. cbn [String.prefix].
  destruct (ascii_dec "{" d) as [<- | _]; [discriminate Hc | reflexivity].
Qed.

Lemma no_open_tail (c : ascii) (s : string) :
  no_open (String c s) = true -> no_open s = true.
Proof. cbn [no_open]. intros Hc. apply andb_true_iff in Hc as [_ Hs]. exact Hs. Qed.

Lemma no_open_append (a b : string) :
  no_open a = true -> no_open b = true -> no_open (a +:+ b) = true.
Proof.
  intros Ha Hb. induction a as [| c a IH]; [exact Hb |].
  pose proof (no_open_tail c a Ha) as Htail.
  rewrite append_cons. cbn [no_open] in *. rewrite (IH Htail), andb_true_r.
  apply andb_true_iff in Ha as [Hc _].
  destruct a as [| d a]; [| rewrite append_cons; exact Hc].
  destruct (Ascii.eqb c "$"); [discriminate Hc | reflexivity].
Qed.

(** The scan for groups passes a text in which no [${] opens. *)
Lemma findall_text (text rest : string) :
  no_open text = true ->
  findall_aux 0 (text +:+ rest) = findall_aux 0 rest.
Proof.
  intros Htext. induction text as [| c text IH]; [reflexivity |].
  rewrite append_cons, findall_aux_cons.
  change "${" with (String "$" (String "{" EmptyString)).
  rewrite (no_open_prefix EmptyString c text rest Htext).
  apply IH, (no_open_tail c), Htext.
Qed.

(** And it reads the name of a placeholder. *)
Lemma findall_one_placeholder (NAME rest : string) :
  has_char "}" NAME = false ->
  has_char newline NAME = false ->
  findall_aux 0 (render (Placeholder NAME) +:+ rest) = NAME :: findall_aux 0 rest.
Proof.
  intros Hbrace Hline. cbn [render].
  replace (("${" +:+ NAME +:+ "}") +:+ rest)
    with (String "$" (String "{" (NAME +:+ String "}" rest)))
    by (rewrite !append_cons, append_empty_l, append_assoc; reflexivity).
  rewrite findall_aux_cons, prefix_dollar_brace.
  change (Str.drop 1 (String "{" (NAME +:+ String "}" rest)))
    with (NAME +:+ String "}" rest).
  rewrite until_brace_group by assumption. f_equal.
  replace (String.length NAME + 2)
    with (String.length (String "{" NAME +:+ String "}" EmptyString))
    by (rewrite length_append; cbn [String.length]; lia).
  replace (String "{" (NAME +:+ String "}" rest))
    with ((String "{" NAME +:+ String "}" EmptyString) +:+ rest)
    by (rewrite append_assoc; reflexivity).
  apply findall_skip.
Qed.

Lemma findall_scalar (environ : gmap string string) (pieces : list piece) :
  forallb (well_formed_piece environ) pieces = true ->
  PATTERN_ENV_VARS_findall (scalar pieces) = placeholder_names pieces.
Proof.
  unfold PATTERN_ENV_VARS_findall.
  induction pieces as [| [text | NAME] pieces IH]; cbn [forallb scalar placeholder_names].
  - reflexivity.
  - intros Hall. apply andb_true_iff in Hall as [Htext Hall].
    cbn [render]. rewrite findall_text by exact Htext. apply IH, Hall.
  - intros Hall. apply andb_true_iff in Hall as [Hname Hall].
    cbn [well_formed_piece] in Hname.
    apply andb_true_iff in Hname as [Hname _].
    apply andb_true_iff in Hname as [Hname Hline].
    apply andb_true_iff in Hname as [_ Hbrace].
    apply negb_true_iff in Hbrace, Hline.
    rewrite findall_one_placeholder by assumption. f_equal. apply IH, Hall.
Qed.

(** The replacement passes a text in which no [${] opens. *)
Lemma replace_text (body new text rest : string) :
  no_open text = true ->
  Str.replace_aux (String "$" (String "{" body)) new 0 (text +:+ rest)
  = text +:+ Str.replace_aux (String "$" (String "{" body)) new 0 rest.
Proof.
  intros Htext. induction text as [| c text IH]; [reflexivity |].
  rewrite !append_cons, replace_aux_cons.
  rewrite (no_open_prefix body c text rest Htext).
  rewrite IH by exact (no_open_tail c text Htext). reflexivity.
Qed.

(** Two names without closing brace: the placeholder of one starts the
    placeholder of the other only when they are the same. *)
Lemma prefix_other_name (g h rest : string) :
  has_char "}" g = false ->
  has_char "}" h = false ->
  g <> h ->
  String.prefix (g +:+ "}") (h +:+ String "}" rest) = false.
Proof.
  revert h. induction g as [| a g IH]; intros h Hg Hh Hne.
  - destruct h as [| b h]; [destruct (Hne eq_refl) |].
    rewrite append_empty_l, append_cons. cbn [String.prefix].
    destruct (ascii_dec "}" b) as [<- | _]; [| reflexivity].
    cbn [has_char] in Hh. discriminate Hh.
  - cbn [has_char] in Hg. apply orb_false_iff in Hg as [Ha Hg].
    destruct h as [| b h].
    + rewrite append_cons, append_empty_l. cbn [String.prefix].
      destruct (ascii_dec a "}") as [-> | _]; [discriminate Ha | reflexivity].
    + cbn [has_char] in Hh. apply orb_false_iff in Hh as [_ Hh].
      rewrite !append_cons. cbn [String.prefix].
      destruct (ascii_dec a b) as [-> | _]; [| reflexivity].
      apply IH; [exact Hg | exact Hh | congruence].
Qed.

(** The replacement of the placeholder of [g] on a placeholder: the one of
    [g] becomes the value, another one stays. *)
Lemma replace_one_placeholder (g new h rest : string) :
  has_char "}" g = false ->
  has_char "}" h = false ->
  no_open h = true ->
  Str.replace_aux ("${" +:+ g +:+ "}") new 0 (render (Placeholder h) +:+ rest)
  = (if String.eqb h g then new else render (Placeholder h))
      +:+ Str.replace_aux ("${" +:+ g +:+ "}") new 0 rest.
Proof.
  intros Hg Hh Hopen. cbn [render].
  change ("${" +:+ g +:+ "}") with (String "$" (String "{" (g +:+ "}"))).
  change ("${" +:+ h +:+ "}") with (String "$" (String "{" (h +:+ "}"))).
  destruct (String.eqb_spec h g) as [-> | Hne].
  - assert (Hprefix : String.prefix (String "$" (String "{" (g +:+ "}")))
                        (String "$" (String "{" (g +:+ "}") +:+ rest)) = true)
      by apply (prefix_append (String "$" (String "{" (g +:+ "}"))) rest).
    rewrite append_cons, replace_aux_cons, Hprefix. f_equal.
    replace (String.length (String "$" (String "{" (g +:+ "}"))) - 1)
      with (String.length (String "{" (g +:+ "}")))
      by (cbn [String.length]; lia).
    apply replace_skip.
  - rewrite !append_cons, replace_aux_cons.
    assert (Hprefix : String.prefix (String "$" (String "{" (g +:+ "}")))
                        (String "$" (String "{" ((h +:+ "}") +:+ rest))) = false).
    { cbn [String.prefix].
      destruct (ascii_dec "$" "$") as [_ | Hd]; [| destruct (Hd eq_refl)].
      destruct (ascii_dec "{" "{") as [_ | Hd]; [| destruct (Hd eq_refl)].
      replace ((h +:+ "}") +:+ rest) with (h +:+ String "}" rest)
        by (rewrite append_assoc; reflexivity).
      apply prefix_other_name; [exact Hg | exact Hh | congruence]. }
    rewrite Hprefix. f_equal.
    change (String "{" ((h +:+ "}") +:+ rest)) with (String "{" (h +:+ "}") +:+ rest).
    apply replace_text.
    change (String "{" (h +:+ "}")) with ("{" +:+ h +:+ "}").
    apply no_open_append; [reflexivity |].
    apply no_open_append; [exact Hopen | reflexivity].
Qed.

Lemma well_formed_name (environ : gmap string string) (NAME : string) :
  well_formed_piece environ (Placeholder NAME) = true ->
  no_open NAME = true /\ has_char "}" NAME = false
  /\ has_char newline NAME = false /\ no_open (environ_get environ NAME) = true.
Proof.
  cbn [well_formed_piece]. intros Hname.
  apply andb_true_iff in Hname as [Hname Hvalue].
  apply andb_true_iff in Hname as [Hname Hline].
  apply andb_true_iff in Hname as [Hopen Hbrace].
  apply negb_true_iff in Hbrace, Hline. repeat split; assumption.
Qed.

(** One turn of the loop: the placeholders of [g] are filled in, all of
    them, and nothing else changes. *)
Lemma replace_scalar (environ : gmap string string) (g new : string)
    (pieces : list piece) :
  has_char "}" g = false ->
  forallb (well_formed_piece environ) pieces = true ->
  Str.replace ("${" +:+ g +:+ "}") new (scalar pieces)
  = scalar (map (fun p => match p with
                          | Text text => Text text
                          | Placeholder h => if String.eqb h g then Text new else p
                          end) pieces).
Proof.
  intros Hg. unfold Str.replace.
  induction pieces as [| [text | h] pieces IH]; cbn [forallb scalar map]; intros Hall.
  - reflexivity.
  - apply andb_true_iff in Hall as [Htext Hall]. cbn [render].
    change ("${" +:+ g +:+ "}") with (String "$" (String "{" (g +:+ "}"))) in *.
    rewrite replace_text by exact Htext. rewrite IH by exact Hall. reflexivity.
  - apply andb_true_iff in Hall as [Hname Hall].
    destruct (well_formed_name environ h Hname) as (Hopen & Hbrace & _ & _).
    rewrite replace_one_placeholder by assumption. rewrite IH by exact Hall.
    destruct (String.eqb h g); reflexivity.
Qed.

(** The loop over the groups fills in the placeholders of those groups. *)
Lemma replace_groups_scalar (environ : gmap string string) (groups : list string)
    (pieces : list piece) :
  Forall (fun g => has_char "}" g = false) groups ->
  forallb (well_formed_piece environ) pieces = true ->
  replace_groups environ groups (scalar pieces)
  = scalar (map (fill environ groups) pieces).
Proof.
  intros Hgroups. revert pieces.
  induction Hgroups as [| g groups Hg _ IH]; intros pieces Hall.
  - cbn [replace_groups]. f_equal. symmetry.
    rewrite <- (map_id pieces) at 2. apply map_ext. intros [text | h]; reflexivity.
  - cbn [replace_groups]. rewrite (replace_scalar environ) by assumption.
    rewrite IH.
    + f_equal. rewrite map_map. apply map_ext. intros [text | h]; [reflexivity |].
      cbn [fill existsb]. destruct (String.eqb_spec h g) as [-> | _]; reflexivity.
    + rewrite forallb_forall in Hall. apply forallb_forall. intros p Hin.
      apply in_map_iff in Hin as ([text | h] & <- & Hin); [apply (Hall _ Hin) |].
      pose proof (Hall _ Hin) as Hname.
      destruct (String.eqb_spec h g) as [-> | _]; [| exact Hname].
      apply (well_formed_name environ g Hname).
Qed.

Lemma placeholder_names_in (pieces : list piece) (NAME : string) :
  In (Placeholder NAME) pieces -> In NAME (placeholder_names pieces).
Proof.
  induction pieces as [| [text | h] pieces IH]; cbn [placeholder_names In].
  - intros [].
  - intros [Heq | Hin]; [discriminate Heq | apply IH, Hin].
  - intros [[= ->] | Hin]; [left; reflexivity | right; apply IH, Hin].
Qed.

Lemma scalar_filled (environ : gmap string string) (groups : list string)
    (pieces : list piece) :
  (forall NAME, In (Placeholder NAME) pieces -> In NAME groups) ->
  scalar (map (fill environ groups) pieces) = resolved environ pieces.
Proof.
  induction pieces as [| [text | h] pieces IH]; intros Hnames; cbn [map scalar resolved].
  - reflexivity.
  - cbn [fill render]. rewrite IH; [reflexivity |].
    intros NAME Hin. apply Hnames. right. exact Hin.
  - rewrite IH by (intros NAME Hin; apply Hnames; right; exact Hin).
    cbn [fill].
    assert (Hin : existsb (String.eqb h) groups = true).
    { apply existsb_exists. exists h. split; [| apply String.eqb_refl].
      apply Hnames. left. reflexivity. }
    rewrite Hin. cbn [render]. unfold environ_get.
    destruct (environ !! h); reflexivity.
Qed.

(** C4, as amended.  Take a scalar made of texts and placeholders [${NAME}],
    any number of them in any order, that reads one way only: no dollar
    sign of a text, of a name or of a value stands last or before an opening
    brace, and no name has a closing brace or a line break.  The scalar is
    loaded with every placeholder replaced: by the value of [NAME] when the
    environment has [NAME], by the bare name [NAME], the dollar sign and the
    braces gone, when it has not. *)
Theorem env_vars_constructor_placeholders
    (environ : gmap string string) (pieces : list piece) :
  forallb (well_formed_piece environ) pieces = true ->
  env_vars_constructor environ (scalar pieces) = resolved environ pieces.
Proof.
  intros Hall. unfold env_vars_constructor.
  rewrite (findall_scalar environ) by exact Hall.
  rewrite replace_groups_scalar; [| | exact Hall].
  - apply scalar_filled. apply placeholder_names_in.
  - rewrite forallb_forall in Hall. apply List.Forall_forall. intros g Hin.
    assert (Hpiece : In (Placeholder g) pieces).
    { clear Hall. induction pieces as [| [text | h] pieces IH];
        cbn [placeholder_names In] in *.
      - destruct Hin.
      - right. apply IH, Hin.
      - destruct Hin as [-> | Hin]; [left; reflexivity | right; apply IH, Hin]. }
    apply (well_formed_name environ g (Hall _ Hpiece)).
Qed.

Lemma env_vars_constructor_placeholders_witness :
  env_vars_constructor {[ "ENV_VAR_1" := "ENV_VALUE_1" ]}
    "data: ${ENV_VAR_1}/${ENV_VAR_2}/${ENV_VAR_1} for $5"
  = "data: ENV_VALUE_1/ENV_VAR_2/ENV_VALUE_1 for $5".
Proof.
  pose proof (env_vars_constructor_placeholders {[ "ENV_VAR_1" := "ENV_VALUE_1" ]}
                [ Text "data: "; Placeholder "ENV_VAR_1"; Text "/";
                  Placeholder "ENV_VAR_2"; Text "/"; Placeholder "ENV_VAR_1";
                  Text " for $5" ]) as Hloaded.
  vm_compute in Hloaded. vm_compute. apply Hloaded. reflexivity.
Defined.

(** With [ENV_VAR_3] not in the environment, the placeholder does not stay
    in the scalar: the bare name stands in its place.  And a value is not
    always what stands in the end: the groups are replaced one after the
    other in the whole scalar, so a value that reads as the placeholder of a
    later group is replaced in its turn. *)
Lemma env_vars_constructor_unset :
  let environ : gmap string string := {[ "ENV_VAR_1" := "ENV_VALUE_1" ]} in
  let nested : gmap string string := {[ "A" := "${B}"; "B" := "x" ]} in
  environ !! "ENV_VAR_3" = None
  /\ env_vars_constructor environ "data: ${ENV_VAR_3}" = "data: ENV_VAR_3"
  /\ env_vars_constructor environ "data: ${ENV_VAR_3}" <> "data: ${ENV_VAR_3}"
  /\ nested !! "A" = Some "${B}"
  /\ env_vars_constructor nested "${A} ${B}" = "x x".
Proof. vm_compute. repeat split. discriminate. Qed.


(** ** The usual shape of a step reference *)

Lemma contains_separator (sep a b : string) :
  Str.contains sep (a +:+ sep +:+ b) = true.
Proof.
  induction a as [| c a IH].
  - rewrite append_empty_l. destruct sep as [| d sep]; [destruct b; reflexivity |].
    rewrite append_cons. cbn [Str.contains].
    rewrite <- append_cons, prefix_append. reflexivity.
  - rewrite append_cons. cbn [Str.contains]. rewrite IH. apply orb_true_r.
Qed.

(** The first piece of a string split at a separator whose first character
    the piece has not. *)
Lemma split_aux_first_piece (c : ascii) (sep' n rest cur : string) :
  has_char c n = false ->
  exists pieces,
    Str.split_aux (String c sep') 0 cur (n +:+ String c sep' +:+ rest)
    = (cur +:+ n) :: pieces.
Proof.
  revert cur. induction n as [| a n IH]; intros cur Hn.
  - rewrite append_empty_l, append_empty_r, append_cons.
    cbn [Str.split_aux]. rewrite <- append_cons, prefix_append.
    eexists. reflexivity.
  - cbn [has_char] in Hn. apply orb_false_iff in Hn as [Ha Hn].
    rewrite append_cons. cbn [Str.split_aux].
    assert (Hp : String.prefix (String c sep') (String a (n +:+ String c sep' +:+ rest))
                 = false).
    { cbn [String.prefix]. destruct (ascii_dec c a) as [<- | _]; [| reflexivity].
      rewrite Ascii.eqb_refl in Ha. discriminate Ha. }
    rewrite Hp. destruct (IH (cur +:+ String a EmptyString) Hn) as [pieces ->].
    rewrite append_cons_assoc. eexists. reflexivity.
Qed.

Lemma replace_aux_no_occurrence (old new s : string) :
  Str.contains old s = false -> Str.replace_aux old new 0 s = s.
Proof.
  induction s as [| c s IH]; [reflexivity |]. cbn [Str.contains]. intros Hno.
  apply orb_false_iff in Hno as [Hp Hs].
  rewrite replace_aux_cons, Hp, IH by exact Hs. reflexivity.
Qed.

(** A string that starts with [old] and has it nowhere else. *)
Lemma replace_at_start (old new tail : string) :
  old <> EmptyString ->
  Str.contains old tail = false ->
  replace_occurrences old new (old +:+ tail) = new +:+ tail.
Proof.
  intros Hold Htail. unfold replace_occurrences, Str.replace.
  destruct old as [| c old]; [destruct (Hold eq_refl) |]. cbn [String.eqb].
  rewrite append_cons, replace_aux_cons.
  rewrite <- append_cons, prefix_append. f_equal.
  replace (String.length (String c old) - 1) with (String.length old)
    by (cbn [String.length]; lia).
  rewrite replace_skip. apply replace_aux_no_occurrence, Htail.
Qed.

Lemma drop_append (a b : string) : Str.drop (String.length a) (a +:+ b) = b.
Proof.
  induction a as [| c a IH]; [destruct b; reflexivity |].
  rewrite append_cons. cbn [String.length Str.drop]. exact IH.
Qed.

Lemma plain_char_not_quote (c : ascii) :
  plain_char c = true -> Ascii.eqb c (ascii_of_nat 34) = false.
Proof.
  intros Hc. destruct (Ascii.eqb_spec c (ascii_of_nat 34)) as [-> | _];
    [vm_compute in Hc; discriminate Hc | reflexivity].
Qed.

Lemma until_quote_plain (text rest : string) :
  all_chars plain_char text = true ->
  until_quote (text +:+ String (ascii_of_nat 34) rest) = Some (text, rest).
Proof.
  induction text as [| c text IH]; cbn [all_chars].
  - intros _. rewrite append_empty_l. cbn [until_quote].
    rewrite Ascii.eqb_refl. reflexivity.
  - intros Hall. apply andb_true_iff in Hall as [Hc Hall].
    rewrite append_cons. cbn [until_quote].
    rewrite (plain_char_not_quote c Hc), Hc, IH by exact Hall. reflexivity.
Qed.

Lemma all_chars_has_char (p : ascii -> bool) (c : ascii) (s : string) :
  p c = false -> all_chars p s = true -> has_char c s = false.
Proof.
  intros Hc. induction s as [| a s IH]; cbn [all_chars has_char]; [reflexivity |].
  intros Hall. apply andb_true_iff in Hall as [Ha Hs].
  rewrite (IH Hs), orb_false_r.
  destruct (Ascii.eqb_spec a c) as [-> | _]; [congruence | reflexivity].
Qed.

Lemma identifier_no_dot (s : string) :
  identifier s = true -> has_char "." s = false.
Proof.
  unfold identifier. intros Hid. apply andb_true_iff in Hid as [Hid _].
  destruct s as [| c s]; [discriminate Hid |].
  apply andb_true_iff in Hid as [Hc Hs]. cbn [has_char].
  rewrite (all_chars_has_char _ "." s (eq_refl : (fun a => is_letter a || is_digit a) "."%char = false) Hs).
  destruct (Ascii.eqb_spec c ".") as [-> | _]; [discriminate Hc | reflexivity].
Qed.

Lemma has_char_contains (c : ascii) (s : string) :
  has_char c s = false -> Str.contains (String c EmptyString) s = false.
Proof.
  induction s as [| a s IH]; [reflexivity |]. cbn [has_char Str.contains String.prefix].
  intros Hno. apply orb_false_iff in Hno as [Ha Hs]. rewrite (IH Hs), orb_false_r.
  destruct (ascii_dec c a) as [<- | _]; [| reflexivity].
  rewrite Ascii.eqb_refl in Ha. discriminate Ha.
Qed.

Lemma split_aux_dot (a rest cur : string) :
  has_char "." a = false ->
  Str.split_aux "." 0 cur (a +:+ String "." rest)
  = (cur +:+ a) :: Str.split_aux "." 0 "" rest.
Proof.
  revert cur. induction a as [| c a IH]; intros cur Ha.
  - rewrite append_empty_l, append_empty_r. cbn [Str.split_aux String.prefix].
    destruct (ascii_dec "." ".") as [_ | Hne]; [| destruct (Hne eq_refl)].
    rewrite prefix_empty. reflexivity.
  - cbn [has_char] in Ha. apply orb_false_iff in Ha as [Hc Ha].
    rewrite append_cons. cbn [Str.split_aux].
    assert (Hp : String.prefix "." (String c (a +:+ String "." rest)) = false).
    { cbn [String.prefix]. destruct (ascii_dec "." c) as [<- | _]; [| reflexivity].
      discriminate Hc. }
    rewrite Hp, IH by exact Ha. rewrite append_cons_assoc. reflexivity.
Qed.

Lemma split_join_dots (names : list string) :
  names <> [] ->
  Forall (fun name => identifier name = true) names ->
  Str.split_aux "." 0 "" (join_dots names) = names.
Proof.
  intros Hne Hall.
  induction Hall as [| name names Hname Hall IH]; [destruct (Hne eq_refl) |].
  destruct names as [| name' names].
  - cbn [join_dots].
    rewrite split_aux_no_separator
      by (apply has_char_contains, identifier_no_dot, Hname).
    reflexivity.
  - change (join_dots (name :: name' :: names))
      with (name +:+ String "." (join_dots (name' :: names))).
    rewrite split_aux_dot by (apply identifier_no_dot, Hname).
    rewrite IH by discriminate. reflexivity.
Qed.

(** A step name of characters that stand for themselves, without a dot, and
    a path of attribute names in which the step name does not occur again:
    the name, [.properties.] and the path make a plain reference to the
    step. *)
Lemma step_reference_shape (step_name : string) (path : list string) :
  let token := step_name +:+ ".properties." +:+ join_dots path in
  step_name <> EmptyString ->
  all_chars plain_char step_name = true ->
  has_char "." step_name = false ->
  path <> [] ->
  Forall (fun name => identifier name = true) path ->
  Str.contains step_name (".properties." +:+ join_dots path) = false ->
  Str.startswith token PARAMETER_PREFIX = false ->
  Str.startswith token EXECUTION_VARIABLE_PREFIX = false ->
  Str.startswith token PROPERTY_FILE_PREFIX = false ->
  step_reference token step_name
  /\ eval_source token = step_subscription step_name +:+ ".properties." +:+ join_dots path
  /\ parse_reference (eval_source token) = Some (step_name, "properties" :: path).
Proof.
  intros token Hname Hplain Hdot Hpath Hids Hagain Hp He Hf.
  assert (Hsource : eval_source token
                    = step_subscription step_name +:+ ".properties." +:+ join_dots path).
  { unfold eval_source, token, PROPERTIES_IDENTIFIER, Str.split.
    destruct (split_aux_first_piece "." "properties." step_name (join_dots path) ""
                Hdot) as [pieces Hsplit].
    change (".properties." +:+ join_dots path)
      with (String "." "properties." +:+ join_dots path) at 1.
    rewrite Hsplit, append_empty_l. cbn [nth].
    apply replace_at_start; assumption. }
  assert (Hparse : parse_reference (eval_source token)
                   = Some (step_name, "properties" :: path)).
  { rewrite Hsource. unfold parse_reference, step_subscription.
    replace (("self.steps[" +:+ double_quote +:+ step_name +:+ double_quote +:+ "]")
               +:+ ".properties." +:+ join_dots path)
      with (("self.steps[" +:+ double_quote)
              +:+ (step_name
                     +:+ String (ascii_of_nat 34)
                           (String "]" (".properties." +:+ join_dots path))))
      by (unfold double_quote; rewrite !append_assoc; reflexivity).
    rewrite prefix_append, drop_append, until_quote_plain by exact Hplain.
    unfold attribute_path, Str.split.
    assert (Hjoin : ".properties." +:+ join_dots path
                    = EmptyString +:+ String "." (join_dots ("properties" :: path))).
    { destruct path as [| name path']; [destruct (Hpath eq_refl) | reflexivity]. }
    rewrite Hjoin, split_aux_dot by reflexivity.
    rewrite split_join_dots; [| discriminate | constructor; [reflexivity | exact Hids]].
    rewrite append_empty_l. cbn [forallb].
    change (identifier "properties") with true. cbn [andb].
    assert (Hall : forallb identifier path = true).
    { apply forallb_forall. rewrite List.Forall_forall in Hids. exact Hids. }
    rewrite Hall. reflexivity. }
  split; [| split; [exact Hsource | exact Hparse]].
  unfold step_reference. repeat split; try assumption.
  - apply contains_separator.
  - exists ("properties" :: path). exact Hparse.
Qed.

Section StepReferences.

Context `{Sdk}.

(** X10.  A step reference of the usual shape, a step name of characters
    that stand for themselves and without a dot, [.properties.], and a path
    of attribute names in which the step name does not occur again, is
    resolved by looking the step up in the table, then reading [properties]
    and the path off it, one attribute after the other; when the table has
    no such step, the key error for the name is raised and the SDK is not
    asked. *)
Theorem replace_argument_step_reference
    (step_name : string) (path : list string) (self : PipelineBuilder) :
  let token := step_name +:+ ".properties." +:+ join_dots path in
  step_name <> EmptyString ->
  all_chars plain_char step_name = true ->
  has_char "." step_name = false ->
  path <> [] ->
  Forall (fun name => identifier name = true) path ->
  Str.contains step_name (".properties." +:+ join_dots path) = false ->
  Str.startswith token PARAMETER_PREFIX = false ->
  Str.startswith token EXECUTION_VARIABLE_PREFIX = false ->
  Str.startswith token PROPERTY_FILE_PREFIX = false ->
  _replace_argument (VStr token) self
  = match Dict.get (steps self) step_name with
    | Some step => getattrs step ("properties" :: path) self
    | None => (Err (KeyError step_name), self)
    end.
Proof.
  intros token Hname Hplain Hdot Hpath Hids Hagain Hp He Hf.
  destruct (step_reference_shape step_name path Hname Hplain Hdot Hpath Hids Hagain
              Hp He Hf) as ((_ & _ & _ & Hc & _) & _ & Hparse).
  fold token in Hc, Hparse.
  unfold _replace_argument. rewrite Hp, He, Hf, Hc.
  unfold py_eval. rewrite Hparse. unfold subscript. run_M.
  destruct (Dict.get (steps self) step_name); reflexivity.
Qed.

End StepReferences.

Lemma replace_argument_step_reference_witness :
  let step := VObj "ProcessingStep" [] in
  let self := set_steps [("step-0", step)] PipelineBuilder_init in
  _replace_argument (H := symbolic_sdk) (VStr "step-0.properties.step_name") self
  = getattrs (H := symbolic_sdk) step ["properties"; "step_name"] self.
Proof.
  intros step self.
  apply (replace_argument_step_reference (H := symbolic_sdk) "step-0" ["step_name"] self);
    try reflexivity; try discriminate.
  repeat constructor.
Defined.

Example step_reference_hyphenated :
  step_reference "step-0.properties.ProcessingOutputConfig.Outputs" "step-0".
Proof.
  apply (step_reference_shape "step-0" ["ProcessingOutputConfig"; "Outputs"]);
    try reflexivity; try discriminate.
  repeat constructor.
Qed.

(** * More of the resolver *)

Lemma property_files_log_events (evs : list event) (self : PipelineBuilder) :
  property_files (log_events evs self) = property_files self.
Proof.
  revert self. induction evs as [| ev evs IH]; intros self; [reflexivity |].
  cbn. rewrite IH. reflexivity.
Qed.

Lemma pipeline_log_events (evs : list event) (self : PipelineBuilder) :
  pipeline (log_events evs self) = pipeline self.
Proof.
  revert self. induction evs as [| ev evs IH]; intros self; [reflexivity |].
  cbn. rewrite IH. reflexivity.
Qed.

Lemma sdk_events_log_events (evs : list event) (self : PipelineBuilder) :
  sdk_events (log_events evs self) = sdk_events self ++ evs.
Proof.
  revert self. induction evs as [| ev evs IH]; intros self.
  - cbn. rewrite app_nil_r. reflexivity.
  - cbn. rewrite IH. cbn. rewrite <- app_assoc. reflexivity.
Qed.

(** The first piece of a string with a separator in it. *)
Lemma split_aux_first_separator (a rest cur : string) :
  Str.contains ":" a = false ->
  Str.split_aux ":" 0 cur (a +:+ ":" +:+ rest)
  = (cur +:+ a) :: Str.split_aux ":" 0 "" rest.
Proof.
  revert cur. induction a as [| c a IH]; intros cur Ha.
  - rewrite append_empty_l, append_cons, append_empty_l, append_empty_r.
    cbn [Str.split_aux String.prefix].
    destruct (ascii_dec ":" ":") as [_ | Hne]; [| destruct (Hne eq_refl)].
    rewrite prefix_empty. reflexivity.
  - cbn [Str.contains] in Ha. apply orb_false_iff in Ha as [Hc Ha].
    rewrite append_cons. cbn [Str.split_aux].
    assert (Hp : String.prefix ":" (String c (a +:+ ":" +:+ rest)) = false).
    { cbn [String.prefix] in *. destruct (ascii_dec ":" c); [| reflexivity].
      rewrite prefix_empty in Hc. discriminate Hc. }
    rewrite Hp, IH by assumption. rewrite append_cons_assoc. reflexivity.
Qed.

(** The pieces of a string with one separator in it. *)
Lemma split_aux_one_separator (a b cur : string) :
  Str.contains ":" a = false ->
  Str.contains ":" b = false ->
  Str.split_aux ":" 0 cur (a +:+ ":" +:+ b) = [cur +:+ a; b].
Proof.
  intros Ha Hb. rewrite split_aux_first_separator by exact Ha.
  rewrite split_aux_no_separator by exact Hb. reflexivity.
Qed.

Lemma rsplit_colon_none (s : string) :
  Str.contains ":" s = false -> rsplit_colon s = None.
Proof.
  induction s as [| c s IH]; [reflexivity |]. cbn [Str.contains]. intros Hno.
  apply orb_false_iff in Hno as [Hc Hs]. cbn [rsplit_colon]. rewrite IH by exact Hs.
  destruct (Ascii.eqb_spec c ":") as [-> | _]; [| reflexivity].
  cbn [String.prefix] in Hc. destruct (ascii_dec ":" ":") as [_ | Hne].
  - rewrite prefix_empty in Hc. discriminate Hc.
  - destruct (Hne eq_refl).
Qed.

Lemma rsplit_colon_last (a e : string) :
  Str.contains ":" e = false ->
  rsplit_colon (a +:+ ":" +:+ e) = Some (a, e).
Proof.
  intros He. induction a as [| c a IH].
  - rewrite append_empty_l, append_cons, append_empty_l. cbn [rsplit_colon].
    rewrite rsplit_colon_none by exact He. reflexivity.
  - rewrite append_cons. cbn [rsplit_colon]. rewrite IH. reflexivity.
Qed.

Section MoreResolver.

Context `{Sdk}.

(** X1.  For a name [x] without a colon, the property-file prefix followed
    by [x] resolves to the entry of the property-file table under [x], and
    raises the key error for [x] when the table has none; the builder is left
    as it was. *)
Theorem replace_argument_property_file_lookup (self : PipelineBuilder) (x : string) :
  Str.contains ":" x = false ->
  _replace_argument (VStr ("propertyFile:" +:+ x)) self
  = (match Dict.get (property_files self) x with
     | Some handle => Ok handle
     | None => Err (KeyError x)
     end, self).
Proof.
  intros Hno. unfold _replace_argument.
  assert (Hparam : Str.startswith ("propertyFile:" +:+ x) PARAMETER_PREFIX = false)
    by reflexivity.
  assert (Hexec : Str.startswith ("propertyFile:" +:+ x) EXECUTION_VARIABLE_PREFIX = false)
    by reflexivity.
  assert (Hfile : Str.startswith ("propertyFile:" +:+ x) PROPERTY_FILE_PREFIX = true).
  { unfold Str.startswith, PROPERTY_FILE_PREFIX. apply prefix_append. }
  rewrite Hparam, Hexec, Hfile.
  assert (Hname : nth 1 (Str.split ":" ("propertyFile:" +:+ x)) "" = x).
  { unfold Str.split.
    change ("propertyFile:" +:+ x) with ("propertyFile" +:+ ":" +:+ x).
    rewrite split_aux_one_separator; [reflexivity | reflexivity | exact Hno]. }
  rewrite Hname. unfold subscript. run_M.
  destruct (Dict.get (property_files self) x); reflexivity.
Qed.

(** X2.  On a plain configuration, whatever it returns, the resolver reads
    the builder and calls the SDK, nothing more: the step table, the
    parameter table, the property-file table and the pipeline are as before,
    and the record of SDK calls has only grown. *)
Theorem replace_step_arguments_reads_only
    (depth : nat) (arguments : dict) (self : PipelineBuilder) :
  plain (VDict arguments) = true ->
  let self' := snd (_replace_step_arguments depth arguments self) in
  steps self' = steps self
  /\ parameters self' = parameters self
  /\ property_files self' = property_files self
  /\ pipeline self' = pipeline self
  /\ exists evs, sdk_events self' = sdk_events self ++ evs.
Proof.
  intros Hplain. cbn zeta.
  destruct (logs_only_replace_step_arguments depth arguments Hplain self) as [evs ->].
  repeat split.
  - apply steps_log_events.
  - apply parameters_log_events.
  - apply property_files_log_events.
  - apply pipeline_log_events.
  - exists evs. apply sdk_events_log_events.
Qed.

Lemma replace_entries_keys
    (rec : dict -> M value) (todo done : dict) (self self' : PipelineBuilder)
    (v : value) :
  forallb (fun k => negb (is_factory_key k)) (Dict.keys todo) = true ->
  replace_entries rec done todo self = (Ok v, self') ->
  exists out, v = VDict out /\ Dict.keys out = Dict.keys done ++ Dict.keys todo.
Proof.
  revert done self. induction todo as [| [key x] todo IH]; intros done self Hkeys.
  - cbn. intros [= <- <-]. exists done. rewrite app_nil_r. split; reflexivity.
  - cbn [Dict.keys map fst forallb] in Hkeys.
    apply andb_true_iff in Hkeys as [Hkey Hkeys].
    apply negb_true_iff, orb_false_iff in Hkey as [Hff Hfe].
    cbn [replace_entries]. rewrite Hff, Hfe. run_M.
    destruct (match x with
              | VDict d => rec d
              | VList l => _
              | VStr _ => _replace_argument x
              | _ => _
              end self) as [[x' | e] self1]; [| discriminate].
    intros Hrest. destruct (IH _ _ Hkeys Hrest) as (out & -> & Hout).
    exists out. split; [reflexivity |]. rewrite Hout. unfold Dict.keys.
    rewrite map_app. cbn. rewrite <- app_assoc. reflexivity.
Qed.

(** X3.  Keys are never touched: when a mapping that has no factory key of
    its own resolves, the result is a mapping with the same keys in the same
    order. *)
Theorem replace_step_arguments_keeps_keys
    (depth : nat) (arguments : dict) (self self' : PipelineBuilder) (v : value) :
  forallb (fun k => negb (is_factory_key k)) (Dict.keys arguments) = true ->
  _replace_step_arguments depth arguments self = (Ok v, self') ->
  exists out, v = VDict out /\ Dict.keys out = Dict.keys arguments.
Proof.
  intros Hkeys. destruct depth as [| depth]; cbn [_replace_step_arguments].
  - discriminate.
  - intros Hres. apply (replace_entries_keys _ _ [] _ _ _ Hkeys Hres).
Qed.

Lemma replace_items_opaque
    (rec : dict -> M value) (l : list value) (self : PipelineBuilder) :
  forallb opaque_item l = true -> replace_items rec l self = (Ok l, self).
Proof.
  induction l as [| a l IH]; [reflexivity |]. cbn [forallb]. intros Hall.
  apply andb_true_iff in Hall as [Ha Hl]. cbn [replace_items]. run_M.
  fold (replace_items rec l).
  destruct a; try discriminate Ha; cbn [_replace_argument]; run_M;
    rewrite IH by exact Hl; reflexivity.
Qed.

(** X4.  Under a key of a mapping, a list is resolved one level deep: an
    item that is itself a list (or a number, a boolean, [None], an object)
    comes back as it is, references inside it included. *)
Theorem replace_step_arguments_nested_list
    (depth : nat) (key : string) (l : list value) (self : PipelineBuilder) :
  is_factory_key key = false ->
  forallb opaque_item l = true ->
  _replace_step_arguments (S depth) [(key, VList l)] self
  = (Ok (VDict [(key, VList l)]), self).
Proof.
  intros Hkey Hopaque. apply orb_false_iff in Hkey as [Hff Hfe].
  cbn [_replace_step_arguments replace_entries]. rewrite Hff, Hfe. run_M.
  rewrite replace_items_opaque by exact Hopaque. reflexivity.
Qed.

(** X5.  A mapping that starts with the factory-function key is unpacked
    into the two parameters [factory_function] and [kwargs]: with any other
    key beside them, or without [kwargs], resolving it is a [TypeError], and
    nothing has been asked of the SDK. *)
Theorem replace_step_arguments_factory_keywords
    (depth : nat) (f : value) (others : dict) (self : PipelineBuilder) :
  existsb unexpected_keyword (Dict.keys others) = true
  \/ Dict.get others "kwargs" = None ->
  exists msg,
    _replace_step_arguments (S depth) ((FACTORY_FUNCTION, f) :: others) self
    = (Err (TypeError msg), self).
Proof.
  intros Hbad. cbn [_replace_step_arguments replace_entries].
  change (String.eqb FACTORY_FUNCTION FACTORY_FUNCTION) with true. cbv iota.
  unfold _replace_factory_function. cbn [app Dict.keys map fst forallb].
  change (String.eqb FACTORY_FUNCTION "factory_function" || String.eqb FACTORY_FUNCTION "kwargs")
    with true. cbn [andb].
  destruct (forallb _ (map fst others)) eqn:Hall; cbn [negb].
  - destruct Hbad as [Hextra | Hmissing].
    + apply existsb_exists in Hextra as (k & Hin & Hk).
      rewrite forallb_forall in Hall. specialize (Hall k Hin).
      unfold unexpected_keyword in Hk. rewrite Hall in Hk. discriminate Hk.
    + cbn [Dict.get]. change (String.eqb "factory_function" FACTORY_FUNCTION) with true.
      change (String.eqb "kwargs" FACTORY_FUNCTION) with false. cbv iota.
      rewrite Hmissing. eexists. reflexivity.
  - eexists. reflexivity.
Qed.

(** X6.  A package name with exactly one colon is split at it and resolved
    by the SDK, the call recorded; with no colon, or with two, unpacking the
    two parts is a [ValueError] and the SDK is not asked. *)
Theorem resolve_package_name_colons
    (package nm extra : string) (self : PipelineBuilder) :
  Str.contains ":" package = false ->
  Str.contains ":" nm = false ->
  Str.contains ":" extra = false ->
  resolve_package_name (package +:+ ":" +:+ nm) self
  = (sdk_resolve package nm, log_event (EvResolve package nm) self)
  /\ (exists msg, resolve_package_name package self = (Err (ValueError msg), self))
  /\ (exists msg,
        resolve_package_name (package +:+ ":" +:+ nm +:+ ":" +:+ extra) self
        = (Err (ValueError msg), self)).
Proof.
  intros Hp Hn He. unfold resolve_package_name, Str.split. split; [| split].
  - rewrite split_aux_one_separator by assumption. reflexivity.
  - rewrite split_aux_no_separator by exact Hp. eexists. reflexivity.
  - rewrite split_aux_first_separator by exact Hp.
    rewrite split_aux_one_separator by assumption. eexists. reflexivity.
Qed.

End MoreResolver.

Section MoreResolverEnum.

Context `{Sdk}.

(** X7.  An enumeration name made of a package, a class and a member, none
    with a colon in it, is split at its last colon: the class is resolved as
    a package name, then the member is read off the class, both recorded;
    when the class does not resolve, the member is not asked for.  A name
    without colon raises a [ValueError] before any call. *)
Theorem resolve_enum_name_parts
    (package cls member : string) (self : PipelineBuilder) :
  Str.contains ":" package = false ->
  Str.contains ":" cls = false ->
  Str.contains ":" member = false ->
  resolve_enum_name (package +:+ ":" +:+ cls +:+ ":" +:+ member) self
  = match sdk_resolve package cls with
    | Ok class =>
        (sdk_getattr class member,
         log_event (EvGetattr class member) (log_event (EvResolve package cls) self))
    | Err e => (Err e, log_event (EvResolve package cls) self)
    end
  /\ exists msg, resolve_enum_name member self = (Err (ValueError msg), self).
Proof.
  intros Hp Hc Hm. unfold resolve_enum_name. split.
  - replace (package +:+ ":" +:+ cls +:+ ":" +:+ member)
      with ((package +:+ ":" +:+ cls) +:+ ":" +:+ member)
      by (rewrite !append_assoc; reflexivity).
    rewrite rsplit_colon_last by exact Hm.
    unfold mbind, M_bind, resolve_package_name, Str.split.
    rewrite split_aux_one_separator by assumption. rewrite append_empty_l.
    destruct (sdk_resolve package cls); reflexivity.
  - rewrite rsplit_colon_none by exact Hm. eexists. reflexivity.
Qed.

End MoreResolverEnum.

Lemma replace_argument_property_file_lookup_witness :
  _replace_argument (H := symbolic_sdk) (VStr ("propertyFile:" +:+ "ModelInfo"))
    (set_property_files [("ModelInfo", VObj "PropertyFile" [])] PipelineBuilder_init)
  = (Ok (VObj "PropertyFile" []),
     set_property_files [("ModelInfo", VObj "PropertyFile" [])] PipelineBuilder_init).
Proof.
  exact (replace_argument_property_file_lookup (H := symbolic_sdk)
           (set_property_files [("ModelInfo", VObj "PropertyFile" [])]
              PipelineBuilder_init) "ModelInfo" eq_refl).
Defined.

Lemma replace_step_arguments_reads_only_witness :
  let arguments :=
    [ ("source", VStr "step-0.properties.step_name");
      ("input",
       VDict [ ("factory_function", VStr "sagemaker.workflow.functions:Join");
               ("kwargs", VDict [("values", VList [VStr "param:bucket"])]) ]) ] in
  let self :=
    set_steps [("step-0", VObj "ProcessingStep" [])]
      (set_parameters [("bucket", VStr "some-bucket")] PipelineBuilder_init) in
  let self' := snd (_replace_step_arguments (H := symbolic_sdk) 5 arguments self) in
  steps self' = steps self
  /\ parameters self' = parameters self
  /\ property_files self' = property_files self
  /\ pipeline self' = pipeline self
  /\ exists evs, sdk_events self' = sdk_events self ++ evs.
Proof.
  intros arguments self.
  apply (replace_step_arguments_reads_only (H := symbolic_sdk) 5 arguments self).
  reflexivity.
Defined.

Lemma replace_step_arguments_keeps_keys_witness :
  let arguments := [ ("b", VStr "param:x"); ("a", VList [VStr "exec:START_DATETIME"]) ] in
  let self := set_parameters [("x", VInt 1)] PipelineBuilder_init in
  exists out,
    fst (_replace_step_arguments (H := symbolic_sdk) 5 arguments self) = Ok (VDict out)
    /\ Dict.keys out = ["b"; "a"].
Proof.
  intros arguments self.
  destruct (replace_step_arguments_keeps_keys (H := symbolic_sdk) 5 arguments self
              (snd (_replace_step_arguments (H := symbolic_sdk) 5 arguments self))
              (VDict [ ("b", VInt 1);
                       ("a", VList [VObj "attribute"
                                      [ ("of", VObj "callable"
                                                 [ ("package", VStr "sagemaker.workflow.execution_variables");
                                                   ("name", VStr "ExecutionVariables") ]);
                                        ("name", VStr "START_DATETIME") ]]) ]))
    as (out & Hout & Hkeys).
  - reflexivity.
  - reflexivity.
  - exists out. split; [rewrite <- Hout; reflexivity | exact Hkeys].
Defined.

Lemma replace_step_arguments_nested_list_witness :
  _replace_step_arguments (H := symbolic_sdk) 1
    [("arguments", VList [VList [VStr "param:missing"]; VInt 3])] PipelineBuilder_init
  = (Ok (VDict [("arguments", VList [VList [VStr "param:missing"]; VInt 3])]),
     PipelineBuilder_init).
Proof.
  exact (replace_step_arguments_nested_list (H := symbolic_sdk) 0 "arguments"
           [VList [VStr "param:missing"]; VInt 3] PipelineBuilder_init
           eq_refl eq_refl).
Defined.

Lemma replace_step_arguments_factory_keywords_witness :
  exists msg,
    _replace_step_arguments (H := symbolic_sdk) 3
      [ ("factory_function", VStr "sagemaker.workflow.functions:Join");
        ("kwargs", VDict []); ("on", VStr "/") ] PipelineBuilder_init
    = (Err (TypeError msg), PipelineBuilder_init).
Proof.
  apply (replace_step_arguments_factory_keywords (H := symbolic_sdk) 2
           (VStr "sagemaker.workflow.functions:Join")
           [("kwargs", VDict []); ("on", VStr "/")] PipelineBuilder_init).
  left. reflexivity.
Defined.

Lemma resolve_package_name_colons_witness :
  resolve_package_name (H := symbolic_sdk) ("math" +:+ ":" +:+ "sqrt") PipelineBuilder_init
  = (Ok (VObj "callable" [("package", VStr "math"); ("name", VStr "sqrt")]),
     log_event (EvResolve "math" "sqrt") PipelineBuilder_init).
Proof.
  exact (proj1 (resolve_package_name_colons (H := symbolic_sdk) "math" "sqrt" "x"
                  PipelineBuilder_init eq_refl eq_refl eq_refl)).
Defined.

Lemma resolve_enum_name_parts_witness :
  fst (resolve_enum_name (H := symbolic_sdk)
         ("sagemaker.workflow.retry" +:+ ":" +:+ "StepExceptionTypeEnum" +:+ ":" +:+ "THROTTLING")
         PipelineBuilder_init)
  = Ok (VObj "attribute"
          [ ("of", VObj "callable" [ ("package", VStr "sagemaker.workflow.retry");
                                     ("name", VStr "StepExceptionTypeEnum") ]);
            ("name", VStr "THROTTLING") ]).
Proof.
  rewrite (proj1 (resolve_enum_name_parts (H := symbolic_sdk)
                    "sagemaker.workflow.retry" "StepExceptionTypeEnum" "THROTTLING"
                    PipelineBuilder_init eq_refl eq_refl eq_refl)).
  reflexivity.
Defined.

(** * More of the builder *)

Lemma builder_settings_log_events (evs : list event) (self : PipelineBuilder) :
  role_arn (log_events evs self) = role_arn self
  /\ sagemaker_session (log_events evs self) = sagemaker_session self
  /\ security_group_ids (log_events evs self) = security_group_ids self
  /\ subnets (log_events evs self) = subnets self
  /\ tags (log_events evs self) = tags self.
Proof.
  revert self. induction evs as [| ev evs IH]; intros self.
  - repeat split.
  - change (log_events (ev :: evs) self) with (log_events evs (log_event ev self)).
    destruct (IH (log_event ev self)) as (-> & -> & -> & -> & ->).
    repeat split.
Qed.

Section MoreBuilder.

Context `{Sdk}.
Variable recursion_limit : nat.

(** X8.  Taking the steps of a branch is not all or nothing: when the names
    [ns] are in the table and the next name is not there any more, because it
    never was or because it stands among [ns], the key error for that name
    is raised with the steps named by [ns] already popped. *)
Theorem replace_with_step_collection_missing
    (ns : list string) (n : string) (later : list string) (self : PipelineBuilder) :
  NoDup ns ->
  Forall (fun k => is_Some (Dict.get (steps self) k)) ns ->
  Dict.get (remove_all ns (steps self)) n = None ->
  _replace_with_step_collection (VList (map VStr (ns ++ n :: later))) self
  = (Err (KeyError n), set_steps (remove_all ns (steps self)) self).
Proof.
  unfold _replace_with_step_collection. run_M. cbn [py_iter].
  revert self. induction ns as [| k ns IH]; intros self Hnodup Hpresent Hgone.
  - cbn [app map pop_steps pop_step remove_all fold_left] in *.
    unfold Dict.pop. run_M. rewrite Hgone. rewrite set_steps_same. reflexivity.
  - apply NoDup_cons in Hnodup as [Hfresh Hnodup].
    apply Forall_cons in Hpresent as [[v Hv] Hpresent].
    set (self1 := set_steps (Dict.remove (steps self) k) self).
    cbn [app map pop_steps pop_step]. unfold Dict.pop. run_M. rewrite Hv. cbn.
    fold self1.
    specialize (IH self1 Hnodup).
    unfold mbind, M_bind in IH. rewrite IH; [reflexivity | | exact Hgone].
    apply Forall_forall. intros k' Hin. cbn.
    rewrite dict_get_remove_ne by (intros ->; exact (Hfresh Hin)).
    rewrite Forall_forall in Hpresent. apply Hpresent, Hin.
Qed.

Lemma replace_branch_other_keys
    (branch_key key : string) (kwargs kw : dict) (self self' : PipelineBuilder) :
  replace_branch branch_key kwargs self = (Ok kw, self') ->
  key <> branch_key ->
  Dict.get kw key = Dict.get kwargs key.
Proof.
  unfold replace_branch. destruct (Dict.get kwargs branch_key) as [collection |].
  - run_M. destruct (_replace_with_step_collection collection self) as [[members | e] s];
      [| discriminate].
    intros [= <- <-] Hne. apply dict_get_set_ne. congruence.
  - intros [= <- <-] _. reflexivity.
Qed.

(** Popping steps changes the step table and nothing else. *)
Lemma pop_steps_table_only (names : list value) (self : PipelineBuilder) :
  exists d, snd (pop_steps names self) = set_steps d self.
Proof.
  revert self. induction names as [| step_name names IH]; intros self.
  - exists (steps self). cbn. symmetry. apply set_steps_same.
  - cbn [pop_steps]. unfold mbind, M_bind.
    assert (Hone : exists d, snd (pop_step step_name self) = set_steps d self).
    { destruct step_name; cbn [pop_step]; run_M;
        try (exists (steps self); cbn; symmetry; apply set_steps_same).
      destruct (Dict.pop (steps self) s) as [[v d] | e].
      - exists d. reflexivity.
      - exists (steps self). cbn. symmetry. apply set_steps_same. }
    destruct Hone as [d Hd].
    destruct (pop_step step_name self) as [[step | e] self1]; cbn in Hd; subst self1.
    + destruct (IH (set_steps d self)) as [d' Hd'].
      destruct (pop_steps names (set_steps d self)) as [[rest | e] self2];
        cbn in Hd'; subst self2; exists d'; reflexivity.
    + exists d. reflexivity.
Qed.

Lemma replace_branch_table_only
    (branch_key : string) (kwargs : dict) (self : PipelineBuilder) :
  exists d, snd (replace_branch branch_key kwargs self) = set_steps d self.
Proof.
  unfold replace_branch. destruct (Dict.get kwargs branch_key) as [collection |].
  - unfold _replace_with_step_collection. run_M.
    destruct (py_iter collection) as [names | e].
    + destruct (pop_steps_table_only names self) as [d Hd].
      destruct (pop_steps names self) as [[members | e] self1]; cbn in Hd; subst self1;
        exists d; reflexivity.
    + exists (steps self). cbn. symmetry. apply set_steps_same.
  - exists (steps self). cbn. symmetry. apply set_steps_same.
Qed.

(** X9.  The keywords [add_step] hands to the step model always carry the
    builder's role, session, security groups and subnets, whatever the
    configuration says under those keys, and as name the configuration's own
    [name] when it resolves to one, the key of the step otherwise.  The four
    settings are read once the keywords are resolved: they are those of the
    builder as [add_step] found it when the configuration is plain. *)
Theorem step_kwargs_builder_keywords
    (name : string) (kwargs kw : dict) (self self' : PipelineBuilder) :
  step_kwargs recursion_limit name kwargs self = (Ok kw, self') ->
  (plain (VDict kwargs) = true ->
   Dict.get kw "role" = Some (role_arn self)
   /\ Dict.get kw "sagemaker_session" = Some (sagemaker_session self)
   /\ Dict.get kw "security_group_ids" = Some (VList (security_group_ids self))
   /\ Dict.get kw "subnets" = Some (VList (subnets self)))
  /\ Dict.get kw "role" = Some (role_arn self')
  /\ Dict.get kw "sagemaker_session" = Some (sagemaker_session self')
  /\ Dict.get kw "security_group_ids" = Some (VList (security_group_ids self'))
  /\ Dict.get kw "subnets" = Some (VList (subnets self'))
  /\ exists resolved,
       fst (_replace_step_arguments recursion_limit kwargs self) = Ok (VDict resolved)
       /\ Dict.get kw "name" = Some (default (VStr name) (Dict.get resolved "name")).
Proof.
  unfold step_kwargs. unfold mbind at 1. unfold M_bind.
  pose proof (logs_only_replace_step_arguments recursion_limit kwargs) as Hframe.
  destruct (_replace_step_arguments recursion_limit kwargs self)
    as [[resolved | e] self1] eqn:Hres; [| discriminate].
  destruct resolved as [| | | | | resolved |]; try discriminate.
  run_M.
  set (updated := Dict.update resolved _).
  destruct (replace_branch_table_only "if_steps" updated self1) as [d_if Hd_if].
  destruct (replace_branch "if_steps" updated self1)
    as [[kw_if | e] self_if] eqn:Hif; [| discriminate].
  cbn in Hd_if. subst self_if.
  destruct (replace_branch_table_only "else_steps" kw_if (set_steps d_if self1))
    as [d_else Hd_else].
  intros Helse. rewrite Helse in Hd_else. cbn in Hd_else. subst self'.
  assert (Hkeep : forall key, key <> "if_steps" -> key <> "else_steps" ->
                    Dict.get kw key = Dict.get updated key).
  { intros key Hne_if Hne_else.
    rewrite (replace_branch_other_keys _ key _ _ _ _ Helse Hne_else).
    apply (replace_branch_other_keys _ key _ _ _ _ Hif Hne_if). }
  unfold updated, Dict.update in Hkeep. cbn [fold_left fst snd] in Hkeep.
  assert (Hrole : Dict.get kw "role" = Some (role_arn self1)).
  { rewrite Hkeep by discriminate.
    rewrite !dict_get_set_ne by discriminate. apply dict_get_set_eq. }
  assert (Hsession : Dict.get kw "sagemaker_session" = Some (sagemaker_session self1)).
  { rewrite Hkeep by discriminate.
    rewrite !dict_get_set_ne by discriminate. apply dict_get_set_eq. }
  assert (Hgroups : Dict.get kw "security_group_ids"
                    = Some (VList (security_group_ids self1))).
  { rewrite Hkeep by discriminate.
    rewrite !dict_get_set_ne by discriminate. apply dict_get_set_eq. }
  assert (Hsubnets : Dict.get kw "subnets" = Some (VList (subnets self1))).
  { rewrite Hkeep by discriminate. apply dict_get_set_eq. }
  split; [| repeat split; try assumption].
  - intros Hplain. destruct (Hframe Hplain self) as [evs Hevs].
    rewrite Hres in Hevs. cbn in Hevs.
    destruct (builder_settings_log_events evs self) as (Hr & Hs & Hg & Hn & _).
    rewrite Hevs in Hrole, Hsession, Hgroups, Hsubnets.
    rewrite Hr in Hrole. rewrite Hs in Hsession. rewrite Hg in Hgroups.
    rewrite Hn in Hsubnets. repeat split; assumption.
  - exists resolved. split; [reflexivity |].
    rewrite Hkeep by discriminate.
    rewrite !dict_get_set_ne by discriminate. apply dict_get_set_eq.
Qed.

Lemma add_parameter_stored
    (parameter : string) (v : dict) (self self' : PipelineBuilder) :
  add_parameter parameter v self = (Ok tt, self') ->
  exists handle evs,
    parameters self' = Dict.set (parameters self) parameter handle
    /\ self' = set_parameters (parameters self') (log_events evs self).
Proof.
  unfold add_parameter. run_M.
  destruct (subscript v "type") as [ty | e]; [| discriminate].
  assert (Hresolve : logs_only (match ty with
                                | VStr s => resolve_package_name s
                                | _ => fun self0 => (Err (AttributeError "split"), self0)
                                end)).
  { destruct ty; try (intros s0; exists []; reflexivity).
    apply logs_only_resolve_package_name. }
  destruct (Hresolve self) as [evs Hevs].
  destruct (match ty with
            | VStr s => resolve_package_name s
            | _ => _
            end self) as [[cls | e] self1]; [| discriminate].
  cbn in Hevs. subst self1. unfold call.
  destruct (sdk_call cls _) as [handle | e] eqn:Hcall; [| discriminate].
  intros [= <-]. eexists handle, (evs ++ [_]). cbn [parameters set_parameters].
  rewrite parameters_log_events. split; [reflexivity |].
  rewrite <- log_events_app. reflexivity.
Qed.

(** X11.  Once [add_parameters] has returned, every parameter of the
    configuration whose name has no colon resolves, as the parameter prefix
    followed by its name, to a handle of the parameter table. *)
Theorem add_parameters_resolvable
    (ps : list (string * dict)) (self self' : PipelineBuilder) (parameter : string) :
  add_parameters ps self = (Ok tt, self') ->
  In parameter (map fst ps) \/ is_Some (Dict.get (parameters self) parameter) ->
  Str.contains ":" parameter = false ->
  exists handle,
    Dict.get (parameters self') parameter = Some handle
    /\ _replace_argument (VStr ("param:" +:+ parameter)) self' = (Ok handle, self').
Proof.
  intros Hadd Hin Hcolon.
  assert (Hget : is_Some (Dict.get (parameters self') parameter)).
  { revert self Hadd Hin. induction ps as [| [p v] ps IH]; intros self Hadd Hin.
    - cbn in Hadd. injection Hadd as <-. destruct Hin as [[] | Hin]. exact Hin.
    - cbn [add_parameters] in Hadd. unfold mbind, M_bind in Hadd.
      destruct (add_parameter p v self) as [[[] | e] self1] eqn:Hone; [| discriminate].
      destruct (add_parameter_stored p v self self1 Hone) as (handle & evs & Hset & _).
      apply (IH self1 Hadd).
      destruct (String.eqb_spec p parameter) as [-> | Hne].
      + right. rewrite Hset, dict_get_set_eq. eexists. reflexivity.
      + destruct Hin as [[Heq | Hin] | Hin].
        * destruct (Hne Heq).
        * left. exact Hin.
        * right. rewrite Hset, dict_get_set_ne by exact Hne. exact Hin. }
  destruct Hget as [handle Hget]. exists handle. split; [exact Hget |].
  unfold _replace_argument.
  rewrite parameter_prefix_startswith, parameter_name_segment by exact Hcolon.
  unfold subscript. run_M. rewrite Hget. reflexivity.
Qed.

End MoreBuilder.

Lemma dict_get_in_keys (d : dict) (k : string) :
  Dict.get d k <> None <-> In k (Dict.keys d).
Proof.
  induction d as [| [k' v] d IH]; cbn.
  - split; [intros Hne; destruct (Hne eq_refl) | intros []].
  - destruct (String.eqb_spec k k') as [-> | Hne].
    + split; [intros _; left; reflexivity | intros _; discriminate].
    + rewrite IH. split; [intros Hin; right; exact Hin |].
      intros [Heq | Hin]; [congruence | exact Hin].
Qed.

Section MorePropertyFiles.

Context `{Sdk}.

(** X12.  A property file is made with its name and the keywords of its
    configuration: a configuration that has a [name] of its own gives the
    name twice, which is a [TypeError] raised before the SDK is called and
    before anything is stored; otherwise, when the call returns, the table
    holds the new property file under its name and keeps its other
    entries. *)
Theorem add_property_file_name
    (property_file : string) (kwargs : dict) (self : PipelineBuilder) :
  (Dict.get kwargs "name" <> None ->
     exists msg,
       add_property_file property_file kwargs self = (Err (TypeError msg), self))
  /\ (Dict.get kwargs "name" = None ->
      forall self', add_property_file property_file kwargs self = (Ok tt, self') ->
        exists attributes,
          sdk_new "PropertyFile" (("name", VStr property_file) :: kwargs) = Ok attributes
          /\ Dict.get (property_files self') property_file
             = Some (VObj "PropertyFile" attributes)
          /\ forall other, other <> property_file ->
               Dict.get (property_files self') other
               = Dict.get (property_files self) other).
Proof.
  unfold add_property_file, keywords. split.
  - intros Hname. apply dict_get_in_keys in Hname.
    assert (Htwice : existsb (fun k => Dict.mem [("name", VStr property_file)] k)
                       (Dict.keys kwargs) = true).
    { apply existsb_exists. exists "name". split; [exact Hname | reflexivity]. }
    rewrite Htwice. eexists. reflexivity.
  - intros Hname self'.
    assert (Honce : existsb (fun k => Dict.mem [("name", VStr property_file)] k)
                      (Dict.keys kwargs) = false).
    { destruct (existsb _ _) eqn:Hex; [| reflexivity].
      apply existsb_exists in Hex as (k & Hin & Hk).
      unfold Dict.mem in Hk. cbn [Dict.get] in Hk.
      destruct (String.eqb_spec k "name") as [-> | _]; [| discriminate Hk].
      apply dict_get_in_keys in Hin. destruct (Hin Hname). }
    rewrite Honce. unfold new. run_M. cbn [app].
    destruct (sdk_new "PropertyFile" _) as [attributes |]; [| discriminate].
    intros [= <-]. exists attributes. cbn.
    split; [reflexivity |]. split; [apply dict_get_set_eq |].
    intros other Hne. apply dict_get_set_ne. congruence.
Qed.

End MorePropertyFiles.

Lemma replace_with_step_collection_missing_witness :
  let a := VObj "FailStep" [("name", VStr "a")] in
  let self := set_steps [("a", a); ("b", a)] PipelineBuilder_init in
  _replace_with_step_collection (VList [VStr "a"; VStr "a"; VStr "b"]) self
  = (Err (KeyError "a"), set_steps [("b", a)] self).
Proof.
  intros a self.
  apply (replace_with_step_collection_missing ["a"] "a" ["b"] self).
  - apply NoDup_singleton.
  - repeat constructor. eexists. reflexivity.
  - reflexivity.
Defined.

Lemma step_kwargs_builder_keywords_witness :
  let kw := fst (step_kwargs (H := symbolic_sdk) 5 "train"
                   [("role", VStr "mine"); ("error_message", VStr "stop")]
                   PipelineBuilder_init) in
  exists kwargs, kw = Ok kwargs /\ Dict.get kwargs "role" = Some VNone.
Proof.
  eexists. split; [reflexivity |].
  refine (proj1 (proj1 (step_kwargs_builder_keywords (H := symbolic_sdk) 5 "train"
                          [("role", VStr "mine"); ("error_message", VStr "stop")] _
                          PipelineBuilder_init _ _) _)).
  - reflexivity.
  - reflexivity.
Defined.

Lemma add_parameters_resolvable_witness :
  let ps := [ ("bucket", [("type", VStr "sagemaker.workflow.parameters:ParameterString")]);
              ("count", [("type", VStr "sagemaker.workflow.parameters:ParameterInteger");
                         ("default_value", VInt 2)]) ] in
  let self' := snd (add_parameters (H := symbolic_sdk) ps PipelineBuilder_init) in
  exists handle,
    _replace_argument (H := symbolic_sdk) (VStr ("param:" +:+ "bucket")) self'
    = (Ok handle, self').
Proof.
  intros ps self'.
  destruct (add_parameters_resolvable (H := symbolic_sdk) ps PipelineBuilder_init
              self' "bucket") as (handle & _ & Hresolve).
  - reflexivity.
  - left. left. reflexivity.
  - reflexivity.
  - exists handle. exact Hresolve.
Defined.

Lemma add_property_file_name_witness :
  exists msg,
    add_property_file (H := symbolic_sdk) "ModelInfo"
      [("name", VStr "Other"); ("path", VStr "model.json")] PipelineBuilder_init
    = (Err (TypeError msg), PipelineBuilder_init).
Proof.
  apply (add_property_file_name (H := symbolic_sdk) "ModelInfo"
           [("name", VStr "Other"); ("path", VStr "model.json")] PipelineBuilder_init).
  discriminate.
Defined.

(** * More of the step models *)

(** Checks that a field of a literal list of fields has [None] as default. *)
Ltac default_is_none :=
  let f := fresh "f" in
  let Hin := fresh "Hin" in
  let Hname := fresh "Hname" in
  intros f Hin Hname; cbn in Hin;
  repeat (destruct Hin as [<- | Hin]; [first [discriminate Hname | reflexivity] |]);
  destruct Hin.

Lemma select_variant_validate (v : dict) (mv : step_variant) :
  select_variant v = Ok mv ->
  StepModel_model_validate [("step", VDict v)] = validate_variant mv v.
Proof.
  intros Hvariant. unfold StepModel_model_validate. cbn [Dict.get].
  rewrite String.eqb_refl, Hvariant. reflexivity.
Qed.

(** X13.  For a configuration the discriminator takes for an EMR step:
    with [cluster_id] and [cluster_config] both given or both missing,
    validation raises the validation error; with exactly one given and the
    fields of the declared shapes, validation returns the model. *)
Theorem emr_step_mutually_exclusive (v : dict) :
  select_variant v = Ok EMRStepModel ->
  (given v "cluster_id" = given v "cluster_config" ->
     exists msg,
       StepModel_model_validate [("step", VDict v)] = Err (ValidationError msg))
  /\ (given v "cluster_id" <> given v "cluster_config" ->
      forall fs,
        validate_fields (model_fields EMRStepModel) v = Ok fs ->
        exists m,
          StepModel_model_validate [("step", VDict v)] = Ok m
          /\ variant m = EMRStepModel /\ fields m = fs).
Proof.
  intros Hvariant. rewrite (select_variant_validate v _ Hvariant).
  unfold validate_variant. run_M.
  assert (Hblocks : forall fs m,
            validate_fields (model_fields EMRStepModel) v = Ok fs ->
            fields m = fs ->
            is_not_none m "cluster_id" = given v "cluster_id"
            /\ is_not_none m "cluster_config" = given v "cluster_config").
  { intros fs m Hfs <-. unfold is_not_none.
    split; apply (validated_optional_field _ _ _ _ Hfs); try reflexivity;
      default_is_none. }
  split.
  - intros Hsame.
    destruct (validate_fields (model_fields EMRStepModel) v) as [fs | e] eqn:Hfs.
    + unfold after_validators, EMRStepModel_mutually_exclusive. cbn [variant].
      destruct (Hblocks fs {| variant := EMRStepModel; fields := fs;
                              model_extra :=
                                List.filter
                                  (fun kv => negb (declares (model_fields EMRStepModel)
                                                     (fst kv))) v |} eq_refl eq_refl)
        as [-> ->].
      rewrite Hsame, xorb_nilpotent. eexists. reflexivity.
    + destruct (validate_fields_error _ _ _ Hfs) as [msg ->]. exists msg. reflexivity.
  - intros Hone fs Hfs. rewrite Hfs.
    unfold after_validators, EMRStepModel_mutually_exclusive. cbn [variant].
    destruct (Hblocks fs {| variant := EMRStepModel; fields := fs;
                            model_extra :=
                              List.filter
                                (fun kv => negb (declares (model_fields EMRStepModel)
                                                   (fst kv))) v |} Hfs eq_refl)
      as [-> ->].
    destruct (given v "cluster_id"), (given v "cluster_config");
      first [destruct (Hone eq_refl) | eexists; repeat split].
Qed.

(** X14.  For a configuration the discriminator takes for a check step:
    with [clarify_check_config] and [quality_check_config] both given or
    both missing, validation raises the validation error; with exactly one
    given and the fields of the declared shapes, validation returns the
    model. *)
Theorem check_step_mutually_exclusive (v : dict) :
  select_variant v = Ok CheckStepStepModel ->
  (given v "clarify_check_config" = given v "quality_check_config" ->
     exists msg,
       StepModel_model_validate [("step", VDict v)] = Err (ValidationError msg))
  /\ (given v "clarify_check_config" <> given v "quality_check_config" ->
      forall fs,
        validate_fields (model_fields CheckStepStepModel) v = Ok fs ->
        exists m,
          StepModel_model_validate [("step", VDict v)] = Ok m
          /\ variant m = CheckStepStepModel /\ fields m = fs).
Proof.
  intros Hvariant. rewrite (select_variant_validate v _ Hvariant).
  unfold validate_variant. run_M.
  assert (Hblocks : forall fs m,
            validate_fields (model_fields CheckStepStepModel) v = Ok fs ->
            fields m = fs ->
            is_not_none m "clarify_check_config" = given v "clarify_check_config"
            /\ is_not_none m "quality_check_config" = given v "quality_check_config").
  { intros fs m Hfs <-. unfold is_not_none.
    split; apply (validated_optional_field _ _ _ _ Hfs); try reflexivity;
      default_is_none. }
  split.
  - intros Hsame.
    destruct (validate_fields (model_fields CheckStepStepModel) v) as [fs | e] eqn:Hfs.
    + unfold after_validators, CheckStepStepModel_mutually_exclusive. cbn [variant].
      destruct (Hblocks fs {| variant := CheckStepStepModel; fields := fs;
                              model_extra :=
                                List.filter
                                  (fun kv => negb (declares (model_fields CheckStepStepModel)
                                                     (fst kv))) v |} eq_refl eq_refl)
        as [-> ->].
      rewrite Hsame, xorb_nilpotent. eexists. reflexivity.
    + destruct (validate_fields_error _ _ _ Hfs) as [msg ->]. exists msg. reflexivity.
  - intros Hone fs Hfs. rewrite Hfs.
    unfold after_validators, CheckStepStepModel_mutually_exclusive. cbn [variant].
    destruct (Hblocks fs {| variant := CheckStepStepModel; fields := fs;
                            model_extra :=
                              List.filter
                                (fun kv => negb (declares (model_fields CheckStepStepModel)
                                                   (fst kv))) v |} Hfs eq_refl)
      as [-> ->].
    destruct (given v "clarify_check_config"), (given v "quality_check_config");
      first [destruct (Hone eq_refl) | eexists; repeat split].
Qed.

Lemma validate_fields_missing (fs : list field) (v : dict) (f : field) :
  In f fs -> fdefault f = None -> Dict.get v (fname f) = None ->
  exists msg, validate_fields fs v = Err (ValidationError msg).
Proof.
  induction fs as [| g fs IH]; intros Hin Hrequired Hmissing; [destruct Hin |].
  destruct (validate_fields (g :: fs) v) as [out | e] eqn:Hvalid.
  2: { destruct (validate_fields_error _ _ _ Hvalid) as [msg ->]. exists msg. reflexivity. }
  exfalso. cbn [validate_fields] in Hvalid. run_M.
  destruct Hin as [-> | Hin].
  - rewrite Hmissing, Hrequired in Hvalid. discriminate Hvalid.
  - destruct (IH Hin Hrequired Hmissing) as [msg Hrest]. rewrite Hrest in Hvalid.
    destruct (match Dict.get v (fname g) with
              | Some a => _
              | None => _
              end); discriminate Hvalid.
Qed.

(** X15.  Whatever the variant selected, a configuration that lacks one of
    the fields the variant declares without default does not validate: the
    validation error is raised. *)
Theorem required_field_missing (v : dict) (mv : step_variant) (f : field) :
  select_variant v = Ok mv ->
  In f (model_fields mv) ->
  fdefault f = None ->
  Dict.get v (fname f) = None ->
  exists msg, StepModel_model_validate [("step", VDict v)] = Err (ValidationError msg).
Proof.
  intros Hvariant Hin Hrequired Hmissing.
  rewrite (select_variant_validate v _ Hvariant). unfold validate_variant. run_M.
  destruct (validate_fields_missing _ v f Hin Hrequired Hmissing) as [msg ->].
  exists msg. reflexivity.
Qed.

Lemma keys_elem_of (v : dict) (k : string) :
  k ∈ (list_to_set (Dict.keys v) : gset string) <-> Dict.get v k <> None.
Proof.
  rewrite elem_of_list_to_set, list_elem_of_In. symmetry. apply dict_get_in_keys.
Qed.

(** X16.  A configuration with [tuner_kwargs] and without
    [estimator_kwargs] never validates: alone among the discriminator keys,
    [tuner_kwargs] selects the tuning model, which requires
    [estimator_kwargs]; with other discriminator keys the discriminator
    raises. *)
Theorem tuner_needs_estimator (v : dict) :
  Dict.get v "tuner_kwargs" <> None ->
  Dict.get v "estimator_kwargs" = None ->
  is_ok (StepModel_model_validate [("step", VDict v)]) = false.
Proof.
  intros Htuner Hestimator.
  assert (Hin : "tuner_kwargs" ∈ matched_keys v).
  { unfold matched_keys. apply elem_of_intersection. split.
    - unfold step_types. rewrite elem_of_list_to_set.
      repeat first [apply list_elem_of_here | apply list_elem_of_further].
    - apply keys_elem_of. exact Htuner. }
  assert (Hout : "estimator_kwargs" ∉ matched_keys v).
  { unfold matched_keys. rewrite elem_of_intersection, keys_elem_of.
    intros [_ Hget]. exact (Hget Hestimator). }
  unfold StepModel_model_validate. cbn [Dict.get]. rewrite String.eqb_refl.
  unfold select_variant, get_discriminator_value. cbv zeta.
  destruct (decide (size (matched_keys v) = 1)) as [H1 | H1].
  - apply size_1_elem_of in H1 as [k Hk]. apply leibniz_equiv in Hk.
    rewrite Hk in Hin. apply elem_of_singleton in Hin. subst k.
    rewrite Hk, elements_singleton. run_M.
    change (variant_of_tag "tuner_kwargs") with (Some TuningStepModel). cbv iota.
    unfold validate_variant. run_M.
    destruct (validate_fields_missing (model_fields TuningStepModel) v
                (required "estimator_kwargs" TDict)) as [msg ->];
      [| reflexivity | exact Hestimator | reflexivity].
    cbn. tauto.
  - destruct (decide _) as [[_ Hsub] | _]; [| reflexivity].
    exfalso. apply Hout, Hsub. set_solver.
Qed.

Section MoreStepBuild.

Context `{Sdk}.

(** X17.  Building a step, of whatever variant, changes nothing of the
    builder but the record of SDK calls, and whatever it raises comes out
    wrapped in the step exception that carries the name of the step. *)
Theorem StepModel_build_wraps (m : step_model) (self : PipelineBuilder) :
  let '(r, self') := StepModel_build m self in
  steps self' = steps self
  /\ parameters self' = parameters self
  /\ property_files self' = property_files self
  /\ pipeline self' = pipeline self
  /\ forall e, r = Err e ->
       exists cause, e = SagemakerStepException (step_model_name m) cause.
Proof.
  destruct (logs_only_StepModel_build m self) as [evs Hevs].
  unfold StepModel_build in *.
  destruct (step_build m self) as [[step | err] self1]; cbn in Hevs; subst self1.
  - rewrite steps_log_events, parameters_log_events, property_files_log_events,
      pipeline_log_events. repeat split. discriminate.
  - rewrite steps_log_events, parameters_log_events, property_files_log_events,
      pipeline_log_events. repeat split. intros e [= <-]. eexists. reflexivity.
Qed.

End MoreStepBuild.

Lemma emr_step_mutually_exclusive_witness :
  exists msg,
    StepModel_model_validate
      [("step", VDict [ ("name", VStr "emr"); ("emr_step_config_kwargs", VDict []);
                        ("display_name", VStr "emr"); ("description", VStr "job") ])]
    = Err (ValidationError msg).
Proof.
  refine (proj1 (emr_step_mutually_exclusive _ _) _).
  - vm_compute. reflexivity.
  - reflexivity.
Defined.

Lemma check_step_mutually_exclusive_witness :
  exists msg,
    StepModel_model_validate
      [("step", VDict [ ("name", VStr "check"); ("check_job_config_kwargs", VDict []);
                        ("clarify_check_config", VStr "a");
                        ("quality_check_config", VStr "b") ])]
    = Err (ValidationError msg).
Proof.
  refine (proj1 (check_step_mutually_exclusive _ _) _).
  - vm_compute. reflexivity.
  - reflexivity.
Defined.

Lemma required_field_missing_witness :
  exists msg,
    StepModel_model_validate
      [("step", VDict [ ("name", VStr "check"); ("conditions", VList []);
                        ("if_steps", VList []) ])]
    = Err (ValidationError msg).
Proof.
  apply (required_field_missing _ ConditionStepModel (required "else_steps" TList)).
  - vm_compute. reflexivity.
  - cbn. tauto.
  - reflexivity.
  - reflexivity.
Defined.

Lemma tuner_needs_estimator_witness :
  is_ok (StepModel_model_validate
           [("step", VDict [ ("name", VStr "tune"); ("tuner_kwargs", VDict []);
                             ("fit_kwargs", VDict []) ])]) = false.
Proof.
  apply tuner_needs_estimator; [discriminate | reflexivity].
Defined.

(** * More of the assembler *)

Section MoreBuild.

Context `{Sdk}.

(** X18.  [build] leaves the tables of the builder as they are.  When it
    returns, the pipeline is the object the SDK made of the name, the
    parameters and the steps of the tables in the order of their insertion,
    the session and the two configurations; when it raises, the pipeline is
    what it was before. *)
Theorem build_outcome (self self' : PipelineBuilder) (r : result unit) :
  build self = (r, self') ->
  steps self' = steps self
  /\ parameters self' = parameters self
  /\ property_files self' = property_files self
  /\ (r = Ok tt ->
      exists definition_config attributes,
        sdk_new "PipelineDefinitionConfig"
          [("use_custom_job_prefix", use_custom_job_prefix self)]
        = Ok definition_config
        /\ sdk_new "Pipeline"
             [ ("name", name self);
               ("parameters", VList (Dict.values (parameters self)));
               ("steps", VList (Dict.values (steps self)));
               ("sagemaker_session", sagemaker_session self);
               ("pipeline_definition_config",
                VObj "PipelineDefinitionConfig" definition_config);
               ("pipeline_experiment_config", pipeline_experiment_config self) ]
           = Ok attributes
        /\ pipeline self' = VObj "Pipeline" attributes)
  /\ (r <> Ok tt -> pipeline self' = pipeline self).
Proof.
  unfold build, pipeline_definition_config, new. run_M.
  destruct (sdk_new "PipelineDefinitionConfig" _) as [definition_config | e]
    eqn:Hconfig; cbn.
  - destruct (sdk_new "Pipeline" _) as [attributes | e] eqn:Hpipeline;
      intros [= <- <-]; cbn.
    + split; [reflexivity |]. split; [reflexivity |]. split; [reflexivity |].
      split; [| intros Hne; destruct (Hne eq_refl)].
      intros _. exists definition_config, attributes.
      split; [reflexivity |]. split; [exact Hpipeline | reflexivity].
    + split; [reflexivity |]. split; [reflexivity |]. split; [reflexivity |].
      split; [discriminate | reflexivity].
  - intros [= <- <-]. cbn.
    split; [reflexivity |]. split; [reflexivity |]. split; [reflexivity |].
    split; [discriminate | reflexivity].
Qed.

End MoreBuild.

Lemma build_outcome_witness :
  let a := VObj "FailStep" [("name", VStr "a")] in
  let b := VObj "FailStep" [("name", VStr "b")] in
  let self := set_steps [("b", b); ("a", a)] PipelineBuilder_init in
  exists attributes,
    pipeline (snd (build (H := symbolic_sdk) self)) = VObj "Pipeline" attributes
    /\ Dict.get attributes "steps" = Some (VList [b; a]).
Proof.
  intros a b self.
  destruct (build_outcome (H := symbolic_sdk) self
              (snd (build (H := symbolic_sdk) self)) (Ok tt) eq_refl)
    as (_ & _ & _ & Hok & _).
  destruct (Hok eq_refl) as (definition_config & attributes & _ & Hnew & Hpipeline).
  exists attributes. split; [exact Hpipeline |].
  cbn in Hnew. injection Hnew as <-. reflexivity.
Defined.

(** * More of the configuration store *)

(** X19.  A scalar in which no [${] opens is loaded as it is, whatever the
    environment. *)
Theorem env_vars_constructor_no_placeholder
    (environ : gmap string string) (value : string) :
  Str.contains "${" value = false ->
  env_vars_constructor environ value = value.
Proof.
  intros Hno. unfold env_vars_constructor, PATTERN_ENV_VARS_findall.
  rewrite findall_no_open by exact Hno. reflexivity.
Qed.

Lemma env_vars_constructor_no_placeholder_witness :
  env_vars_constructor {[ "HOME" := "/root" ]} "cost: 5$ {HOME}" = "cost: 5$ {HOME}".
Proof.
  exact (env_vars_constructor_no_placeholder {[ "HOME" := "/root" ]}
           "cost: 5$ {HOME}" eq_refl).
Defined.

Lemma dict_set_fresh (d : dict) (k : string) (v : value) :
  ~ In k (Dict.keys d) -> Dict.set d k v = d ++ [(k, v)].
Proof.
  induction d as [| [k' v'] d IH]; intros Hfresh; [reflexivity |].
  cbn [Dict.set]. destruct (String.eqb_spec k k') as [-> | _].
  - destruct Hfresh. left. reflexivity.
  - cbn. rewrite IH; [reflexivity |]. intros Hin. apply Hfresh. right. exact Hin.
Qed.

Lemma dict_update_fresh (acc d : dict) :
  List.NoDup (Dict.keys (acc ++ d)) -> Dict.update acc d = acc ++ d.
Proof.
  revert acc. induction d as [| [k v] d IH]; intros acc Hnodup.
  - cbn. rewrite app_nil_r. reflexivity.
  - unfold Dict.update in *. cbn [fold_left fst snd].
    assert (Hfresh : ~ In k (Dict.keys acc)).
    { unfold Dict.keys in *. rewrite map_app in Hnodup. cbn in Hnodup.
      apply List.NoDup_remove_2 in Hnodup. intros Hin. apply Hnodup.
      apply in_or_app. left. exact Hin. }
    rewrite dict_set_fresh by exact Hfresh.
    rewrite IH; rewrite <- app_assoc; [reflexivity | exact Hnodup].
Qed.

Lemma dict_update_get (acc d : dict) (k : string) :
  List.NoDup (Dict.keys d) ->
  Dict.get (Dict.update acc d) k
  = match Dict.get d k with
    | Some v => Some v
    | None => Dict.get acc k
    end.
Proof.
  revert acc. induction d as [| [k' v'] d IH]; intros acc Hnodup; [reflexivity |].
  unfold Dict.update in *. cbn [fold_left fst snd]. cbn [Dict.keys map fst] in Hnodup.
  apply List.NoDup_cons_iff in Hnodup as [Hfresh Hnodup].
  rewrite IH by exact Hnodup. cbn [Dict.get].
  destruct (String.eqb_spec k k') as [-> | Hne].
  - destruct (Dict.get d k') eqn:Hget.
    + destruct Hfresh. apply dict_get_in_keys. rewrite Hget. discriminate.
    + apply dict_get_set_eq.
  - destruct (Dict.get d k); [reflexivity |].
    apply dict_get_set_ne. congruence.
Qed.

(** X20.  Setting a context from a mapping merges it into the context held:
    a key of the mapping takes the mapping's value, every other key keeps
    the value it had; on a blueprint whose context is empty the context
    becomes the mapping itself, order included. *)
Theorem set_context_merges (self_context context : dict) (key : string) :
  List.NoDup (Dict.keys context) ->
  Dict.get (set_context_dict self_context context) key
  = match Dict.get context key with
    | Some v => Some v
    | None => Dict.get self_context key
    end
  /\ set_context_dict [] context = context.
Proof.
  intros Hnodup. unfold set_context_dict. split.
  - apply dict_update_get, Hnodup.
  - apply (dict_update_fresh [] context). exact Hnodup.
Qed.

Lemma set_context_merges_witness :
  set_context_dict [("env", VStr "dev"); ("team", VStr "ml")] [("env", VStr "prod")]
  = [("env", VStr "prod"); ("team", VStr "ml")]
  /\ Dict.get (set_context_dict [("env", VStr "dev"); ("team", VStr "ml")]
                 [("env", VStr "prod")]) "team" = Some (VStr "ml").
Proof.
  split; [reflexivity |].
  rewrite (proj1 (set_context_merges [("env", VStr "dev"); ("team", VStr "ml")]
                    [("env", VStr "prod")] "team"
                    ltac:(repeat constructor; cbn; tauto))).
  reflexivity.
Defined.

(** * The command line *)

Lemma context_items_parity (others : list string) :
  (context_items others = None <-> Nat.odd (length others) = true)
  /\ forall other,
       context_items (other :: others) = None
       <-> Nat.odd (length (other :: others)) = true.
Proof.
  induction others as [| key others [IH IHcons]].
  - split; [split; discriminate |]. intros other. split; reflexivity.
  - split; [apply IHcons |]. intros other. cbn [context_items].
    change (Nat.odd (length (other :: key :: others)))
      with (Nat.odd (length others)).
    rewrite <- IH. destruct (context_items others); split; congruence.
Qed.

(** X21.  The arguments [main] does not know are read two at a time, a key
    and its value: their context exists exactly when they are even in
    number; with an odd number the value of the last key is out of range. *)
Theorem main_context_parity (others : list string) :
  main_context others = None <-> Nat.odd (length others) = true.
Proof.
  rewrite <- (proj1 (context_items_parity others)). unfold main_context.
  destruct (context_items others); split; congruence.
Qed.

Lemma replace_dash_no_dash (s : string) :
  has_char "-" (Str.replace_aux "-" "_" 0 s) = false.
Proof.
  induction s as [| c s IH]; [reflexivity |].
  rewrite replace_aux_cons. cbn [String.prefix].
  destruct (ascii_dec "-" c) as [<- | Hne].
  - rewrite prefix_empty. cbn [String.length Nat.sub].
    rewrite append_cons, append_empty_l. cbn [has_char]. exact IH.
  - cbn [has_char]. rewrite IH.
    destruct (Ascii.eqb_spec c "-") as [-> | _]; [destruct (Hne eq_refl) | reflexivity].
Qed.

Lemma dict_set_keys_in (d : dict) (k k' : string) (v : value) :
  In k (Dict.keys (Dict.set d k' v)) -> k = k' \/ In k (Dict.keys d).
Proof.
  induction d as [| [k0 v0] d IH]; cbn.
  - intros [<- | []]. left. reflexivity.
  - destruct (String.eqb k' k0); cbn; [tauto |].
    intros [<- | Hin]; [right; left; reflexivity |].
    destruct (IH Hin) as [-> | Hin']; [left; reflexivity | right; right; exact Hin'].
Qed.

Lemma dict_update_keys_in (acc d : dict) (k : string) :
  In k (Dict.keys (Dict.update acc d)) -> In k (Dict.keys acc) \/ In k (Dict.keys d).
Proof.
  revert acc. induction d as [| [k' v'] d IH]; intros acc; [left; assumption |].
  unfold Dict.update in *. cbn [fold_left fst snd]. intros Hin.
  destruct (IH _ Hin) as [Hacc | Hd]; [| right; right; exact Hd].
  destruct (dict_set_keys_in _ _ _ _ Hacc) as [-> | Hacc'];
    [right; left; reflexivity | left; exact Hacc'].
Qed.

Lemma context_items_keys (others : list string) (items : dict) (k : string) :
  context_items others = Some items ->
  In k (Dict.keys items) -> exists other, k = context_key other.
Proof.
  revert items.
  assert (Hboth : (forall items, context_items others = Some items ->
                     In k (Dict.keys items) -> exists other, k = context_key other)
                  /\ forall first items,
                       context_items (first :: others) = Some items ->
                       In k (Dict.keys items) -> exists other, k = context_key other).
  { induction others as [| key others [IH IHcons]].
    - split; [intros items [= <-] [] | intros first items [=]].
    - split; [apply IHcons |]. intros first items. cbn [context_items].
      destruct (context_items others) as [rest |]; [| discriminate].
      intros [= <-] [<- | Hin]; [exists first; reflexivity |].
      apply (IH rest eq_refl Hin). }
  apply Hboth.
Qed.

(** X22.  Every key of the context [main] builds is free of hyphens: the
    argument it comes from has lost its leading [--], and each hyphen left
    has become an underscore. *)
Theorem main_context_keys (others : list string) (context : dict) (key : string) :
  main_context others = Some context ->
  In key (Dict.keys context) ->
  has_char "-" key = false.
Proof.
  unfold main_context. destruct (context_items others) as [items |] eqn:Hitems;
    [| discriminate].
  intros [= <-] Hin.
  destruct (dict_update_keys_in [] items key Hin) as [[] | Hin'].
  destruct (context_items_keys others items key Hitems Hin') as [other ->].
  apply replace_dash_no_dash.
Qed.

Lemma split_once_pair (k v : string) :
  has_char "=" k = false -> split_once "=" (k +:+ "=" +:+ v) = [k; v].
Proof.
  induction k as [| c k IH]; [reflexivity |]. cbn [has_char]. intros Hno.
  apply orb_false_iff in Hno as [Hc Hk]. rewrite append_cons.
  cbn [split_once]. rewrite Hc, IH by exact Hk. reflexivity.
Qed.

Lemma dict_of_items_pairs (pairs : list (string * string)) (acc : dict) :
  Forall (fun kv => has_char "=" (fst kv) = false) pairs ->
  dict_of_items
    (map (split_once "=") (map (fun kv => fst kv +:+ "=" +:+ snd kv) pairs)) acc
  = Ok (Dict.update acc (map (fun kv => (fst kv, VStr (snd kv))) pairs)).
Proof.
  intros Hall. revert acc. induction Hall as [| [k v] pairs Hk _ IH]; intros acc.
  - reflexivity.
  - cbn [map fst snd]. rewrite split_once_pair by exact Hk.
    cbn [dict_of_items]. rewrite IH. reflexivity.
Qed.

(** X23.  Parameters given as [KEY=VALUE], the keys without equals sign,
    reach [pipeline.start] as the dictionary of the keys and values, behind
    the pipeline name under [name]: a value may hold equals signs, a key
    given twice takes the later value, and a parameter called [name]
    replaces the pipeline name. *)
Theorem start_parameters_pairs (pipeline_name : string) (pairs : list (string * string)) :
  Forall (fun kv => has_char "=" (fst kv) = false) pairs ->
  start_parameters pipeline_name (map (fun kv => fst kv +:+ "=" +:+ snd kv) pairs)
  = Ok (Dict.update [("name", VStr pipeline_name)]
          (Dict.update [] (map (fun kv => (fst kv, VStr (snd kv))) pairs))).
Proof.
  intros Hall. unfold start_parameters.
  rewrite dict_of_items_pairs by exact Hall. reflexivity.
Qed.

Lemma split_once_no_separator (s : string) :
  has_char "=" s = false -> split_once "=" s = [s].
Proof.
  induction s as [| c s IH]; [reflexivity |]. cbn [has_char]. intros Hno.
  apply orb_false_iff in Hno as [Hc Hs]. cbn [split_once].
  rewrite Hc, IH by exact Hs. reflexivity.
Qed.

(** X24.  A parameter without equals sign cannot be made into a key and a
    value: building the dictionary raises a [ValueError], whatever the other
    parameters are. *)
Theorem start_parameters_no_equals
    (pipeline_name : string) (parameters : list string) (parameter : string) :
  In parameter parameters ->
  has_char "=" parameter = false ->
  exists msg, start_parameters pipeline_name parameters = Err (ValueError msg).
Proof.
  intros Hin Hno. unfold start_parameters.
  assert (Hfails : forall acc, exists msg,
            dict_of_items (map (split_once "=") parameters) acc = Err (ValueError msg)).
  { induction parameters as [| p parameters IH]; [destruct Hin |]. intros acc.
    cbn [map dict_of_items]. destruct Hin as [-> | Hin].
    - rewrite split_once_no_separator by exact Hno. eexists. reflexivity.
    - destruct (split_once "=" p) as [| a [| b [| c rest]]];
        first [apply (IH Hin) | eexists; reflexivity]. }
  destruct (Hfails []) as [msg ->]. exists msg. reflexivity.
Qed.

Lemma main_context_keys_witness :
  main_context ["--my-env"; "prod"; "team-name"; "ml-ops"]
  = Some [("my_env", VStr "prod"); ("team_name", VStr "ml-ops")]
  /\ has_char "-" "my_env" = false.
Proof.
  split; [reflexivity |].
  apply (main_context_keys ["--my-env"; "prod"; "team-name"; "ml-ops"]
           [("my_env", VStr "prod"); ("team_name", VStr "ml-ops")] "my_env").
  - reflexivity.
  - left. reflexivity.
Defined.

Lemma start_parameters_pairs_witness :
  start_parameters "train" ["Epochs=3"; "name=other"; "Filter=a=b"]
  = Ok [ ("name", VStr "other"); ("Epochs", VStr "3"); ("Filter", VStr "a=b") ].
Proof.
  apply (start_parameters_pairs "train"
           [("Epochs", "3"); ("name", "other"); ("Filter", "a=b")]).
  repeat constructor.
Defined.

Lemma start_parameters_no_equals_witness :
  exists msg,
    start_parameters "train" ["Epochs=3"; "Verbose"] = Err (ValueError msg).
Proof.
  apply (start_parameters_no_equals "train" ["Epochs=3"; "Verbose"] "Verbose").
  - right. left. reflexivity.
  - reflexivity.
Defined.

(** * The resource registry *)

Lemma load_entry_points_loaded (entries : dict) (resources : dict) :
  load_entry_points (map (fun kv => (fst kv, Ok (snd kv))) entries) resources
  = (Ok tt, Dict.update resources entries).
Proof.
  revert resources. induction entries as [| [k v] entries IH]; intros resources;
    [reflexivity |].
  cbn [map load_entry_points fst snd]. rewrite IH. reflexivity.
Qed.

Lemma load_entry_points_raises
    (entries : dict) (broken : string) (e : error)
    (later : list (string * result value)) (resources : dict) :
  load_entry_points
    (map (fun kv => (fst kv, Ok (snd kv))) entries ++ (broken, Err e) :: later)
    resources
  = (Err e, Dict.update resources entries).
Proof.
  revert resources. induction entries as [| [k v] entries IH]; intros resources;
    [reflexivity |].
  cbn [map app load_entry_points fst snd]. rewrite IH. reflexivity.
Qed.

(** X25.  When the load of an entry point raises, the first [get_resource]
    raises the same error and leaves a registry holding only the entry
    points loaded before it; that registry counts as registered, so every
    later lookup reads it and loads nothing again, whatever the entry points
    then are. *)
Theorem get_resource_after_failed_load
    (entries : dict) (broken : string) (e : error)
    (later : list (string * result value)) (resource_name : string) :
  let entry_points :=
    map (fun kv => (fst kv, Ok (snd kv))) entries ++ (broken, Err e) :: later in
  let resources := Some (Dict.update [] entries) in
  get_resource entry_points resource_name None = (Err e, resources)
  /\ forall entry_points' resource_name',
       get_resource entry_points' resource_name' resources
       = (subscript (Dict.update [] entries) resource_name', resources).
Proof.
  cbn zeta. split.
  - unfold get_resource, lazy_register_resources, register_resources.
    cbn [registered_resources negb]. rewrite load_entry_points_raises. reflexivity.
  - intros entry_points' resource_name'. reflexivity.
Qed.

(** X26.  When every entry point loads and no two share a name, the first
    lookup registers them all in their order: [get_resource] returns the
    resource loaded under the name, a [KeyError] for a name no entry point
    has, and [get_resource_names] the names. *)
Theorem get_resource_registers_all (entries : dict) (resource_name : string) :
  List.NoDup (Dict.keys entries) ->
  let entry_points := map (fun kv => (fst kv, Ok (snd kv))) entries in
  get_resource entry_points resource_name None
  = (subscript entries resource_name, Some entries)
  /\ get_resource_names entry_points None = (Ok (Dict.keys entries), Some entries).
Proof.
  intros Hnodup. cbn zeta.
  unfold get_resource, get_resource_names, lazy_register_resources, register_resources.
  cbn [registered_resources negb]. rewrite load_entry_points_loaded.
  rewrite (dict_update_fresh [] entries) by exact Hnodup.
  split; reflexivity.
Qed.

Lemma get_resource_registers_all_witness :
  get_resource [("train", Ok (VStr "trainer")); ("score", Ok (VStr "scorer"))]
    "score" None
  = (Ok (VStr "scorer"),
     Some [("train", VStr "trainer"); ("score", VStr "scorer")])
  /\ get_resource_names
       [("train", Ok (VStr "trainer")); ("score", Ok (VStr "scorer"))] None
     = (Ok ["train"; "score"],
        Some [("train", VStr "trainer"); ("score", VStr "scorer")]).
Proof.
  apply (get_resource_registers_all
           [("train", VStr "trainer"); ("score", VStr "scorer")] "score").
  repeat constructor; cbn; intuition discriminate.
Defined.

(** * The resource configuration *)

Lemma split_aux_first_comma (a rest cur : string) :
  Str.contains "," a = false ->
  Str.split_aux "," 0 cur (a +:+ "," +:+ rest)
  = (cur +:+ a) :: Str.split_aux "," 0 "" rest.
Proof.
  revert cur. induction a as [| c a IH]; intros cur Ha.
  - rewrite append_empty_l, append_cons, append_empty_l, append_empty_r.
    cbn [Str.split_aux String.prefix].
    destruct (ascii_dec "," ",") as [_ | Hne]; [| destruct (Hne eq_refl)].
    rewrite prefix_empty. reflexivity.
  - cbn [Str.contains] in Ha. apply orb_false_iff in Ha as [Hc Ha].
    rewrite append_cons. cbn [Str.split_aux].
    assert (Hp : String.prefix "," (String c (a +:+ "," +:+ rest)) = false).
    { cbn [String.prefix] in *. destruct (ascii_dec "," c); [| reflexivity].
      rewrite prefix_empty in Hc. discriminate Hc. }
    rewrite Hp, IH by assumption. rewrite append_cons_assoc. reflexivity.
Qed.

Lemma split_join_commas (pieces : list string) :
  pieces <> [] ->
  Forall (fun piece => Str.contains "," piece = false) pieces ->
  Str.split "," (join_commas pieces) = pieces.
Proof.
  intros Hne Hall. unfold Str.split.
  induction Hall as [| piece pieces Hpiece Hall IH]; [destruct (Hne eq_refl) |].
  destruct pieces as [| piece' pieces].
  - cbn [join_commas]. rewrite split_aux_no_separator by exact Hpiece.
    reflexivity.
  - change (join_commas (piece :: piece' :: pieces))
      with (piece +:+ "," +:+ join_commas (piece' :: pieces)).
    rewrite split_aux_first_comma by exact Hpiece.
    rewrite IH by discriminate. reflexivity.
Qed.

Lemma split_aux_not_empty (sep : string) (skip : nat) (cur s : string) :
  Str.split_aux sep skip cur s <> [].
Proof.
  revert skip cur. induction s as [| c s IH]; intros skip cur; [discriminate |].
  cbn [Str.split_aux]. destruct skip; [| apply IH].
  destruct (String.prefix sep (String c s)); [discriminate | apply IH].
Qed.

(** X27.  With the team secrets and the network secrets the store returns
    for the two paths of the configuration, [get_resource_config] gives the
    region and the role as they are stored, and the security groups and the
    subnets as the lists their comma-joined secrets were made of. *)
Theorem get_resource_config_secrets
    (get_secret_from_cerberus : value -> value -> result value)
    (cerberus_cfg sdb team network : dict)
    (host team_path network_path region execution_role : value)
    (security_group_ids subnets : list string) :
  Dict.get cerberus_cfg "sdb" = Some (VDict sdb) ->
  Dict.get cerberus_cfg "host" = Some host ->
  Dict.get sdb "team" = Some team_path ->
  Dict.get sdb "network" = Some network_path ->
  get_secret_from_cerberus team_path host = Ok (VDict team) ->
  get_secret_from_cerberus network_path host = Ok (VDict network) ->
  Dict.get team "aws_region" = Some region ->
  Dict.get team "team_exec_role" = Some execution_role ->
  Dict.get network "security_group_id" = Some (VStr (join_commas security_group_ids)) ->
  Dict.get network "private_subnet_ids" = Some (VStr (join_commas subnets)) ->
  security_group_ids <> [] ->
  subnets <> [] ->
  Forall (fun piece => Str.contains "," piece = false) security_group_ids ->
  Forall (fun piece => Str.contains "," piece = false) subnets ->
  get_resource_config get_secret_from_cerberus (VDict cerberus_cfg)
  = Ok (VDict [ ("region", region);
                ("execution_role", execution_role);
                ("security_group_ids", VList (map VStr security_group_ids));
                ("subnets", VList (map VStr subnets)) ]).
Proof.
  intros Hsdb Hhost Hteam Hnetwork Hteam_secrets Hnetwork_secrets
    Hregion Hrole Hgroups Hsubnets Hgroups_ne Hsubnets_ne Hgroups_all Hsubnets_all.
  unfold get_resource_config, item, subscript, split_commas.
  cbn [is_none]. rewrite Hsdb. cbn [mbind result_bind]. unfold mbind, result_bind.
  rewrite Hteam, Hhost, Hteam_secrets, Hnetwork, Hnetwork_secrets.
  rewrite Hregion, Hrole, Hgroups, Hsubnets.
  rewrite !split_join_commas by assumption. reflexivity.
Qed.

(** X28.  Whatever the store returns, a resource configuration that
    [get_resource_config] builds has at least one security group and at
    least one subnet: splitting at the commas never gives the empty list, an
    empty secret gives the list of the empty string. *)
Theorem get_resource_config_never_empty
    (get_secret_from_cerberus : value -> value -> result value)
    (cerberus_cfg : value) (resource_cfg : dict) :
  get_resource_config get_secret_from_cerberus cerberus_cfg = Ok (VDict resource_cfg) ->
  (exists group groups,
     Dict.get resource_cfg "security_group_ids" = Some (VList (group :: groups)))
  /\ (exists subnet subnets,
        Dict.get resource_cfg "subnets" = Some (VList (subnet :: subnets))).
Proof.
  unfold get_resource_config. destruct (is_none cerberus_cfg); [discriminate |].
  unfold mbind, result_bind, mret, result_ret.
  repeat match goal with
         | |- match ?x with _ => _ end = _ -> _ =>
             let r := fresh "r" in destruct x as [r | ?] eqn:?; [| discriminate]
         end.
  intros [= <-].
  repeat match goal with
         | Hsplit : split_commas ?v = Ok _ |- _ =>
             unfold split_commas in Hsplit; destruct v; try discriminate Hsplit;
             injection Hsplit as <-
         end.
  unfold Str.split.
  assert (Hcons : forall s, exists piece pieces,
            map VStr (Str.split_aux "," 0 "" s) = piece :: pieces).
  { intros s1. pose proof (split_aux_not_empty "," 0 "" s1) as Hne.
    destruct (Str.split_aux "," 0 "" s1) as [| piece pieces];
      [destruct (Hne eq_refl) |].
    eexists _, _. reflexivity. }
  split.
  - match goal with
    | |- context [map VStr (Str.split_aux "," 0 "" ?s)] =>
        destruct (Hcons s) as (piece & pieces & ->)
    end.
    eexists _, _. reflexivity.
  - cbn [Dict.get String.eqb Ascii.eqb Bool.eqb].
    match goal with
    | |- context [Some (VList (map VStr (Str.split_aux "," 0 "" ?s)))] =>
        destruct (Hcons s) as (piece & pieces & ->)
    end.
    eexists _, _. reflexivity.
Qed.

Lemma get_resource_config_secrets_witness :
  get_resource_config sample_store (VDict sample_cerberus)
  = Ok (VDict [ ("region", VStr "us-west-2");
                ("execution_role", VStr "arn:role");
                ("security_group_ids", VList [VStr "sg-1"; VStr "sg-2"]);
                ("subnets", VList [VStr ""]) ]).
Proof.
  apply (get_resource_config_secrets sample_store sample_cerberus
           [("team", VStr "app/team"); ("network", VStr "app/network")]
           [("aws_region", VStr "us-west-2"); ("team_exec_role", VStr "arn:role")]
           [("security_group_id", VStr "sg-1,sg-2"); ("private_subnet_ids", VStr "")]
           (VStr "https://cerberus") (VStr "app/team") (VStr "app/network")
           (VStr "us-west-2") (VStr "arn:role") ["sg-1"; "sg-2"] [""]);
    try reflexivity; try discriminate; repeat constructor.
Defined.

Lemma get_resource_config_never_empty_witness :
  (exists group groups,
     Dict.get [ ("region", VStr "us-west-2");
                ("execution_role", VStr "arn:role");
                ("security_group_ids", VList [VStr "sg-1"; VStr "sg-2"]);
                ("subnets", VList [VStr ""]) ] "security_group_ids"
     = Some (VList (group :: groups)))
  /\ (exists subnet subnets,
        Dict.get [ ("region", VStr "us-west-2");
                   ("execution_role", VStr "arn:role");
                   ("security_group_ids", VList [VStr "sg-1"; VStr "sg-2"]);
                   ("subnets", VList [VStr ""]) ] "subnets"
        = Some (VList (subnet :: subnets))).
Proof.
  apply (get_resource_config_never_empty sample_store (VDict sample_cerberus)).
  reflexivity.
Defined.

(** * The order of the blueprint's checks *)

Lemma for_each_first_error {A : Type} (f : A -> result unit)
    (before : list A) (a : A) (after : list A) (e : error) :
  Forall (fun b => f b = Ok tt) before ->
  f a = Err e ->
  for_each f (before ++ a :: after) = Err e.
Proof.
  intros Hbefore Ha. induction Hbefore as [| b before Hb _ IH].
  - cbn [app for_each]. run_M. rewrite Ha. reflexivity.
  - cbn [app for_each]. run_M. rewrite Hb. exact IH.
Qed.

Lemma validate_key_list (config : dict) (filename key : string) (l : list value) :
  Dict.get config key = Some (VList l) -> validate_key config filename key = Ok tt.
Proof. unfold validate_key. intros ->. reflexivity. Qed.

(** X29.  The three keys are checked in the order backends, context,
    hierarchy, and the first one that is missing ends the validation: the
    error names that key and the configuration file, whatever else is wrong
    further on. *)
Theorem validate_first_missing_key
    (config : dict) (filename : string)
    (before : list string) (key : string) (after : list string) :
  hiera_keys = before ++ key :: after ->
  Forall (fun k => exists l, Dict.get config k = Some (VList l)) before ->
  Dict.get config key = None ->
  validate config filename
  = Err (PipelineBlueprintValidationError
           (key +:+ " not defined in the hiera configuration file: " +:+ filename)).
Proof.
  intros Hkeys Hbefore Hmissing. unfold validate. rewrite Hkeys.
  rewrite (for_each_first_error (validate_key config filename) before key after
             (PipelineBlueprintValidationError
                (key +:+ " not defined in the hiera configuration file: "
                   +:+ filename))).
  - reflexivity.
  - eapply Forall_impl; [exact Hbefore |]. cbn beta.
    intros k [l Hl]. exact (validate_key_list _ _ _ _ Hl).
  - unfold validate_key. rewrite Hmissing. reflexivity.
Qed.

Lemma validate_backend_configured (config : dict) (filename : string) (backend : value) :
  configured config backend -> validate_backend config filename backend = Ok tt.
Proof.
  intros (b & d & -> & Hget & Hdatadir). unfold validate_backend.
  cbn [config_item]. run_M. rewrite Hget, Hdatadir. reflexivity.
Qed.

(** X30.  A backends entry that is a list or a mapping cannot be looked up
    in the configuration: when the three keys are lists and the entries
    before it are configured, the [TypeError] of the lookup leaves
    [validate] as it is, not as the blueprint validation error. *)
Theorem validate_unhashable_escapes
    (config : dict) (filename : string) (good : list value) (bad : value)
    (rest : list value) :
  (forall key, In key hiera_keys -> exists l, Dict.get config key = Some (VList l)) ->
  Dict.get config "backends" = Some (VList (good ++ bad :: rest)) ->
  Forall (configured config) good ->
  ~ hashable bad ->
  validate config filename = Err (TypeError "unhashable type").
Proof.
  intros Hkeys Hbackends Hgood Hbad. unfold validate.
  assert (Hfirst : for_each (validate_key config filename) hiera_keys = Ok tt).
  { unfold hiera_keys in *. cbn [for_each]. run_M.
    destruct (Hkeys "backends") as [l1 H1]; [cbn; tauto |].
    destruct (Hkeys "context") as [l2 H2]; [cbn; tauto |].
    destruct (Hkeys "hierarchy") as [l3 H3]; [cbn; tauto |].
    rewrite (validate_key_list _ _ _ _ H1), (validate_key_list _ _ _ _ H2),
      (validate_key_list _ _ _ _ H3). reflexivity. }
  run_M. rewrite Hfirst. unfold subscript. rewrite Hbackends. cbn [py_iter].
  apply for_each_first_error.
  - eapply Forall_impl; [exact Hgood |]. cbn beta.
    intros backend. apply validate_backend_configured.
  - unfold validate_backend. destruct bad; cbn [hashable] in Hbad;
      try (destruct Hbad; exact I); reflexivity.
Qed.

Lemma validate_first_missing_key_witness :
  validate [ ("backends", VList [VStr "yaml"]); ("hierarchy", VStr "common") ]
    "hiera.yaml"
  = Err (PipelineBlueprintValidationError
           "context not defined in the hiera configuration file: hiera.yaml").
Proof.
  apply (validate_first_missing_key
           [ ("backends", VList [VStr "yaml"]); ("hierarchy", VStr "common") ]
           "hiera.yaml" ["backends"] "context" ["hierarchy"]).
  - reflexivity.
  - constructor; [| constructor]. exists [VStr "yaml"]. reflexivity.
  - reflexivity.
Defined.

Lemma validate_unhashable_escapes_witness :
  validate [ ("backends", VList [VStr "yaml"; VDict [("json", VNone)]; VStr "toml"]);
             ("context", VList []); ("hierarchy", VList []);
             ("yaml", VDict [("datadir", VStr "config")]) ] "hiera.yaml"
  = Err (TypeError "unhashable type").
Proof.
  apply (validate_unhashable_escapes _ "hiera.yaml"
           [VStr "yaml"] (VDict [("json", VNone)]) [VStr "toml"]).
  - intros key [<- | [<- | [<- | []]]]; eexists; reflexivity.
  - reflexivity.
  - constructor; [| constructor].
    exists "yaml", [("datadir", VStr "config")]. repeat split.
  - intros Hhashable. exact Hhashable.
Defined.
